(** * sysinfo-py: a shallow embedding of [script.py] and its properties

    The script probes the host (CPU counts, OS identity, RAM, GPU names)
    and prints the answers as a bordered two-column table.  Every probe of
    the operating system is an input here: the record [host] holds what
    each system call, file read and subprocess answered (or the exception
    it raised), and the functions of the script are functions of that
    record.  Functions that may raise return a [result]; the
    [try]/[except] blocks of the script are [try_except] below.

    Text: a Python [str] is a [string]; one character of the model is one
    code point, so the model covers the code points below 256.  On these
    [py_isspace] and [py_lower] agree with [str.isspace] and [str.lower]. *)

From Stdlib Require Import ZArith String Ascii List Lia Bool.
From stdpp Require Import gmap strings list pretty.

Open Scope Z_scope.

(** ** Exceptions and results *)

Inductive exn : Type :=
  | FileNotFoundError
  | PermissionError
  | OSError
  | ValueError
  | UnicodeDecodeError
  | AttributeError
  | IndexError
  | ImportError
  | OverflowError
  | TimeoutExpired
  | RuntimeError
  | NotImplementedError.

(** The classes an [except] clause of the script names. *)
Inductive exn_class : Type :=
  | AnyException
  | ClsFileNotFoundError
  | ClsOSError
  | ClsValueError
  | ClsAttributeError.

(** [isinstance(e, cls)], following the class hierarchy of the built-in
    exceptions: [FileNotFoundError] and [PermissionError] derive from
    [OSError], [UnicodeDecodeError] from [ValueError]. *)
Definition exn_isinstance (e : exn) (cls : exn_class) : bool :=
  match cls, e with
  | AnyException, _ => true
  | ClsFileNotFoundError, FileNotFoundError => true
  | ClsOSError, (OSError | FileNotFoundError | PermissionError) => true
  | ClsValueError, (ValueError | UnicodeDecodeError) => true
  | ClsAttributeError, AttributeError => true
  | _, _ => false
  end.

Inductive result (A : Type) : Type :=
  | Ok (a : A)
  | Raise (e : exn).

Arguments Ok {A} a.
Arguments Raise {A} e.

#[global] Instance result_ret : MRet result := fun A a => Ok a.

#[global] Instance result_bind : MBind result := fun A B k c =>
  match c with
  | Ok a => k a
  | Raise e => Raise e
  end.

(** [try: c  except (classes): handler]. *)
Definition try_except {A : Type} (c : result A) (classes : list exn_class)
    (handler : exn -> result A) : result A :=
  match c with
  | Ok a => Ok a
  | Raise e =>
      if existsb (exn_isinstance e) classes then handler e else Raise e
  end.

Definition raises {A : Type} (c : result A) : Prop :=
  match c with
  | Ok _ => False
  | Raise _ => True
  end.

(** ** The operations of [str] the script uses *)

Definition code (c : ascii) : Z := Z.of_N (N_of_ascii c).

(** [str.isspace] on one character. *)
Definition py_isspace (c : ascii) : bool :=
  let n := code c in
  ((9 <=? n) && (n <=? 13)) || ((28 <=? n) && (n <=? 32))
  || (n =? 133) || (n =? 160).

(** [s.lstrip(chars)] and [s.rstrip(chars)], the characters to remove
    given as a predicate. *)
Fixpoint lstrip_by (p : ascii -> bool) (s : string) : string :=
  match s with
  | EmptyString => EmptyString
  | String c r => if p c then lstrip_by p r else s
  end.

Fixpoint rstrip_by (p : ascii -> bool) (s : string) : string :=
  match s with
  | EmptyString => EmptyString
  | String c r =>
      match rstrip_by p r with
      | EmptyString => if p c then EmptyString else String c EmptyString
      | r' => String c r'
      end
  end.

Definition strip_by (p : ascii -> bool) (s : string) : string :=
  lstrip_by p (rstrip_by p s).

(** [s.strip()] *)
Definition strip (s : string) : string := strip_by py_isspace s.

(** The double quote character. *)
Definition dquote : ascii := Eval cbv in ascii_of_N 34.

(** [s.strip(q)] where [q] is the string of one double quote *)
Definition strip_quotes (s : string) : string :=
  strip_by (fun c => Ascii.eqb c dquote) s.

(** Truth value of a string: [if s] *)
Definition nonempty (s : string) : bool :=
  match s with
  | EmptyString => false
  | String _ _ => true
  end.

(** [s.startswith(p)] *)
Definition startswith (s p : string) : bool := String.prefix p s.

(** [str.lower] on one character. *)
Definition lower_char (c : ascii) : ascii :=
  let n := code c in
  if ((65 <=? n) && (n <=? 90))
     || ((192 <=? n) && (n <=? 222) && negb (n =? 215))
  then ascii_of_N (Z.to_N (n + 32)) else c.

Fixpoint py_lower (s : string) : string :=
  match s with
  | EmptyString => EmptyString
  | String c r => String (lower_char c) (py_lower r)
  end.

(** [s.split()]: the maximal runs of characters that are not white
    space. *)
Fixpoint py_split (s : string) : list string :=
  match s with
  | EmptyString => []
  | String c r =>
      if py_isspace c then py_split r
      else
        match r with
        | EmptyString => [String c EmptyString]
        | String c' _ =>
            if py_isspace c' then String c EmptyString :: py_split r
            else
              match py_split r with
              | t :: ts => String c t :: ts
              | [] => [String c EmptyString]
              end
        end
  end.

(** The first occurrence of the separator, if any: the text before it
    and the text after it. *)
Fixpoint cut (sep : ascii) (s : string) : option (string * string) :=
  match s with
  | EmptyString => None
  | String c r =>
      if Ascii.eqb c sep then Some (EmptyString, r)
      else
        match cut sep r with
        | Some (a, b) => Some (String c a, b)
        | None => None
        end
  end.

(** [s.split(sep, 1)] for a separator of one character. *)
Definition split1 (sep : ascii) (s : string) : list string :=
  match cut sep s with
  | Some (a, b) => [a; b]
  | None => [s]
  end.

(** [parts[1]] *)
Definition index1 (parts : list string) : result string :=
  match parts with
  | _ :: x :: _ => Ok x
  | _ => Raise IndexError
  end.

(** [needle in s] *)
Fixpoint contains (s needle : string) : bool :=
  if String.prefix needle s then true
  else
    match s with
    | EmptyString => false
    | String _ r => contains r needle
    end.

Definition digit_of (c : ascii) : option Z :=
  let n := code c in
  if (48 <=? n) && (n <=? 57) then Some (n - 48) else None.

(** The digits of a decimal literal, where single underscores may
    separate digits. *)
Fixpoint int_digits (s : string) (acc : Z) (after_digit : bool) : option Z :=
  match s with
  | EmptyString => if after_digit then Some acc else None
  | String c r =>
      if Ascii.eqb c "_" then
        if after_digit then int_digits r acc false else None
      else
        match digit_of c with
        | Some d => int_digits r (acc * 10 + d) true
        | None => None
        end
  end.

(** The white space [int(s)] skips at the two ends of a string: the
    ASCII white space, and the code points 133 and 160, which it reads as
    spaces.  The separators 28 to 31, which [str.strip] removes, are not
    skipped. *)
Definition int_isspace (c : ascii) : bool :=
  let n := code c in
  ((9 <=? n) && (n <=? 13)) || (n =? 32) || (n =? 133) || (n =? 160).

(** The integer a decimal literal denotes, whatever its length: white
    space around, an optional sign, decimal digits. *)
Definition int_literal (s : string) : option Z :=
  match strip_by int_isspace s with
  | String "+" r => int_digits r 0 false
  | String "-" r => option_map Z.opp (int_digits r 0 false)
  | t => int_digits t 0 false
  end.

(** The number of decimal digits in a text. *)
Fixpoint digit_count (s : string) : nat :=
  match s with
  | EmptyString => O
  | String c r =>
      match digit_of c with
      | Some _ => S (digit_count r)
      | None => digit_count r
      end
  end.

(** [sys.get_int_max_str_digits()]: the interpreter's limit on the digits
    of a decimal conversion, which the script leaves at its default. *)
Definition int_max_str_digits : nat := 4300.

(** [int(s)] for a string: the integer of the literal; [ValueError] for
    a text that is no literal and for a literal of more digits than the
    interpreter's limit (leading zeros count). *)
Definition py_int (s : string) : result Z :=
  if (digit_count s <=? int_max_str_digits)%nat then
    match int_literal s with
    | Some v => Ok v
    | None => Raise ValueError
    end
  else Raise ValueError.

(** [str(n)] for an integer: [ValueError] above the same limit. *)
Definition py_str (n : Z) : result string :=
  if (digit_count (pretty n) <=? int_max_str_digits)%nat then Ok (pretty n)
  else Raise ValueError.

(** [char * n] *)
Fixpoint repeat_char (c : ascii) (n : nat) : string :=
  match n with
  | O => EmptyString
  | S n' => String c (repeat_char c n')
  end.

(** [s.ljust(width)] *)
Definition ljust (s : string) (width : nat) : string :=
  s +:+ repeat_char " " (width - String.length s).

(** [max(xs)] for a list that starts with [x]. *)
Definition py_max (x : nat) (xs : list nat) : nat := fold_left Nat.max xs x.

(** ** Table renderer *)

Definition default_header : option (string * string) :=
  Some ("Property", "Value").

Definition col1_width (rows : list (string * string))
    (header : option (string * string)) : nat :=
  py_max (match header with Some h => String.length (fst h) | None => O end)
         (map (fun kv => String.length (fst kv)) rows).

Definition col2_width (rows : list (string * string))
    (header : option (string * string)) : nat :=
  py_max (match header with Some h => String.length (snd h) | None => O end)
         (map (fun kv => String.length (snd kv)) rows).

Definition sep (w1 w2 : nat) (char : ascii) : string :=
  "+-" +:+ repeat_char char w1 +:+ "-+-" +:+ repeat_char char w2 +:+ "-+".

Definition row_line (w1 w2 : nat) (kv : string * string) : string :=
  "| " +:+ ljust (fst kv) w1 +:+ " | " +:+ ljust (snd kv) w2 +:+ " |".

Definition table_lines (rows : list (string * string))
    (header : option (string * string)) : list string :=
  let w1 := col1_width rows header in
  let w2 := col2_width rows header in
  [sep w1 w2 "-"]
  ++ match header with
     | Some h => [row_line w1 w2 h; sep w1 w2 "="]
     | None => []
     end
  ++ map (row_line w1 w2) rows
  ++ [sep w1 w2 "-"].

Definition scenario_rows : list (string * string) :=
  [("Operating system", "Test OS"); ("Physical cores", "4");
   ("Logical cores", "8")].


(** ** Loops with [break] and [return] *)

(** How one iteration of a loop body ends: it falls through to the next
    iteration, it breaks out of the loop, or it returns from the
    function.  [S] is the state of the variables the loop assigns. *)
Inductive flow (S R : Type) : Type :=
  | Next (s : S)
  | Break (s : S)
  | Return (r : R).

Arguments Next {S R} s.
Arguments Break {S R} s.
Arguments Return {S R} r.

(** [for x in xs: body].  The answer is [Next s] when the list is
    exhausted. *)
Fixpoint for_each {A S R : Type} (xs : list A)
    (body : A -> S -> result (flow S R)) (s : S) : result (flow S R) :=
  match xs with
  | [] => Ok (Next s)
  | x :: rest =>
      out ← body x s;
      match out with
      | Next s' => for_each rest body s'
      | Break s' => Ok (Break s')
      | Return r => Ok (Return r)
      end
  end.

(** ** The host *)

(** An opened text file: the lines its iterator yields, each with its
    line end, and the exception the read raises after them, if any (an
    undecodable byte, an I/O error). *)
Record text_file : Type := {
  file_lines : list string;
  read_error : option exn
}.

(** [subprocess.run(..., capture_output=True, text=True)] *)
Record completed : Type := {
  returncode : Z;
  stdout : string
}.

(** A registry value: [REG_SZ], or [REG_DWORD] or [REG_QWORD], an
    integer of 32 or 64 bits, far below the limit on the digits of a
    conversion to text. *)
Inductive reg_value : Type :=
  | RegStr (s : string)
  | RegInt (n : Z).

(** [MEMORYSTATUSEX] after [GlobalMemoryStatusEx], with the return value
    of the call. *)
Record memory_status : Type := {
  call_result : Z;
  ullTotalPhys : Z;
  ullAvailPhys : Z
}.

Record host : Type := {
  os_cpu_count : option Z;
  platform_system : string;
  platform_release : string;
  platform_version : string;
  platform_platform : string;
  (** [platform.win32_edition()], when the attribute exists *)
  win32_edition : result (option string);
  (** [import psutil; psutil.cpu_count(logical=False)] *)
  psutil_cpu_count : result (option Z);
  (** [subprocess.run(cmd, ..., timeout=5, check=False)] *)
  run : list string -> result completed;
  (** [open(path, "r", encoding="utf-8")] *)
  open_file : string -> result text_file;
  path_exists : string -> bool;
  glob : string -> result (list string);
  (** [os.stat(path).st_mtime], held in whole microseconds, the
      resolution of [datetime] *)
  stat_mtime : string -> result Z;
  sysconf : string -> result Z;
  (** [import winreg] and [winreg.OpenKey] on the [CurrentVersion] key *)
  reg_open : result unit;
  (** [winreg.QueryValueEx(key, name)] *)
  reg_query : string -> result reg_value;
  (** [ctypes.windll.kernel32.GlobalMemoryStatusEx] *)
  global_memory_status : result memory_status
}.

(** [for line in f: body], then the read error of the file when the
    iterator was exhausted. *)
Definition for_lines {S R : Type} (f : text_file)
    (body : string -> S -> result (flow S R)) (s : S) : result (flow S R) :=
  out ← for_each (file_lines f) body s;
  match out with
  | Next s' =>
      match read_error f with
      | Some e => Raise e
      | None => Ok (Next s')
      end
  | _ => Ok out
  end.

(** [f.read()] *)
Definition read_all (f : text_file) : result string :=
  match read_error f with
  | Some e => Raise e
  | None => Ok (String.concat "" (file_lines f))
  end.

(** ** CPU inspector *)

Definition get_logical_cpu_count (h : host) : Z :=
  match os_cpu_count h with
  | Some count => if 0 <? count then count else 1
  | None => 1
  end.

Definition _get_physical_cpu_count_with_psutil (h : host) : result (option Z) :=
  try_except
    (value ← psutil_cpu_count h;
     match value with
     | Some v => if 0 <? v then Ok (Some v) else Ok None
     | None => Ok None
     end)
    [AnyException] (fun _ => Ok None).

Definition powershell_cores_cmd : list string :=
  ["powershell"; "-NoProfile"; "-Command";
   "[int](Get-CimInstance Win32_Processor | Measure-Object -Property NumberOfCores -Sum).Sum"].

Definition _get_physical_cpu_count_windows (h : host) : result (option Z) :=
  try_except
    (res ← run h powershell_cores_cmd;
     if returncode res =? 0 then
       let text_value := strip (stdout res) in
       value ← py_int text_value;
       if 0 <? value then Ok (Some value) else Ok None
     else Ok None)
    [AnyException] (fun _ => Ok None).

(** The variables of the first loop of [_get_physical_cpu_count_linux]. *)
Record cpuinfo_state : Type := {
  pairs : gset (string * string);
  physical_id : option string;
  core_id : option string
}.

(** [if physical_id is not None and core_id is not None: pairs.add(...)] *)
Definition add_pair (st : cpuinfo_state) : gset (string * string) :=
  match physical_id st, core_id st with
  | Some p, Some c => {[ (p, c) ]} ∪ pairs st
  | _, _ => pairs st
  end.

Definition cpuinfo_body (raw_line : string) (st : cpuinfo_state)
    : result (flow cpuinfo_state Z) :=
  let line := strip raw_line in
  if negb (nonempty line) then
    Ok (Next {| pairs := add_pair st; physical_id := None; core_id := None |})
  else if startswith line "physical id" then
    v ← index1 (split1 ":" line);
    Ok (Next {| pairs := pairs st; physical_id := Some (strip v);
                core_id := core_id st |})
  else if startswith line "core id" then
    v ← index1 (split1 ":" line);
    Ok (Next {| pairs := pairs st; physical_id := physical_id st;
                core_id := Some (strip v) |})
  else Ok (Next st).

(** The set [pairs] at the end of the first [with] block. *)
Definition cpuinfo_pairs (f : text_file) : result (gset (string * string)) :=
  out ← for_lines f cpuinfo_body
          {| pairs := ∅; physical_id := None; core_id := None |};
  match out with
  | Next st | Break st => Ok (add_pair st)
  | Return _ => Ok ∅
  end.

(** First [try] block: [Some n] when it returns [n], [None] when control
    passes to the next block. *)
Definition linux_cpuinfo_step (h : host) : result (option Z) :=
  try_except
    (f ← open_file h "/proc/cpuinfo";
     ps ← cpuinfo_pairs f;
     if bool_decide (ps = ∅) then Ok None else Ok (Some (Z.of_nat (size ps))))
    [AnyException] (fun _ => Ok None).

(** [posixpath.dirname] and [posixpath.join] *)
Definition is_slash (c : ascii) : bool := Ascii.eqb c "/".

(** [p[:p.rfind("/") + 1]] *)
Fixpoint dir_head (p : string) : string :=
  match p with
  | EmptyString => EmptyString
  | String c r =>
      match dir_head r with
      | EmptyString => if is_slash c then String c EmptyString else EmptyString
      | head => String c head
      end
  end.

Definition dirname (p : string) : string :=
  let head := dir_head p in
  if nonempty head && nonempty (rstrip_by is_slash head)
  then rstrip_by is_slash head else head.

Definition endswith (s suffix : string) : bool :=
  String.prefix (String.rev suffix) (String.rev s).

Definition path_join (a b : string) : string :=
  if startswith b "/" then b
  else if negb (nonempty a) || endswith a "/" then a +:+ b
  else a +:+ "/" +:+ b.

Definition sysfs_body (h : host) (core_path : string)
    (pairs_sys : gset (string * string))
    : result (flow (gset (string * string)) Z) :=
  let cpu_topology_dir := dirname core_path in
  f_core ← open_file h core_path;
  core_text ← read_all f_core;
  let core_val := strip core_text in
  let pkg_path := path_join cpu_topology_dir "physical_package_id" in
  pkg_val ← (if path_exists h pkg_path then
               f_pkg ← open_file h pkg_path;
               pkg_text ← read_all f_pkg;
               Ok (strip pkg_text)
             else Ok "0");
  Ok (Next ({[ (pkg_val, core_val) ]} ∪ pairs_sys)).

(** Second [try] block. *)
Definition linux_sysfs_step (h : host) : result (option Z) :=
  try_except
    (paths ← glob h "/sys/devices/system/cpu/cpu[0-9]*/topology/core_id";
     out ← for_each paths (sysfs_body h) ∅;
     match out with
     | Next pairs_sys | Break pairs_sys =>
         if bool_decide (pairs_sys = ∅) then Ok None
         else Ok (Some (Z.of_nat (size pairs_sys)))
     | Return v => Ok (Some v)
     end)
    [AnyException] (fun _ => Ok None).

Definition cpu_cores_body (raw_line : string) (st : unit)
    : result (flow unit Z) :=
  let line := strip raw_line in
  if startswith (py_lower line) "cpu cores" then
    let parts := split1 ":" line in
    if Nat.eqb (length parts) 2 then
      v ← index1 parts;
      value ← py_int (strip v);
      if 0 <? value then Ok (Return value) else Ok (Break tt)
    else Ok (Break tt)
  else Ok (Next tt).

(** Third [try] block. *)
Definition linux_cpu_cores_step (h : host) : result (option Z) :=
  try_except
    (f ← open_file h "/proc/cpuinfo";
     out ← for_lines f cpu_cores_body tt;
     match out with
     | Return v => Ok (Some v)
     | _ => Ok None
     end)
    [AnyException] (fun _ => Ok None).

Definition _get_physical_cpu_count_linux (h : host) : result (option Z) :=
  r1 ← linux_cpuinfo_step h;
  match r1 with
  | Some n => Ok (Some n)
  | None =>
      r2 ← linux_sysfs_step h;
      match r2 with
      | Some n => Ok (Some n)
      | None => linux_cpu_cores_step h
      end
  end.

(** [isinstance(value, int) and value > 0] *)
Definition positive_int (value : option Z) : option Z :=
  match value with
  | Some v => if 0 <? v then Some v else None
  | None => None
  end.

(** The [if]/[elif]/[else] on [platform.system()] inside
    [get_physical_cpu_count]. *)
Definition platform_cpu_count (h : host) : result (option Z) :=
  let system := platform_system h in
  if String.eqb system "Windows" then _get_physical_cpu_count_windows h
  else if String.eqb system "Linux" then _get_physical_cpu_count_linux h
  else Ok None.

Definition get_physical_cpu_count (h : host) : result Z :=
  value ← _get_physical_cpu_count_with_psutil h;
  match positive_int value with
  | Some v => Ok v
  | None =>
      value ← platform_cpu_count h;
      match positive_int value with
      | Some v => Ok v
      | None => Ok (get_logical_cpu_count h)
      end
  end.

(** ** OS identity inspector *)

(** [str(v)] and [f"{v}"] for a registry value *)
Definition reg_str (v : reg_value) : string :=
  match v with
  | RegStr s => s
  | RegInt n => pretty n
  end.

Definition _get_windows_build_number (h : host) : result (option string) :=
  try_except
    (_ ← reg_open h;
     current_build ← reg_query h "CurrentBuild";
     try_except
       (ubr ← reg_query h "UBR";
        Ok (Some (reg_str current_build +:+ "." +:+ reg_str ubr)))
       [ClsFileNotFoundError] (fun _ => Ok (Some (reg_str current_build))))
    [AnyException] (fun _ => Ok None).

(** Truth value of an optional string. *)
Definition truthy (s : option string) : bool :=
  match s with
  | Some t => nonempty t
  | None => false
  end.

Definition os_release_body (line : string) (pretty_name : option string)
    : result (flow (option string) string) :=
  if startswith line "PRETTY_NAME=" then
    v ← index1 (split1 "=" line);
    Ok (Break (Some (strip_quotes (strip v))))
  else Ok (Next pretty_name).

Definition get_os_name (h : host) : result string :=
  let system := platform_system h in
  if String.eqb system "Windows" then
    edition ← try_except (win32_edition h) [AnyException] (fun _ => Ok (Some ""));
    let release := platform_release h in
    build_number ← _get_windows_build_number h;
    let version :=
      if truthy build_number then default "" build_number
      else platform_version h in
    let edition_str := if truthy edition then " " +:+ default "" edition else "" in
    Ok ("Windows " +:+ release +:+ edition_str +:+ " (build " +:+ version +:+ ")")
  else if String.eqb system "Linux" then
    found ← try_except
      (f ← open_file h "/etc/os-release";
       out ← for_lines f os_release_body None;
       match out with
       | Next pretty_name | Break pretty_name =>
           if truthy pretty_name then Ok pretty_name else Ok None
       | Return _ => Ok None
       end)
      [AnyException] (fun _ => Ok None);
    match found with
    | Some pretty_name => Ok pretty_name
    | None => Ok (platform_platform h)
    end
  else Ok (platform_platform h).

(** An aware [datetime] is its instant, in microseconds since the epoch;
    [min] and the comparisons of aware values compare instants. *)
Definition datetime : Type := Z.

(** [datetime.fromtimestamp(t, tz=utc).astimezone()]: the years 1 to
    9999 are representable, other instants raise. *)
Definition fromtimestamp (us : Z) : result datetime :=
  if (-62135596800000000 <=? us) && (us <? 253402300800000000)
  then Ok us else Raise OverflowError.

(** [int(value)] for a registry value *)
Definition reg_int (v : reg_value) : result Z :=
  match v with
  | RegInt n => Ok n
  | RegStr s => py_int s
  end.

Definition _get_windows_install_datetime (h : host) : result (option datetime) :=
  try_except
    (_ ← reg_open h;
     value ← reg_query h "InstallDate";
     seconds ← reg_int value;
     ts ← fromtimestamp (seconds * 1000000);
     Ok (Some ts))
    [AnyException] (fun _ => Ok None).

Definition candidate_paths : list string :=
  ["/var/log/installer/syslog"; "/var/log/anaconda/anaconda.log";
   "/var/log/installer"; "/etc"].

Definition install_body (h : host) (path : string) (timestamps : list datetime)
    : result (flow (list datetime) datetime) :=
  try_except
    (mtime ← stat_mtime h path;
     ts ← fromtimestamp mtime;
     Ok (Next (timestamps ++ [ts])))
    [AnyException] (fun _ => Ok (Next timestamps)).

(** [min(xs)] of a list that is not empty *)
Definition py_min (xs : list Z) : option Z :=
  match xs with
  | [] => None
  | x :: rest => Some (fold_left Z.min rest x)
  end.

Definition _get_linux_install_datetime (h : host) : result (option datetime) :=
  out ← for_each candidate_paths (install_body h) [];
  match out with
  | Next timestamps | Break timestamps => Ok (py_min timestamps)
  | Return ts => Ok (Some ts)
  end.

Definition get_os_install_datetime (h : host) : result (option datetime) :=
  let system := platform_system h in
  if String.eqb system "Windows" then _get_windows_install_datetime h
  else if String.eqb system "Linux" then _get_linux_install_datetime h
  else Ok None.

(** ** Memory inspector *)

Definition _get_total_ram_bytes_windows (h : host) : result Z :=
  mem_status ← global_memory_status h;
  if call_result mem_status =? 0 then Raise OSError
  else Ok (ullTotalPhys mem_status).

Definition _get_free_ram_bytes_windows (h : host) : result Z :=
  mem_status ← global_memory_status h;
  if call_result mem_status =? 0 then Raise OSError
  else Ok (ullAvailPhys mem_status).

(** The chain of tests on the lowered unit that the three entries
    [MemTotal], [MemAvailable] and [MemFree] go through. *)
Definition to_bytes (value : Z) (unit : string) : Z :=
  if String.eqb unit "kb" then value * 1024
  else if String.eqb unit "mb" then value * 1024 * 1024
  else if String.eqb unit "gb" then value * 1024 * 1024 * 1024
  else value * 1024.

Definition mem_total_body (line : string) (st : unit) : result (flow unit Z) :=
  if startswith line "MemTotal:" then
    match py_split line with
    | _ :: p1 :: p2 :: _ =>
        value ← py_int p1;
        let unit := py_lower p2 in
        Ok (Return (to_bytes value unit))
    | _ => Ok (Break tt)
    end
  else Ok (Next tt).

(** [int(page_size) * int(pages)] from [os.sysconf] *)
Definition sysconf_product (h : host) (pages : string) : result Z :=
  page_size ← sysconf h "SC_PAGE_SIZE";
  count ← sysconf h pages;
  Ok (page_size * count).

Definition sysconf_classes : list exn_class :=
  [ClsValueError; ClsOSError; ClsAttributeError].

Definition _get_total_ram_bytes_linux (h : host) : result Z :=
  parsed ← try_except
    (f ← open_file h "/proc/meminfo";
     out ← for_lines f mem_total_body tt;
     match out with
     | Return v => Ok (Some v)
     | _ => Ok None
     end)
    [ClsFileNotFoundError] (fun _ => Ok None);
  match parsed with
  | Some v => Ok v
  | None =>
      try_except (sysconf_product h "SC_PHYS_PAGES") sysconf_classes
        (fun _ => Raise RuntimeError)
  end.

(** The variables of the loop of [_get_free_ram_bytes_linux]. *)
Record free_state : Type := {
  available_value : option Z;
  free_value : option Z
}.

Definition mem_free_body (line : string) (st : free_state)
    : result (flow free_state Z) :=
  if startswith line "MemAvailable:" then
    match py_split line with
    | _ :: p1 :: p2 :: _ =>
        value ← py_int p1;
        let unit := py_lower p2 in
        Ok (Break {| available_value := Some (to_bytes value unit);
                     free_value := free_value st |})
    | _ => Ok (Next st)
    end
  else if startswith line "MemFree:" then
    match py_split line with
    | _ :: p1 :: p2 :: _ =>
        value ← py_int p1;
        let unit := py_lower p2 in
        Ok (Next {| available_value := available_value st;
                    free_value := Some (to_bytes value unit) |})
    | _ => Ok (Next st)
    end
  else Ok (Next st).

(** What the first [try] block returns on a file that opened: [Some v]
    when it returns [v], [None] when control leaves the block. *)
Definition free_from_table (f : text_file) : result (option Z) :=
  out ← for_lines f mem_free_body
          {| available_value := None; free_value := None |};
  match out with
  | Next st | Break st =>
      match available_value st with
      | Some v => Ok (Some v)
      | None => Ok (free_value st)
      end
  | Return v => Ok (Some v)
  end.

Definition _get_free_ram_bytes_linux (h : host) : result Z :=
  parsed ← try_except
    (f ← open_file h "/proc/meminfo";
     free_from_table f)
    [ClsFileNotFoundError] (fun _ => Ok None);
  match parsed with
  | Some v => Ok v
  | None =>
      try_except (sysconf_product h "SC_AVPHYS_PAGES") sysconf_classes
        (fun _ => Raise RuntimeError)
  end.

Definition get_total_ram_bytes (h : host) : result Z :=
  let system := platform_system h in
  if String.eqb system "Windows" then _get_total_ram_bytes_windows h
  else if String.eqb system "Linux" then _get_total_ram_bytes_linux h
  else
    try_except (sysconf_product h "SC_PHYS_PAGES") [AnyException]
      (fun _ => Raise NotImplementedError).

Definition get_free_ram_bytes (h : host) : result Z :=
  let system := platform_system h in
  if String.eqb system "Windows" then _get_free_ram_bytes_windows h
  else if String.eqb system "Linux" then _get_free_ram_bytes_linux h
  else
    try_except (sysconf_product h "SC_AVPHYS_PAGES") [AnyException]
      (fun _ => Raise NotImplementedError).

(** ** GPU inspector *)

Fixpoint unique_loop (items : list string) (seen : gset string)
    (result : list string) : list string :=
  match items with
  | [] => result
  | item :: rest =>
      let value := strip item in
      if negb (nonempty value) then unique_loop rest seen result
      else if bool_decide (value ∈ seen) then unique_loop rest seen result
      else unique_loop rest ({[ value ]} ∪ seen) (result ++ [value])
  end.

Definition _unique_ordered (items : list string) : list string :=
  unique_loop items ∅ [].

(** The line boundaries of [str.splitlines] below code point 256. *)
Definition is_linebreak (c : ascii) : bool :=
  let n := code c in
  ((10 <=? n) && (n <=? 13)) || ((28 <=? n) && (n <=? 30)) || (n =? 133).

Fixpoint splitlines_from (s cur : string) (after_cr : bool) : list string :=
  match s with
  | EmptyString => if nonempty cur then [cur] else []
  | String c r =>
      if after_cr && (code c =? 10) then splitlines_from r cur false
      else if is_linebreak c then cur :: splitlines_from r EmptyString (code c =? 13)
      else splitlines_from r (cur +:+ String c EmptyString) false
  end.

(** [s.splitlines()] *)
Definition splitlines (s : string) : list string :=
  splitlines_from s EmptyString false.

Definition gpu_powershell_cmd : list string :=
  ["powershell"; "-NoProfile"; "-Command";
   "Get-CimInstance Win32_VideoController | Select-Object -ExpandProperty Name"].

Definition gpu_wmic_cmd : list string :=
  ["wmic"; "path"; "Win32_VideoController"; "get"; "Name"; "/value"].

Definition powershell_name_body (line : string) (names : list string)
    : result (flow (list string) (list string)) :=
  let value := strip line in
  if nonempty value then Ok (Next (names ++ [value])) else Ok (Next names).

Definition wmic_name_body (line : string) (names : list string)
    : result (flow (list string) (list string)) :=
  if startswith line "Name=" then
    v ← index1 (split1 "=" line);
    let value := strip v in
    if nonempty value then Ok (Next (names ++ [value])) else Ok (Next names)
  else Ok (Next names).

(** The list a loop over [names] leaves behind. *)
Definition names_of (out : flow (list string) (list string)) : list string :=
  match out with
  | Next names | Break names | Return names => names
  end.

(** [if result.returncode == 0 and result.stdout: for line in
    result.stdout.splitlines(): body] *)
Definition scan_output (res : completed)
    (body : string -> list string -> result (flow (list string) (list string)))
    (names : list string) : result (list string) :=
  if (returncode res =? 0) && nonempty (stdout res) then
    out ← for_each (splitlines (stdout res)) body names;
    Ok (names_of out)
  else Ok names.

(** [if not names: step], an exception of the step leaving [names] as it
    is.  No step of the script raises after it has appended a name. *)
Definition if_no_names (names : list string)
    (step : list string -> result (list string)) : result (list string) :=
  match names with
  | [] => try_except (step names) [AnyException] (fun _ => Ok names)
  | _ => Ok names
  end.

Definition _get_gpu_names_windows (h : host) : result (list string) :=
  names ← try_except
    (res ← run h gpu_powershell_cmd;
     scan_output res powershell_name_body [])
    [AnyException] (fun _ => Ok []);
  names ← if_no_names names (fun names =>
    res ← run h gpu_wmic_cmd;
    scan_output res wmic_name_body names);
  Ok (_unique_ordered names).

(** [re.findall] of a double quote, one or more characters that are
    not double quotes, and a double quote: the groups between the quotes,
    scanned from the left without overlap.  [cur] holds the characters
    since the last quote that may still open a group. *)
Fixpoint quoted_fields_from (s : string) (cur : option string) : list string :=
  match s with
  | EmptyString => []
  | String c r =>
      if Ascii.eqb c dquote then
        match cur with
        | Some t =>
            if nonempty t then t :: quoted_fields_from r None
            else quoted_fields_from r (Some EmptyString)
        | None => quoted_fields_from r (Some EmptyString)
        end
      else
        match cur with
        | Some t => quoted_fields_from r (Some (t +:+ String c EmptyString))
        | None => quoted_fields_from r None
        end
  end.

Definition quoted_fields (s : string) : list string :=
  quoted_fields_from s None.

(** A class name of [lspci -mm] between its double quotes. *)
Definition quoted (s : string) : string :=
  String dquote s +:+ String dquote EmptyString.

Definition lspci_cmd : list string := ["lspci"; "-mm"; "-nn"].

Definition lspci_body (raw_line : string) (names : list string)
    : result (flow (list string) (list string)) :=
  let line := strip raw_line in
  if negb (nonempty line) then Ok (Next names)
  else if contains line (quoted "VGA compatible controller")
          || contains line (quoted "3D controller")
          || contains line (quoted "Display controller") then
    match quoted_fields line with
    | _ :: vendor :: device :: _ =>
        Ok (Next (names ++ [vendor +:+ " " +:+ device]))
    | _ => Ok (Next names)
    end
  else Ok (Next names).

Definition nvidia_model_body (rline : string) (names : list string)
    : result (flow (list string) (list string)) :=
  if startswith rline "Model:" then
    v ← index1 (split1 ":" rline);
    let value := strip v in
    if nonempty value then Ok (Break (names ++ ["NVIDIA " +:+ value]))
    else Ok (Break names)
  else Ok (Next names).

Definition nvidia_file_body (h : host) (info_path : string)
    (names : list string) : result (flow (list string) (list string)) :=
  try_except
    (f ← open_file h info_path;
     out ← for_lines f nvidia_model_body names;
     Ok (Next (names_of out)))
    [AnyException] (fun _ => Ok (Next names)).

Record uevent_state : Type := {
  driver : option string;
  pci_id : option string
}.

Definition uevent_body (rline : string) (st : uevent_state)
    : result (flow uevent_state unit) :=
  if startswith rline "DRIVER=" then
    v ← index1 (split1 "=" rline);
    Ok (Next {| driver := Some (strip v); pci_id := pci_id st |})
  else if startswith rline "PCI_ID=" then
    v ← index1 (split1 "=" rline);
    Ok (Next {| driver := driver st; pci_id := Some (strip v) |})
  else Ok (Next st).

Definition vendor_map : gmap string string :=
  list_to_map
    [("0x10de", "NVIDIA"); ("10de", "NVIDIA");
     ("0x1002", "AMD/ATI"); ("1002", "AMD/ATI");
     ("0x8086", "Intel"); ("8086", "Intel");
     ("0x1a03", "ASPEED"); ("1a03", "ASPEED")].

(** [s.split(":")[0]] *)
Definition split_head (sep : ascii) (s : string) : string :=
  match cut sep s with
  | Some (a, _) => a
  | None => s
  end.

Definition drm_card_body (h : host) (card_path : string)
    (names : list string) : result (flow (list string) (list string)) :=
  let uevent := path_join (path_join card_path "device") "uevent" in
  if negb (path_exists h uevent) then Ok (Next names)
  else
    try_except
      (f ← open_file h uevent;
       out ← for_lines f uevent_body {| driver := None; pci_id := None |};
       match out with
       | Next st | Break st =>
           if truthy (pci_id st) then
             let vendor_hex := split_head ":" (default "" (pci_id st)) in
             match vendor_map !! py_lower vendor_hex with
             | Some vendor_name =>
                 if nonempty vendor_name then
                   if truthy (driver st) then
                     Ok (Next (names ++
                       [vendor_name +:+ " (" +:+ default "" (driver st) +:+ ")"]))
                   else Ok (Next (names ++ [vendor_name +:+ " GPU"]))
                 else Ok (Next names)
             | None => Ok (Next names)
             end
           else Ok (Next names)
       | Return _ => Ok (Next names)
       end)
      [AnyException] (fun _ => Ok (Next names)).

Definition _get_gpu_names_linux (h : host) : result (list string) :=
  names ← try_except
    (res ← run h lspci_cmd;
     scan_output res lspci_body [])
    [AnyException] (fun _ => Ok []);
  names ← if_no_names names (fun names =>
    paths ← glob h "/proc/driver/nvidia/gpus/*/information";
    out ← for_each paths (nvidia_file_body h) names;
    Ok (names_of out));
  names ← if_no_names names (fun names =>
    paths ← glob h "/sys/class/drm/card[0-9]*";
    out ← for_each paths (drm_card_body h) names;
    Ok (names_of out));
  Ok (_unique_ordered names).

Definition get_gpu_names (h : host) : result (list string) :=
  let system := platform_system h in
  if String.eqb system "Windows" then _get_gpu_names_windows h
  else if String.eqb system "Linux" then _get_gpu_names_linux h
  else Ok [].

(** A host on which no probe answers: every file is missing, every
    command and call fails.  Hosts of the examples override fields of
    it. *)
Definition bare_host (system : string) : host := {|
  os_cpu_count := None;
  platform_system := system;
  platform_release := "";
  platform_version := "";
  platform_platform := system;
  win32_edition := Raise AttributeError;
  psutil_cpu_count := Raise ImportError;
  run := fun _ => Raise FileNotFoundError;
  open_file := fun _ => Raise FileNotFoundError;
  path_exists := fun _ => false;
  glob := fun _ => Ok [];
  stat_mtime := fun _ => Raise FileNotFoundError;
  sysconf := fun _ => Raise ValueError;
  reg_open := Raise ImportError;
  reg_query := fun _ => Raise FileNotFoundError;
  global_memory_status := Raise AttributeError
|}.

(** The host [h] with the file [path] holding [lines]. *)
Definition with_file (h : host) (path : string) (lines : list string) : host := {|
  os_cpu_count := os_cpu_count h;
  platform_system := platform_system h;
  platform_release := platform_release h;
  platform_version := platform_version h;
  platform_platform := platform_platform h;
  win32_edition := win32_edition h;
  psutil_cpu_count := psutil_cpu_count h;
  run := run h;
  open_file := fun p =>
    if String.eqb p path then Ok {| file_lines := lines; read_error := None |}
    else open_file h p;
  path_exists := fun p => String.eqb p path || path_exists h p;
  glob := glob h;
  stat_mtime := stat_mtime h;
  sysconf := sysconf h;
  reg_open := reg_open h;
  reg_query := reg_query h;
  global_memory_status := global_memory_status h
|}.

(** The host [h] with another answer of [os.cpu_count()]. *)
Definition with_cpu_count (h : host) (count : option Z) : host := {|
  os_cpu_count := count;
  platform_system := platform_system h;
  platform_release := platform_release h;
  platform_version := platform_version h;
  platform_platform := platform_platform h;
  win32_edition := win32_edition h;
  psutil_cpu_count := psutil_cpu_count h;
  run := run h;
  open_file := open_file h;
  path_exists := path_exists h;
  glob := glob h;
  stat_mtime := stat_mtime h;
  sysconf := sysconf h;
  reg_open := reg_open h;
  reg_query := reg_query h;
  global_memory_status := global_memory_status h
|}.

(** The host [h] with [os.sysconf] answering [page_size] and [pages] for
    every name. *)
Definition with_sysconf (h : host) (page_size pages : Z) : host := {|
  os_cpu_count := os_cpu_count h;
  platform_system := platform_system h;
  platform_release := platform_release h;
  platform_version := platform_version h;
  platform_platform := platform_platform h;
  win32_edition := win32_edition h;
  psutil_cpu_count := psutil_cpu_count h;
  run := run h;
  open_file := open_file h;
  path_exists := path_exists h;
  glob := glob h;
  stat_mtime := stat_mtime h;
  sysconf := fun name =>
    if String.eqb name "SC_PAGE_SIZE" then Ok page_size else Ok pages;
  reg_open := reg_open h;
  reg_query := reg_query h;
  global_memory_status := global_memory_status h
|}.

(** The host [h] with [os.stat] answering from a table of modification
    times, and failing on the paths the table does not hold. *)
Definition with_mtimes (h : host) (mtimes : gmap string Z) : host := {|
  os_cpu_count := os_cpu_count h;
  platform_system := platform_system h;
  platform_release := platform_release h;
  platform_version := platform_version h;
  platform_platform := platform_platform h;
  win32_edition := win32_edition h;
  psutil_cpu_count := psutil_cpu_count h;
  run := run h;
  open_file := open_file h;
  path_exists := path_exists h;
  glob := glob h;
  stat_mtime := fun path =>
    match mtimes !! path with
    | Some t => Ok t
    | None => Raise FileNotFoundError
    end;
  sysconf := sysconf h;
  reg_open := reg_open h;
  reg_query := reg_query h;
  global_memory_status := global_memory_status h
|}.

(** The host [h] on which the command [cmd] runs and completes with
    [res]. *)
Definition with_run (h : host) (cmd : list string) (res : completed) : host := {|
  os_cpu_count := os_cpu_count h;
  platform_system := platform_system h;
  platform_release := platform_release h;
  platform_version := platform_version h;
  platform_platform := platform_platform h;
  win32_edition := win32_edition h;
  psutil_cpu_count := psutil_cpu_count h;
  run := fun c => if bool_decide (c = cmd) then Ok res else run h c;
  open_file := open_file h;
  path_exists := path_exists h;
  glob := glob h;
  stat_mtime := stat_mtime h;
  sysconf := sysconf h;
  reg_open := reg_open h;
  reg_query := reg_query h;
  global_memory_status := global_memory_status h
|}.

(** The host [h] on which [pattern] matches [paths]. *)
Definition with_glob (h : host) (pattern : string) (paths : list string)
    : host := {|
  os_cpu_count := os_cpu_count h;
  platform_system := platform_system h;
  platform_release := platform_release h;
  platform_version := platform_version h;
  platform_platform := platform_platform h;
  win32_edition := win32_edition h;
  psutil_cpu_count := psutil_cpu_count h;
  run := run h;
  open_file := open_file h;
  path_exists := path_exists h;
  glob := fun p => if String.eqb p pattern then Ok paths else glob h p;
  stat_mtime := stat_mtime h;
  sysconf := sysconf h;
  reg_open := reg_open h;
  reg_query := reg_query h;
  global_memory_status := global_memory_status h
|}.

Definition nl : string := String (ascii_of_N 10) EmptyString.
Definition tab : string := String (ascii_of_N 9) EmptyString.

(** ** Example hosts *)

(** [/proc/meminfo] with the single entry of the test scenario. *)
Definition meminfo_total_host : host :=
  with_file (bare_host "Linux") "/proc/meminfo" ["MemTotal: 16777216 kB"].

(** [/proc/meminfo] as the kernel writes it: [MemFree] comes before
    [MemAvailable]. *)
Definition meminfo_lines : list string :=
  ["MemTotal:       16777216 kB" +:+ nl;
   "MemFree:         1000000 kB" +:+ nl;
   "MemAvailable:    8000000 kB" +:+ nl;
   "Buffers:          200000 kB" +:+ nl].

Definition meminfo_host : host :=
  with_file (bare_host "Linux") "/proc/meminfo" meminfo_lines.

(** A table from before [MemAvailable] existed. *)
Definition old_meminfo_lines : list string :=
  ["MemTotal:       16777216 kB" +:+ nl;
   "MemFree:         1000000 kB" +:+ nl;
   "Buffers:          200000 kB" +:+ nl].

Definition old_meminfo_host : host :=
  with_file (bare_host "Linux") "/proc/meminfo" old_meminfo_lines.

(** No [/proc/meminfo]; [os.sysconf] answers 4096 and 1000. *)
Definition sysconf_host (system : string) : host :=
  with_sysconf (bare_host system) 4096 1000.

(** The integer written with [n] digits 1. *)
Definition ones (n : nat) : Z := Nat.iter n (fun a => a * 10 + 1) 0.

(** A [MemTotal] entry whose value has one digit more than the
    interpreter converts. *)
Definition huge_total_line : string :=
  "MemTotal: " +:+ repeat_char "1" 4301 +:+ " kB" +:+ nl.

Definition huge_total_host : host :=
  with_file (bare_host "Linux") "/proc/meminfo" [huge_total_line].

(** A [cpu cores] line of the same kind. *)
Definition huge_cores_host : host :=
  with_file (bare_host "Linux") "/proc/cpuinfo"
    ["cpu cores" +:+ tab +:+ ": " +:+ repeat_char "1" 4301 +:+ nl;
     "cpu cores" +:+ tab +:+ ": 4" +:+ nl].

(** A [MemAvailable] line that has a value and no unit. *)
Definition unitless_lines : list string :=
  ["MemAvailable: 100" +:+ nl; "MemFree: 5 kB" +:+ nl].

Definition unitless_host : host :=
  with_file (bare_host "Linux") "/proc/meminfo" unitless_lines.

(** Two of the candidate paths exist. *)
Definition install_host : host :=
  with_mtimes (bare_host "Linux")
    (<["/etc" := 1700000000000000]>
       (<["/var/log/installer" := 1600000000000000]> ∅)).

(** Four logical processors on two cores of one package. *)
Definition cpuinfo_lines : list string :=
  ["processor" +:+ tab +:+ ": 0" +:+ nl;
   "physical id" +:+ tab +:+ ": 0" +:+ nl;
   "core id" +:+ tab +:+ tab +:+ ": 0" +:+ nl;
   "cpu cores" +:+ tab +:+ ": 2" +:+ nl;
   nl;
   "processor" +:+ tab +:+ ": 1" +:+ nl;
   "physical id" +:+ tab +:+ ": 0" +:+ nl;
   "core id" +:+ tab +:+ tab +:+ ": 1" +:+ nl;
   "cpu cores" +:+ tab +:+ ": 2" +:+ nl;
   nl;
   "processor" +:+ tab +:+ ": 2" +:+ nl;
   "physical id" +:+ tab +:+ ": 0" +:+ nl;
   "core id" +:+ tab +:+ tab +:+ ": 0" +:+ nl;
   "cpu cores" +:+ tab +:+ ": 2" +:+ nl;
   nl;
   "processor" +:+ tab +:+ ": 3" +:+ nl;
   "physical id" +:+ tab +:+ ": 0" +:+ nl;
   "core id" +:+ tab +:+ tab +:+ ": 1" +:+ nl;
   "cpu cores" +:+ tab +:+ ": 2" +:+ nl;
   nl].

Definition cpuinfo_host : host :=
  with_file (bare_host "Linux") "/proc/cpuinfo" cpuinfo_lines.

(** An empty [/proc/cpuinfo], and no CPU topology under [/sys]. *)
Definition empty_cpuinfo_host : host :=
  with_file (bare_host "Linux") "/proc/cpuinfo" [].

(** A table without [physical id] and [core id], as on ARM, and the
    topology of four processors on two cores under [/sys]. *)
Definition arm_cpuinfo_lines : list string :=
  ["processor" +:+ tab +:+ ": 0" +:+ nl; "BogoMIPS" +:+ tab +:+ ": 38.40" +:+ nl;
   nl;
   "processor" +:+ tab +:+ ": 1" +:+ nl; "BogoMIPS" +:+ tab +:+ ": 38.40" +:+ nl;
   nl].

Definition core_id_path (cpu : string) : string :=
  "/sys/devices/system/cpu/" +:+ cpu +:+ "/topology/core_id".

Definition package_id_path (cpu : string) : string :=
  "/sys/devices/system/cpu/" +:+ cpu +:+ "/topology/physical_package_id".

Definition sysfs_host : host :=
  with_file
    (with_file
       (with_file
          (with_file
             (with_file
                (with_glob
                   (with_file (bare_host "Linux") "/proc/cpuinfo"
                      arm_cpuinfo_lines)
                   "/sys/devices/system/cpu/cpu[0-9]*/topology/core_id"
                   [core_id_path "cpu0"; core_id_path "cpu1";
                    core_id_path "cpu2"; core_id_path "cpu3"])
                (core_id_path "cpu0") ["0" +:+ nl])
             (core_id_path "cpu1") ["0" +:+ nl])
          (core_id_path "cpu2") ["1" +:+ nl])
       (core_id_path "cpu3") ["1" +:+ nl])
    (package_id_path "cpu0") ["0" +:+ nl].

(** A table whose blocks have [cpu cores] and no ids, nothing under
    [/sys]. *)
Definition cpu_cores_host : host :=
  with_file (bare_host "Linux") "/proc/cpuinfo"
    ["processor" +:+ tab +:+ ": 0" +:+ nl;
     "cpu cores" +:+ tab +:+ ": 4" +:+ nl; nl].

(** Machine-readable [lspci] lines for a display controller and for
    another device, the class names without numeric identifiers. *)
Definition lspci_output : string :=
  "00:02.0 " +:+ quoted "VGA compatible controller" +:+ " "
  +:+ quoted "Intel Corporation" +:+ " "
  +:+ quoted "UHD Graphics 620" +:+ " -r07 "
  +:+ quoted "Lenovo" +:+ " " +:+ quoted "Device 225e" +:+ nl
  +:+ "00:1f.3 " +:+ quoted "Audio device" +:+ " "
  +:+ quoted "Intel Corporation" +:+ " "
  +:+ quoted "Sunrise Point-LP HD Audio" +:+ nl.

Definition lspci_host : host :=
  with_run (bare_host "Linux") lspci_cmd
    {| returncode := 0; stdout := lspci_output |}.

(** The same controller with the numeric identifiers inside the
    quotes. *)
Definition lspci_numeric_output : string :=
  "00:02.0 " +:+ quoted "VGA compatible controller [0300]" +:+ " "
  +:+ quoted "Intel Corporation [8086]" +:+ " "
  +:+ quoted "UHD Graphics 620 [5917]" +:+ " -r07 "
  +:+ quoted "Lenovo [17aa]" +:+ " " +:+ quoted "Device [225e]" +:+ nl.

Definition lspci_numeric_host : host :=
  with_run (bare_host "Linux") lspci_cmd
    {| returncode := 0; stdout := lspci_numeric_output |}.

(** No [lspci]; one DRM card with an Intel device. *)
Definition drm_host : host :=
  with_file
    (with_glob (bare_host "Linux") "/sys/class/drm/card[0-9]*"
       ["/sys/class/drm/card0"])
    "/sys/class/drm/card0/device/uevent"
    ["DRIVER=i915" +:+ nl; "PCI_CLASS=30000" +:+ nl;
     "PCI_ID=8086:5917" +:+ nl].

(** PowerShell lists the same controller twice. *)
Definition windows_gpu_host : host :=
  with_run (bare_host "Windows") gpu_powershell_cmd
    {| returncode := 0;
       stdout := "NVIDIA GeForce RTX 3060" +:+ nl +:+ "  " +:+ nl
                 +:+ "Intel(R) UHD Graphics " +:+ nl
                 +:+ "NVIDIA GeForce RTX 3060" +:+ nl |}.

(** A block with both ids and a stray [core id] line that has no
    colon. *)
Definition stray_line_host : host :=
  with_file (bare_host "Linux") "/proc/cpuinfo"
    ["physical id" +:+ tab +:+ ": 0" +:+ nl;
     "core id" +:+ tab +:+ tab +:+ ": 0" +:+ nl;
     "core id" +:+ nl;
     nl].

(** A [MemFree] line whose value is not an integer, before the
    [MemAvailable] line. *)
Definition bad_value_host : host :=
  with_file (bare_host "Linux") "/proc/meminfo"
    ["MemFree:         lots kB" +:+ nl;
     "MemAvailable:    8000000 kB" +:+ nl].

(** ** Notions the properties are stated with *)

(** The processor blocks of a CPU-info table: the stripped lines between
    blank lines. *)
Fixpoint blocks_from (ls : list string) (cur : list string)
    : list (list string) :=
  match ls with
  | [] => [cur]
  | raw :: rest =>
      if nonempty (strip raw) then blocks_from rest (cur ++ [strip raw])
      else cur :: blocks_from rest []
  end.

Definition processor_blocks (ls : list string) : list (list string) :=
  filter (fun b => b ≠ []) (blocks_from ls []).

(** The value of a [key : value] line. *)
Definition field_value (line : string) : option string :=
  match split1 ":" line with
  | _ :: v :: _ => Some (strip v)
  | _ => None
  end.

(** The field [key] of a block: the value of the last line of the block
    that starts with [key]. *)
Definition block_field (key : string) (block : list string) : option string :=
  last (filter (fun l => startswith l key = true) block) ≫= field_value.

Definition block_pair (block : list string) : option (string * string) :=
  p ← block_field "physical id" block;
  c ← block_field "core id" block;
  Some (p, c).

(** The [physical id] and [core id] lines of the table are [key : value]
    fields. *)
Definition id_lines_are_fields (ls : list string) : Prop :=
  Forall (fun raw =>
    startswith (strip raw) "physical id" = true
    ∨ startswith (strip raw) "core id" = true →
    is_Some (field_value (strip raw))) ls.

(** De-duplication that keeps the first occurrence of each element. *)
Fixpoint first_seen (l : list string) : list string :=
  match l with
  | [] => []
  | x :: rest => x :: filter (fun y => y ≠ x) (first_seen rest)
  end.

(** The candidate names as [_unique_ordered] looks at them: stripped, the
    empty ones left out. *)
Definition candidates (items : list string) : list string :=
  filter (fun v => v ≠ EmptyString) (strip <$> items).

(** The timestamps of the candidate paths that can be read, in the order
    of the paths. *)
Definition readable_timestamps (h : host) (paths : list string) : list datetime :=
  omap (fun path =>
          match stat_mtime h path ≫= fromtimestamp with
          | Ok ts => Some ts
          | Raise _ => None
          end) paths.

(** An entry of the memory-info table with a value and a unit: the line
    has at least three fields and the second is a decimal literal, of
    any length. *)
Definition entry_of (line : string) : option (Z * string) :=
  match py_split line with
  | _ :: p1 :: p2 :: _ =>
      match int_literal p1 with
      | Some v => Some (v, p2)
      | None => None
      end
  | _ => None
  end.

(** The number of digits of the value of an entry. *)
Definition value_digits (line : string) : nat :=
  match py_split line with
  | _ :: p1 :: _ => digit_count p1
  | _ => O
  end.

(** The bytes an entry stands for. *)
Definition entry_bytes (line : string) : option Z :=
  match entry_of line with
  | Some (v, u) => Some (to_bytes v (py_lower u))
  | None => None
  end.

Definition is_total_line (line : string) : bool :=
  startswith line "MemTotal:".

Definition is_available_line (line : string) : bool :=
  startswith line "MemAvailable:".

Definition is_free_line (line : string) : bool :=
  startswith line "MemFree:".

(** Every [MemAvailable] and every [MemFree] line of the table has a
    value and a unit, the value within the interpreter's limit on
    digits. *)
Definition entries_have_values (ls : list string) : Prop :=
  Forall (fun l =>
    is_available_line l = true ∨ is_free_line l = true →
    is_Some (entry_of l) ∧ (value_digits l ≤ int_max_str_digits)%nat) ls.

(** [s.split(sep)] for a separator of one character. *)
Fixpoint split_all (sep : ascii) (s : string) : list string :=
  match s with
  | EmptyString => [EmptyString]
  | String c r =>
      if Ascii.eqb c sep then EmptyString :: split_all sep r
      else
        match split_all sep r with
        | t :: ts => String c t :: ts
        | [] => [String c EmptyString]
        end
  end.

(** Reading a rendered data line back: the line is split at every bar
    and the white space around the two cells is trimmed.  A line that
    does not fall into two cells between three bars is not a row. *)
Definition parse_row_by_split (line : string) : option (string * string) :=
  match split_all "|" line with
  | [_; a; b; _] => Some (strip a, strip b)
  | _ => None
  end.

(** The lines of the table that hold the rows: all but the borders and
    the header with its rule. *)
Definition data_lines (header : option (string * string))
    (lines : list string) : list string :=
  let body := drop (match header with Some _ => 3 | None => 1 end)%nat lines in
  take (length body - 1) body.

(** Reading a rendered table back: each data line read as a row. *)
Definition parse_table (header : option (string * string))
    (lines : list string) : list (option (string * string)) :=
  parse_row_by_split <$> data_lines header lines.

(** A cell the reader gives back as it is: it holds no bar, and no white
    space at its two ends. *)
Definition plain_cell (s : string) : Prop :=
  cut "|" s = None ∧ strip s = s.

Fixpoint last_char (s : string) : option ascii :=
  match s with
  | EmptyString => None
  | String c EmptyString => Some c
  | String _ r => last_char r
  end.


(** ** Orchestrator *)

Section Orchestrator.

(** The three formatters work on floating-point numbers and on the local
    time zone; they are taken as they come, exceptions included (the
    division of [format_bytes_as_gb] raises [OverflowError] beyond the
    range of a float). *)
Variable format_datetime_local : datetime -> result string.
Variable format_bytes_as_gb : Z -> result string.
Variable format_bytes_as_mb : Z -> result string.

(** [print(line)]: what writing one more line to the standard output
    does, given the lines written before. *)
Variable print : list string -> string -> result unit.

(** [for line in lines: print(line)]: the lines written, and how the
    loop ends. *)
Fixpoint print_all (written lines : list string)
    : list string * result unit :=
  match lines with
  | [] => (written, Ok tt)
  | line :: rest =>
      match print written line with
      | Ok _ => print_all (written ++ [line]) rest
      | Raise e => (written, Raise e)
      end
  end.

(** [main]: the lines written to the standard output, and how the call
    ends. *)
Definition main (h : host) : list string * result unit :=
  let table :=
    os_name ← get_os_name h;
    install_dt ← get_os_install_datetime h;
    physical_cores ← get_physical_cpu_count h;
    let logical_cores := get_logical_cpu_count h in
    total_ram_bytes ← get_total_ram_bytes h;
    free_ram_bytes ← get_free_ram_bytes h;
    gpu_names ← get_gpu_names h;
    let gpu_display :=
      match gpu_names with
      | [] => "Unknown"
      | _ => String.concat ", " gpu_names
      end in
    install_display ←
      match install_dt with
      | Some dt => format_datetime_local dt
      | None => Ok "Unknown"
      end;
    physical_display ← py_str physical_cores;
    logical_display ← py_str logical_cores;
    total_display ← format_bytes_as_gb total_ram_bytes;
    free_display ← format_bytes_as_mb free_ram_bytes;
    let rows :=
      [("Operating system", os_name);
       ("OS install date", install_display);
       ("Physical cores", physical_display);
       ("Logical cores", logical_display);
       ("GPU(s)", gpu_display);
       ("Total RAM", total_display);
       ("Free RAM", free_display)] in
    Ok (table_lines rows default_header) in
  match table with
  | Ok lines => print_all [] lines
  | Raise e => ([], Raise e)
  end.
End Orchestrator.

(** ** More hosts *)


(** The host [h] with a registry key that opens and answers [query]. *)
Definition with_registry (h : host) (query : string -> result reg_value)
    : host := {|
  os_cpu_count := os_cpu_count h;
  platform_system := platform_system h;
  platform_release := platform_release h;
  platform_version := platform_version h;
  platform_platform := platform_platform h;
  win32_edition := win32_edition h;
  psutil_cpu_count := psutil_cpu_count h;
  run := run h;
  open_file := open_file h;
  path_exists := path_exists h;
  glob := glob h;
  stat_mtime := stat_mtime h;
  sysconf := sysconf h;
  reg_open := Ok tt;
  reg_query := query;
  global_memory_status := global_memory_status h
|}.

(** Windows 10 with the build 19045 and the revision 3803. *)
Definition windows_host : host := {|
  os_cpu_count := Some 8;
  platform_system := "Windows";
  platform_release := "10";
  platform_version := "10.0.19045";
  platform_platform := "Windows-10-10.0.19045-SP0";
  win32_edition := Ok (Some "Professional");
  psutil_cpu_count := Raise ImportError;
  run := fun _ => Raise FileNotFoundError;
  open_file := fun _ => Raise FileNotFoundError;
  path_exists := fun _ => false;
  glob := fun _ => Ok [];
  stat_mtime := fun _ => Raise FileNotFoundError;
  sysconf := fun _ => Raise AttributeError;
  reg_open := Ok tt;
  reg_query := fun name =>
    if String.eqb name "CurrentBuild" then Ok (RegStr "19045")
    else if String.eqb name "UBR" then Ok (RegInt 3803)
    else if String.eqb name "InstallDate" then Ok (RegInt 1600000000)
    else Raise FileNotFoundError;
  global_memory_status :=
    Ok {| call_result := 1; ullTotalPhys := 17179869184;
          ullAvailPhys := 8589934592 |}
|}.

(** The same without the value [UBR]. *)
Definition windows_no_ubr_host : host :=
  with_registry windows_host (fun name =>
    if String.eqb name "CurrentBuild" then Ok (RegStr "19045")
    else Raise FileNotFoundError).

(** The same with a value [UBR] that may not be read. *)
Definition windows_denied_ubr_host : host :=
  with_registry windows_host (fun name =>
    if String.eqb name "CurrentBuild" then Ok (RegStr "19045")
    else Raise PermissionError).

Definition os_release_lines : list string :=
  ["NAME=" +:+ quoted "Ubuntu" +:+ nl;
   "PRETTY_NAME=" +:+ quoted "Ubuntu 22.04.3 LTS" +:+ nl;
   "PRETTY_NAME=" +:+ quoted "Other" +:+ nl].

Definition os_release_host : host :=
  with_file (bare_host "Linux") "/etc/os-release" os_release_lines.

(** The topology of two processors, the file of the second not
    readable. *)
Definition broken_sysfs_host : host :=
  with_file
    (with_glob (bare_host "Linux")
       "/sys/devices/system/cpu/cpu[0-9]*/topology/core_id"
       [core_id_path "cpu0"; core_id_path "cpu1"])
    (core_id_path "cpu0") ["0" +:+ nl].

(** The first [cpu cores] line gives 0, a later one 4. *)
Definition zero_cores_lines : list string :=
  ["processor" +:+ tab +:+ ": 0" +:+ nl;
   "cpu cores" +:+ tab +:+ ": 0" +:+ nl; nl;
   "processor" +:+ tab +:+ ": 1" +:+ nl;
   "cpu cores" +:+ tab +:+ ": 4" +:+ nl; nl].

Definition zero_cores_host : host :=
  with_file (bare_host "Linux") "/proc/cpuinfo" zero_cores_lines.


(** A table without [MemTotal]; [os.sysconf] answers. *)
Definition no_total_host : host :=
  with_file (sysconf_host "Linux") "/proc/meminfo"
    ["Buffers:          200000 kB" +:+ nl].

(** A table without the three entries; [os.sysconf] answers. *)
Definition sparse_meminfo_lines : list string :=
  ["Buffers:          200000 kB" +:+ nl; "MemTotal:" +:+ nl;
   "MemFree:" +:+ nl; "MemTotal:       16777216 kB" +:+ nl].

Definition sparse_meminfo_host : host :=
  with_file (sysconf_host "Linux") "/proc/meminfo" sparse_meminfo_lines.

(** PowerShell is missing; [wmic] answers. *)
Definition wmic_host : host :=
  with_run (bare_host "Windows") gpu_wmic_cmd
    {| returncode := 0;
       stdout := nl +:+ "Name=NVIDIA GeForce RTX 3060" +:+ nl +:+ nl
                 +:+ "Name=" +:+ nl +:+ "Name= Intel(R) UHD Graphics"
                 +:+ nl |}.

(** PowerShell and [wmic] both answer. *)
Definition both_tools_host : host :=
  with_run windows_gpu_host gpu_wmic_cmd
    {| returncode := 0; stdout := "Name=Some other adapter" +:+ nl |}.

(** No [lspci]; two NVIDIA information files, the second not readable,
    and a DRM card. *)
Definition nvidia_host : host :=
  with_file
    (with_glob drm_host "/proc/driver/nvidia/gpus/*/information"
       ["/proc/driver/nvidia/gpus/0000:01:00.0/information";
        "/proc/driver/nvidia/gpus/0000:02:00.0/information"])
    "/proc/driver/nvidia/gpus/0000:01:00.0/information"
    ["Model: " +:+ tab +:+ " GeForce RTX 3060" +:+ nl;
     "IRQ:   " +:+ tab +:+ " 130" +:+ nl;
     "Model: " +:+ tab +:+ " Other" +:+ nl].

(** [lspci] answers and a DRM card exists too. *)
Definition lspci_and_drm_host : host :=
  with_run drm_host lspci_cmd {| returncode := 0; stdout := lspci_output |}.

(** ** Further notions *)

(** The stripped content of a file of one value under [/sys]. *)
Definition read_value (h : host) (path : string) : result string :=
  f ← open_file h path;
  text ← read_all f;
  Ok (strip text).

(** The pair of a processor directory: its package, ["0"] when the
    directory has no package file, and its core. *)
Definition topology_pair (h : host) (core_path : string)
    : result (string * string) :=
  core_val ← read_value h core_path;
  pkg_val ← (if path_exists h
                  (path_join (dirname core_path) "physical_package_id")
             then read_value h
                    (path_join (dirname core_path) "physical_package_id")
             else Ok "0");
  Ok (pkg_val, core_val).

(** A line of the CPU-info table that starts with one of the two ids and
    has no colon. *)
Definition stray_id_line (raw : string) : Prop :=
  (startswith (strip raw) "physical id" = true
   ∨ startswith (strip raw) "core id" = true)
  ∧ field_value (strip raw) = None.

Definition is_cpu_cores_line (raw : string) : bool :=
  startswith (py_lower (strip raw)) "cpu cores".

(** The positive integer a [cpu cores] line gives, if it gives one: the
    decimal literal after the colon, when it is within the interpreter's
    limit on digits and positive. *)
Definition cpu_cores_value (raw : string) : option Z :=
  match field_value (strip raw) with
  | Some v =>
      if (digit_count v <=? int_max_str_digits)%nat then
        match int_literal v with
        | Some n => if 0 <? n then Some n else None
        | None => None
        end
      else None
  | None => None
  end.

(** The edition as [get_os_name] shows it. *)
Definition edition_suffix (h : host) : string :=
  match win32_edition h with
  | Ok (Some e) => if nonempty e then " " +:+ e else ""
  | _ => ""
  end.

Definition windows_name (h : host) (version : string) : string :=
  "Windows " +:+ platform_release h +:+ edition_suffix h
  +:+ " (build " +:+ version +:+ ")".

Definition first_char (s : string) : option ascii :=
  match s with
  | EmptyString => None
  | String c _ => Some c
  end.

(** What the two fallbacks of the Linux RAM queries give. *)
Definition linux_sysconf_fallback (h : host) (pages : string) : result Z :=
  match sysconf_product h pages with
  | Ok v => Ok v
  | Raise e =>
      match e with
      | ValueError | UnicodeDecodeError | OSError | FileNotFoundError
      | PermissionError | AttributeError => Raise RuntimeError
      | _ => Raise e
      end
  end.

(** The name a line of [wmic ... /value] gives. *)
Definition wmic_value (line : string) : option string :=
  if startswith line "Name=" then
    Some (String.substring 5 (String.length line - 5) line)
  else None.

(** The name a line of [lspci -mm] gives: vendor and device of a line
    of one of the three display classes. *)
Definition is_display_line (line : string) : bool :=
  contains line (quoted "VGA compatible controller")
  || contains line (quoted "3D controller")
  || contains line (quoted "Display controller").

Definition lspci_name (raw_line : string) : option string :=
  if nonempty (strip raw_line) && is_display_line (strip raw_line) then
    match quoted_fields (strip raw_line) with
    | _ :: vendor :: device :: _ => Some (vendor +:+ " " +:+ device)
    | _ => None
    end
  else None.

(** The lines a command printed, when it ran and ended with code 0. *)
Definition output_lines (h : host) (cmd : list string) : list string :=
  match run h cmd with
  | Ok res => if returncode res =? 0 then splitlines (stdout res) else []
  | Raise _ => []
  end.

(** The names each tool gives. *)
Definition powershell_names (h : host) : list string :=
  candidates (output_lines h gpu_powershell_cmd).

Definition wmic_names (h : host) : list string :=
  candidates (omap wmic_value (output_lines h gpu_wmic_cmd)).

Definition lspci_names (h : host) : list string :=
  omap lspci_name (output_lines h lspci_cmd).

(** A line of quoted fields: each field in double quotes after a gap. *)
Fixpoint quoted_line (items : list (string * string)) (tail : string)
    : string :=
  match items with
  | [] => tail
  | (gap, field) :: rest => gap +:+ quoted field +:+ quoted_line rest tail
  end.

(** The text holds no double quote. *)
Definition quote_free (s : string) : Prop := cut dquote s = None.

Definition is_pretty_line (line : string) : bool :=
  startswith line "PRETTY_NAME=".

(** The text after the first [len] characters of a line. *)
Definition after (len : nat) (line : string) : string :=
  String.substring len (String.length line - len) line.

(** The name a [PRETTY_NAME=] line of [/etc/os-release] gives. *)
Definition pretty_value (line : string) : string :=
  strip_quotes (strip (after 12 line)).

Definition is_model_line (line : string) : bool := startswith line "Model:".

(** The name one information file of the NVIDIA driver gives: the value
    of its first [Model:] line, when it is not empty. *)
Definition nvidia_name (h : host) (info_path : string) : option string :=
  match open_file h info_path with
  | Ok f =>
      match find is_model_line (file_lines f) with
      | Some line =>
          if nonempty (strip (after 6 line))
          then Some ("NVIDIA " +:+ strip (after 6 line)) else None
      | None => None
      end
  | Raise _ => None
  end.

Definition nvidia_names (h : host) : list string :=
  match glob h "/proc/driver/nvidia/gpus/*/information" with
  | Ok paths => omap (nvidia_name h) paths
  | Raise _ => []
  end.

Definition is_driver_line (line : string) : bool := startswith line "DRIVER=".
Definition is_pci_id_line (line : string) : bool := startswith line "PCI_ID=".

(** The value of the last line of a [uevent] file that starts with a
    key. *)
Definition last_value (is_key : string -> bool) (lines : list string)
    : option string :=
  (fun line => strip (after 7 line)) <$> find is_key (rev lines).

(** The name one DRM card gives: the vendor its PCI id maps to, with the
    driver when [uevent] names one. *)
Definition drm_name (h : host) (card_path : string) : option string :=
  let uevent := path_join (path_join card_path "device") "uevent" in
  if path_exists h uevent then
    match open_file h uevent with
    | Ok f =>
        match read_error f with
        | Some _ => None
        | None =>
            match last_value is_pci_id_line (file_lines f) with
            | Some id =>
                if nonempty id then
                  match vendor_map !! py_lower (split_head ":" id) with
                  | Some vendor =>
                      match last_value is_driver_line (file_lines f) with
                      | Some (String c d) =>
                          Some (vendor +:+ " (" +:+ String c d +:+ ")")
                      | _ => Some (vendor +:+ " GPU")
                      end
                  | None => None
                  end
                else None
            | None => None
            end
        end
    | Raise _ => None
    end
  else None.

Definition drm_names (h : host) : list string :=
  match glob h "/sys/class/drm/card[0-9]*" with
  | Ok paths => omap (drm_name h) paths
  | Raise _ => []
  end.

(** * Properties *)

(** ** Strings *)

Section Strings.
Local Open Scope nat_scope.

Lemma string_length_app (a b : string) :
  String.length (a +:+ b) = String.length a + String.length b.
Proof. induction a as [|c a IH]; simpl; [reflexivity | now rewrite IH]. Qed.

Lemma length_repeat_char (c : ascii) (n : nat) :
  String.length (repeat_char c n) = n.
Proof. induction n as [|n IH]; simpl; [reflexivity | now rewrite IH]. Qed.

Lemma length_ljust (s : string) (w : nat) :
  String.length s ≤ w → String.length (ljust s w) = w.
Proof.
  intros Hle. unfold ljust. rewrite string_length_app, length_repeat_char. lia.
Qed.

Lemma substring_app_skip (a b : string) (n m : nat) :
  substring (String.length a + n) m (a +:+ b) = substring n m b.
Proof. induction a as [|c a IH]; simpl; [reflexivity | exact IH]. Qed.

Lemma substring_app_exact (a b : string) :
  substring 0 (String.length a) (a +:+ b) = a.
Proof.
  induction a as [|c a IH]; simpl.
  - destruct b; reflexivity.
  - now rewrite IH.
Qed.

Lemma rstrip_by_idem (p : ascii → bool) (s : string) :
  rstrip_by p (rstrip_by p s) = rstrip_by p s.
Proof.
  induction s as [|c s IH]; simpl; [reflexivity |].
  destruct (rstrip_by p s) as [|c' s'] eqn:E.
  - destruct (p c) eqn:Hc; simpl; [reflexivity | now rewrite Hc].
  - simpl in *. now rewrite IH.
Qed.

Lemma rstrip_by_nil_app (p : ascii → bool) (a b : string) :
  rstrip_by p b = EmptyString → rstrip_by p (a +:+ b) = rstrip_by p a.
Proof.
  intros Hb. induction a as [|c a IH]; simpl; [exact Hb | now rewrite IH].
Qed.

Lemma rstrip_repeat (p : ascii → bool) (c : ascii) (n : nat) :
  p c = true → rstrip_by p (repeat_char c n) = EmptyString.
Proof.
  intros Hc. induction n as [|n IH]; simpl; [reflexivity |].
  now rewrite IH, Hc.
Qed.

Lemma lstrip_rstrip_comm (p : ascii → bool) (s : string) :
  rstrip_by p (lstrip_by p s) = lstrip_by p (rstrip_by p s).
Proof.
  induction s as [|c s IH]; simpl; [reflexivity |].
  destruct (p c) eqn:Hc.
  - rewrite IH. destruct (rstrip_by p s); simpl; [reflexivity | now rewrite Hc].
  - simpl. destruct (rstrip_by p s); simpl; now rewrite Hc.
Qed.

Lemma lstrip_by_idem (p : ascii → bool) (s : string) :
  lstrip_by p (lstrip_by p s) = lstrip_by p s.
Proof.
  induction s as [|c s IH]; simpl; [reflexivity |].
  destruct (p c) eqn:Hc; [exact IH | simpl; now rewrite Hc].
Qed.

Lemma strip_by_idem (p : ascii → bool) (s : string) :
  strip_by p (strip_by p s) = strip_by p s.
Proof.
  unfold strip_by.
  now rewrite lstrip_rstrip_comm, rstrip_by_idem, lstrip_by_idem.
Qed.

Lemma strip_idem (s : string) : strip (strip s) = strip s.
Proof. apply strip_by_idem. Qed.

Lemma nonempty_true (s : string) : nonempty s = true ↔ s ≠ EmptyString.
Proof. destruct s; simpl; split; congruence. Qed.

Lemma nonempty_false (s : string) : nonempty s = false ↔ s = EmptyString.
Proof. destruct s; simpl; split; congruence. Qed.
End Strings.

(** ** Table renderer *)

Section Table.
Local Open Scope nat_scope.

Lemma py_max_spec (x : nat) (xs : list nat) :
  py_max x xs = Nat.max x (max_list xs).
Proof.
  unfold py_max. revert x.
  induction xs as [|y xs IH]; intros x; simpl; [lia |].
  rewrite IH. lia.
Qed.

Lemma max_list_app (xs ys : list nat) :
  max_list (xs ++ ys) = Nat.max (max_list xs) (max_list ys).
Proof. induction xs as [|x xs IH]; simpl; [reflexivity | lia]. Qed.

Lemma py_max_init (x : nat) (xs : list nat) : x ≤ py_max x xs.
Proof. rewrite py_max_spec. lia. Qed.

Lemma py_max_elem (x y : nat) (xs : list nat) : y ∈ xs → y ≤ py_max x xs.
Proof.
  intros Hy. rewrite py_max_spec.
  pose proof (max_list_elem_of_le y xs Hy). lia.
Qed.

Lemma length_sep (w1 w2 : nat) (c : ascii) :
  String.length (sep w1 w2 c) = w1 + w2 + 7.
Proof.
  unfold sep. rewrite !string_length_app, !length_repeat_char. simpl. lia.
Qed.

Lemma length_row_line (w1 w2 : nat) (kv : string * string) :
  String.length (fst kv) ≤ w1 → String.length (snd kv) ≤ w2 →
  String.length (row_line w1 w2 kv) = w1 + w2 + 7.
Proof.
  intros H1 H2. unfold row_line.
  rewrite !string_length_app, !length_ljust by assumption. simpl. lia.
Qed.

Lemma row_fits (rows : list (string * string))
    (header : option (string * string)) (kv : string * string) :
  kv ∈ rows →
  String.length (fst kv) ≤ col1_width rows header
  ∧ String.length (snd kv) ≤ col2_width rows header.
Proof.
  intros Hin. split; apply py_max_elem.
  - apply (list_elem_of_fmap_2 (fun kv => String.length (fst kv))), Hin.
  - apply (list_elem_of_fmap_2 (fun kv => String.length (snd kv))), Hin.
Qed.

Lemma data_lines_table (rows : list (string * string))
    (header : option (string * string)) :
  data_lines header (table_lines rows header)
  = row_line (col1_width rows header) (col2_width rows header) <$> rows.
Proof.
  unfold data_lines, table_lines.
  set (w1 := col1_width rows header). set (w2 := col2_width rows header).
  assert (Hbody : drop (match header with Some _ => 3 | None => 1 end)
            ([sep w1 w2 "-"]
             ++ match header with
                | Some h => [row_line w1 w2 h; sep w1 w2 "="]
                | None => []
                end
             ++ map (row_line w1 w2) rows ++ [sep w1 w2 "-"])
          = map (row_line w1 w2) rows ++ [sep w1 w2 "-"])
    by (destruct header; reflexivity).
  rewrite Hbody, length_app. simpl.
  replace (length (map (row_line w1 w2) rows) + 1 - 1)
    with (length (map (row_line w1 w2) rows)) by lia.
  apply take_app_length.
Qed.

(** *** Reading back by splitting at the bars *)

Lemma string_app_cons (x : ascii) (a b : string) :
  String x a +:+ b = String x (a +:+ b).
Proof. reflexivity. Qed.

Lemma string_app_assoc (a b c : string) :
  (a +:+ b) +:+ c = a +:+ (b +:+ c).
Proof.
  induction a as [|x a IH]; [reflexivity |].
  now rewrite !string_app_cons, IH.
Qed.

Lemma cut_app_none (sep : ascii) (a b : string) :
  cut sep a = None → cut sep b = None → cut sep (a +:+ b) = None.
Proof.
  intros Ha Hb. induction a as [|x a IH]; simpl in *; [exact Hb |].
  destruct (Ascii.eqb x sep); [discriminate |].
  destruct (cut sep a) as [[? ?]|]; [discriminate |]. now rewrite IH.
Qed.

Lemma cut_repeat_space (n : nat) : cut "|" (repeat_char " " n) = None.
Proof. induction n as [|n IH]; simpl; [reflexivity | now rewrite IH]. Qed.

Lemma split_all_none (sep : ascii) (a : string) :
  cut sep a = None → split_all sep a = [a].
Proof.
  induction a as [|x a IH]; simpl; [reflexivity |].
  destruct (Ascii.eqb x sep); [discriminate |].
  destruct (cut sep a) as [[? ?]|]; [discriminate |].
  intros _. now rewrite IH.
Qed.

Lemma split_all_app_sep (sep : ascii) (a b : string) :
  cut sep a = None →
  split_all sep (a +:+ String sep b) = a :: split_all sep b.
Proof.
  induction a as [|x a IH]; simpl.
  - intros _. now rewrite Ascii.eqb_refl.
  - destruct (Ascii.eqb x sep); [discriminate |].
    destruct (cut sep a) as [[? ?]|]; [discriminate |].
    intros _. now rewrite IH.
Qed.

Lemma strip_padded (k pad : string) :
  rstrip_by py_isspace pad = EmptyString →
  strip (" " +:+ (k +:+ pad)) = strip k.
Proof.
  intros Hpad. unfold strip, strip_by.
  change (" " +:+ (k +:+ pad)) with (String " " (k +:+ pad)).
  rewrite <- (lstrip_rstrip_comm py_isspace (String " " (k +:+ pad))).
  change (lstrip_by py_isspace (String " " (k +:+ pad)))
    with (lstrip_by py_isspace (k +:+ pad)).
  rewrite lstrip_rstrip_comm, rstrip_by_nil_app by exact Hpad.
  reflexivity.
Qed.

Lemma cell_padding (s : string) (w : nat) :
  cut "|" s = None →
  cut "|" (" " +:+ (ljust s w +:+ " ")) = None
  ∧ strip (" " +:+ (ljust s w +:+ " ")) = strip s.
Proof.
  intros Hs. unfold ljust. split.
  - apply (cut_app_none "|" " "); [reflexivity |].
    apply cut_app_none; [|reflexivity].
    apply cut_app_none; [exact Hs | apply cut_repeat_space].
  - rewrite string_app_assoc. apply strip_padded.
    rewrite rstrip_by_nil_app by reflexivity.
    now apply rstrip_repeat.
Qed.

(** A cell that holds no bar and has no white space at its ends comes
    back from the split reader. *)
Lemma parse_row_by_split_line (w1 w2 : nat) (kv : string * string) :
  cut "|" (fst kv) = None → cut "|" (snd kv) = None →
  parse_row_by_split (row_line w1 w2 kv)
  = Some (strip (fst kv), strip (snd kv)).
Proof.
  intros H1 H2. unfold parse_row_by_split, row_line.
  destruct (cell_padding (fst kv) w1 H1) as [C1 S1].
  destruct (cell_padding (snd kv) w2 H2) as [C2 S2].
  replace ("| " +:+ ljust (fst kv) w1 +:+ " | " +:+ ljust (snd kv) w2 +:+ " |")
    with (EmptyString +:+ String "|"
            ((" " +:+ (ljust (fst kv) w1 +:+ " ")) +:+ String "|"
               ((" " +:+ (ljust (snd kv) w2 +:+ " ")) +:+ String "|"
                  EmptyString))).
  - rewrite (split_all_app_sep "|" EmptyString) by reflexivity.
    rewrite (split_all_app_sep "|" _ _ C1).
    rewrite (split_all_app_sep "|" _ _ C2).
    simpl split_all. now rewrite S1, S2.
  - rewrite !string_app_cons, !string_app_assoc. reflexivity.
Qed.

End Table.

Section TableProperties.
Local Open Scope nat_scope.

(** C10.  Whatever the rows and the header (an empty list of rows and
    an absent header included), every line of [table_lines] has the
    same length, the two column widths plus seven; each column width
    is the greatest length among the header cell of the column, if
    there is a header, and the cells of the rows (zero when there are
    none). *)
Theorem table_lines_same_length (rows : list (string * string))
    (header : option (string * string)) :
  Forall (fun line =>
            String.length line
            = col1_width rows header + col2_width rows header + 7)
         (table_lines rows header)
  ∧ col1_width rows header
    = max_list (String.length <$> (option_list (fst <$> header)
                                    ++ (fst <$> rows)))
  ∧ col2_width rows header
    = max_list (String.length <$> (option_list (snd <$> header)
                                    ++ (snd <$> rows))).
Proof.
  split; [|split].
  - unfold table_lines.
    repeat apply Forall_app_2.
    + apply Forall_singleton, length_sep.
    + destruct header as [hd|]; [|constructor].
      repeat constructor; [|apply length_sep].
      apply length_row_line; apply py_max_init.
    + apply Forall_fmap, Forall_forall. intros kv Hin. simpl.
      destruct (row_fits rows header kv Hin). now apply length_row_line.
    + apply Forall_singleton, length_sep.
  - unfold col1_width. rewrite py_max_spec, fmap_app, max_list_app.
    rewrite <- list_fmap_compose.
    change (String.length ∘ fst <$> rows)
      with (map (fun kv : string * string => String.length (fst kv)) rows).
    destruct header as [hd|]; simpl; lia.
  - unfold col2_width. rewrite py_max_spec, fmap_app, max_list_app.
    rewrite <- list_fmap_compose.
    change (String.length ∘ snd <$> rows)
      with (map (fun kv : string * string => String.length (snd kv)) rows).
    destruct header as [hd|]; simpl; lia.
Qed.

(** C5, as amended.  For the three rows of the scenario and the
    default header the first column is 16 wide, the length of
    "Operating system", and the second is 7 wide, the length of
    "Test OS" (longer than "Value"); the rule under the header is drawn
    with [=] and the borders above and below the rows with [-]. *)
Theorem scenario_table :
  col1_width scenario_rows default_header = 16
  ∧ col1_width scenario_rows default_header = String.length "Operating system"
  ∧ col2_width scenario_rows default_header = 7
  ∧ col2_width scenario_rows default_header = String.length "Test OS"
  ∧ String.length "Value" < String.length "Test OS"
  ∧ table_lines scenario_rows default_header
    = [sep 16 7 "-";
       "| Property         | Value   |";
       sep 16 7 "=";
       "| Operating system | Test OS |";
       "| Physical cores   | 4       |";
       "| Logical cores    | 8       |";
       sep 16 7 "-"]
  ∧ sep 16 7 "=" = "+-================-+-=======-+"
  ∧ sep 16 7 "-" = "+------------------+---------+".
Proof. repeat split; try reflexivity. simpl. lia. Qed.

(** C5 as stated fails: "Operating system" has 16 characters and the
    first column is 16 wide, not 17. *)
Lemma scenario_first_column_not_17 :
  String.length "Operating system" ≠ 17
  ∧ col1_width scenario_rows default_header ≠ 17.
Proof. split; vm_compute; discriminate. Qed.

(** C6, as amended.  For every list of rows in which no label and no
    value holds a bar or has white space at either end, rendering with
    [table_lines] and reading each data line back (the line split at
    its bars, the padding trimmed) gives exactly the original labels
    and values, row by row. *)
Theorem table_round_trip (rows : list (string * string))
    (header : option (string * string)) :
  Forall (fun kv => plain_cell (fst kv) ∧ plain_cell (snd kv)) rows →
  parse_table header (table_lines rows header) = Some <$> rows.
Proof.
  intros Hrows. unfold parse_table.
  rewrite data_lines_table, <- list_fmap_compose.
  apply Forall_fmap_ext_1.
  eapply Forall_impl; [exact Hrows |].
  intros [k v] [[Hk Sk] [Hv Sv]]. simpl in *.
  rewrite (parse_row_by_split_line _ _ (k, v) Hk Hv). simpl.
  now rewrite Sk, Sv.
Qed.

Lemma table_round_trip_witness :
  Forall (fun kv => plain_cell (fst kv) ∧ plain_cell (snd kv)) scenario_rows
  ∧ parse_table default_header (table_lines scenario_rows default_header)
    = [Some ("Operating system", "Test OS"); Some ("Physical cores", "4");
       Some ("Logical cores", "8")].
Proof.
  assert (H : Forall (fun kv => plain_cell (fst kv) ∧ plain_cell (snd kv))
                scenario_rows)
    by (repeat constructor).
  split; [exact H | exact (table_round_trip scenario_rows default_header H)].
Defined.

(** C6 as stated fails on three kinds of rows: a cell that ends in
    white space and a cell that starts with white space come back
    trimmed, and a cell that holds a bar makes its line fall into more
    than two cells, so that no row is read. *)
Lemma table_cells_not_recovered :
  (parse_table default_header (table_lines [("a ", "b")] default_header)
   = [Some ("a", "b")]
   ∧ [Some ("a", "b")] ≠ Some <$> [("a ", "b")])
  ∧ (parse_table default_header (table_lines [(" a", "c")] default_header)
     = [Some ("a", "c")]
     ∧ [Some ("a", "c")] ≠ Some <$> [(" a", "c")])
  ∧ (parse_table default_header (table_lines [("a|b", "c")] default_header)
     = [None]
     ∧ [None] ≠ Some <$> [("a|b", "c")]).
Proof.
  repeat split; try reflexivity; discriminate.
Qed.
End TableProperties.

(** ** Exceptions *)

Section Exceptions.
Context {A : Type}.

(** A block under [except Exception] whose handler returns does not
    raise. *)
Lemma try_any_returns (c : result A) (handler : exn → A) :
  ∃ v, try_except c [AnyException] (fun e => Ok (handler e)) = Ok v.
Proof. destruct c as [a|e]; simpl; eauto. Qed.

Lemma returns_not_raises (c : result A) : (∃ v, c = Ok v) → ¬ raises c.
Proof. intros [v ->]. simpl. tauto. Qed.

End Exceptions.

(** Case analysis on a block under [except Exception]. *)
Ltac returns_of c v E :=
  let H := fresh in
  pose proof c as H; destruct H as [v E].

(** ** CPU inspector *)

Section Cpu.

Lemma positive_int_pos (value : option Z) (v : Z) :
  positive_int value = Some v → 1 ≤ v.
Proof.
  destruct value as [x|]; simpl; [|discriminate].
  destruct (0 <? x) eqn:E; [|discriminate].
  intros [= <-]. apply Z.ltb_lt in E. lia.
Qed.

Lemma logical_cpu_count_pos (h : host) : 1 ≤ get_logical_cpu_count h.
Proof.
  unfold get_logical_cpu_count.
  destruct (os_cpu_count h) as [count|]; [|lia].
  destruct (0 <? count) eqn:E; [apply Z.ltb_lt in E|]; lia.
Qed.

Lemma psutil_step_returns (h : host) :
  ∃ v, _get_physical_cpu_count_with_psutil h = Ok v.
Proof. apply (try_any_returns _ (fun _ => None)). Qed.

Lemma windows_step_returns (h : host) :
  ∃ v, _get_physical_cpu_count_windows h = Ok v.
Proof. apply (try_any_returns _ (fun _ => None)). Qed.

Lemma linux_step_returns (h : host) :
  ∃ v, _get_physical_cpu_count_linux h = Ok v.
Proof.
  unfold _get_physical_cpu_count_linux.
  returns_of (try_any_returns
    (f ← open_file h "/proc/cpuinfo";
     ps ← cpuinfo_pairs f;
     if bool_decide (ps = ∅) then Ok None else Ok (Some (Z.of_nat (size ps))))
    (fun _ => None)) r1 E1.
  unfold linux_cpuinfo_step. rewrite E1. simpl.
  destruct r1 as [n|]; [eauto |].
  returns_of (try_any_returns
    (paths ← glob h "/sys/devices/system/cpu/cpu[0-9]*/topology/core_id";
     out ← for_each paths (sysfs_body h) ∅;
     match out with
     | Next pairs_sys | Break pairs_sys =>
         if bool_decide (pairs_sys = ∅) then Ok None
         else Ok (Some (Z.of_nat (size pairs_sys)))
     | Return v => Ok (Some v)
     end)
    (fun _ => None)) r2 E2.
  unfold linux_sysfs_step. rewrite E2. simpl.
  destruct r2 as [n|]; [eauto |].
  apply (try_any_returns _ (fun _ => None)).
Qed.

Lemma platform_step_returns (h : host) : ∃ v, platform_cpu_count h = Ok v.
Proof.
  unfold platform_cpu_count.
  destruct (String.eqb _ "Windows"); [apply windows_step_returns |].
  destruct (String.eqb _ "Linux"); [apply linux_step_returns | eauto].
Qed.

Lemma physical_cpu_count_returns (h : host) :
  ∃ n, get_physical_cpu_count h = Ok n ∧ 1 ≤ n.
Proof.
  unfold get_physical_cpu_count.
  destruct (psutil_step_returns h) as [v1 ->]. simpl.
  destruct (positive_int v1) as [n|] eqn:E1.
  { exists n. split; [reflexivity | eapply positive_int_pos, E1]. }
  destruct (platform_step_returns h) as [v2 ->]. simpl.
  destruct (positive_int v2) as [n|] eqn:E2.
  { exists n. split; [reflexivity | eapply positive_int_pos, E2]. }
  eexists. split; [reflexivity | apply logical_cpu_count_pos].
Qed.

(** C1.  On every host [get_logical_cpu_count] is at least 1, and is 1
    when the OS reports no count, zero or a negative count;
    [get_physical_cpu_count] returns, without raising, a count that is
    at least 1; and when the psutil step and the platform step both
    yield no result it returns exactly [get_logical_cpu_count]. *)
Theorem cpu_counts_at_least_one (h : host) :
  1 ≤ get_logical_cpu_count h
  ∧ (os_cpu_count h = None → get_logical_cpu_count h = 1)
  ∧ (∀ n, os_cpu_count h = Some n → n ≤ 0 → get_logical_cpu_count h = 1)
  ∧ (∃ n, get_physical_cpu_count h = Ok n ∧ 1 ≤ n)
  ∧ (_get_physical_cpu_count_with_psutil h = Ok None →
     platform_cpu_count h = Ok None →
     get_physical_cpu_count h = Ok (get_logical_cpu_count h)).
Proof.
  split; [apply logical_cpu_count_pos |].
  split; [unfold get_logical_cpu_count; now intros -> |].
  split.
  { intros n Hn Hle. unfold get_logical_cpu_count. rewrite Hn.
    destruct (0 <? n) eqn:E; [apply Z.ltb_lt in E; lia | reflexivity]. }
  split; [apply physical_cpu_count_returns |].
  intros E1 E2. unfold get_physical_cpu_count.
  rewrite E1. simpl. rewrite E2. reflexivity.
Qed.

Lemma cpu_counts_at_least_one_witness :
  (_get_physical_cpu_count_with_psutil (bare_host "Linux") = Ok None
   ∧ platform_cpu_count (bare_host "Linux") = Ok None
   ∧ get_physical_cpu_count (bare_host "Linux")
     = Ok (get_logical_cpu_count (bare_host "Linux")))
  ∧ (os_cpu_count (bare_host "Linux") = None
     ∧ get_logical_cpu_count (bare_host "Linux") = 1)
  ∧ (os_cpu_count (with_cpu_count (bare_host "Linux") (Some 0)) = Some 0
     ∧ 0 ≤ 0
     ∧ get_logical_cpu_count (with_cpu_count (bare_host "Linux") (Some 0)) = 1).
Proof.
  assert (E1 : _get_physical_cpu_count_with_psutil (bare_host "Linux") = Ok None)
    by reflexivity.
  assert (E2 : platform_cpu_count (bare_host "Linux") = Ok None)
    by (vm_compute; reflexivity).
  split; [|split].
  - split; [exact E1 |]. split; [exact E2 |].
    exact (proj2 (proj2 (proj2 (proj2
      (cpu_counts_at_least_one (bare_host "Linux"))))) E1 E2).
  - split; [reflexivity |].
    exact (proj1 (proj2 (cpu_counts_at_least_one (bare_host "Linux")))
             eq_refl).
  - split; [reflexivity |]. split; [lia |].
    apply (proj1 (proj2 (proj2 (cpu_counts_at_least_one
             (with_cpu_count (bare_host "Linux") (Some 0))))) 0);
      [reflexivity | lia].
Defined.
End Cpu.

(** ** OS identity inspector *)

Section OsIdentity.

Lemma build_number_returns (h : host) :
  ∃ v, _get_windows_build_number h = Ok v.
Proof. apply (try_any_returns _ (fun _ => None)). Qed.

Lemma os_name_returns (h : host) : ∃ s, get_os_name h = Ok s.
Proof.
  unfold get_os_name.
  destruct (String.eqb _ "Windows").
  - destruct (try_any_returns (win32_edition h) (fun _ => Some EmptyString))
      as [edition ->].
    destruct (build_number_returns h) as [build ->]. simpl. eauto.
  - destruct (String.eqb _ "Linux"); [|eauto].
    match goal with
    | |- ∃ s, (_ ← ?c; _) = _ => destruct (try_any_returns
        (f ← open_file h "/etc/os-release";
         out ← for_lines f os_release_body None;
         match out with
         | Next pretty_name | Break pretty_name =>
             if truthy pretty_name then Ok pretty_name else Ok None
         | Return _ => Ok None
         end) (fun _ => None)) as [found E]
    end.
    rewrite E. simpl. destruct found; eauto.
Qed.

Lemma fold_min_spec (xs : list Z) (x : Z) :
  (fold_left Z.min xs x = x ∨ fold_left Z.min xs x ∈ xs)
  ∧ fold_left Z.min xs x ≤ x
  ∧ Forall (fun y => fold_left Z.min xs x ≤ y) xs.
Proof.
  revert x. induction xs as [|y xs IH]; intros x; simpl.
  - split; [now left |]. split; [lia | constructor].
  - destruct (IH (Z.min x y)) as (Hin & Hle & Hall).
    split; [|split].
    + destruct Hin as [-> | Hin].
      * destruct (Z.min_spec x y) as [[_ ->] | [_ ->]];
          [now left | right; constructor].
      * right. now constructor.
    + lia.
    + constructor; [lia | exact Hall].
Qed.

Lemma py_min_spec (xs : list Z) :
  match py_min xs with
  | None => xs = []
  | Some m => m ∈ xs ∧ Forall (fun y => m ≤ y) xs
  end.
Proof.
  destruct xs as [|x xs]; simpl; [reflexivity |].
  destruct (fold_min_spec xs x) as (Hin & Hle & Hall).
  split.
  - destruct Hin as [-> | Hin]; [constructor | now constructor].
  - now constructor.
Qed.

Lemma install_body_spec (h : host) (path : string) (acc : list datetime) :
  install_body h path acc
  = Ok (Next (acc ++ readable_timestamps h [path])).
Proof.
  unfold install_body, readable_timestamps. simpl.
  destruct (stat_mtime h path) as [mtime|e]; simpl;
    [|now rewrite app_nil_r].
  destruct (fromtimestamp mtime) as [ts|e]; simpl;
    [reflexivity | now rewrite app_nil_r].
Qed.

(** The loop over the candidate paths collects the timestamps of the
    paths that can be read and skips the others. *)
Lemma install_loop (h : host) (paths : list string) (acc : list datetime) :
  for_each paths (install_body h) acc
  = Ok (Next (acc ++ readable_timestamps h paths)).
Proof.
  revert acc. induction paths as [|path paths IH]; intros acc.
  - simpl. now rewrite app_nil_r.
  - change (for_each (path :: paths) (install_body h) acc)
      with (out ← install_body h path acc;
            match out with
            | Next s' => for_each paths (install_body h) s'
            | Break s' => Ok (Break s')
            | Return r => Ok (Return r)
            end).
    rewrite install_body_spec. simpl. rewrite IH, <- app_assoc.
    do 3 f_equal. unfold readable_timestamps. simpl.
    destruct (stat_mtime h path ≫= fromtimestamp); reflexivity.
Qed.

Lemma linux_install_datetime_spec (h : host) :
  _get_linux_install_datetime h
  = Ok (py_min (readable_timestamps h candidate_paths)).
Proof. unfold _get_linux_install_datetime. now rewrite install_loop. Qed.

Lemma install_datetime_returns (h : host) :
  ∃ d, get_os_install_datetime h = Ok d.
Proof.
  unfold get_os_install_datetime.
  destruct (String.eqb _ "Windows");
    [apply (try_any_returns _ (fun _ => None)) |].
  destruct (String.eqb _ "Linux"); [|eauto].
  rewrite linux_install_datetime_spec. eauto.
Qed.

(** C7.  On Linux [get_os_install_datetime] never raises.  Among the
    four candidate paths, those whose [stat] fails (or whose
    modification time no [datetime] can hold) are skipped; when none can
    be read the answer is [None]; otherwise the answer is the earliest
    of the timestamps of the paths that can be read. *)
Theorem linux_install_datetime_earliest (h : host) :
  platform_system h = "Linux" →
  candidate_paths
  = ["/var/log/installer/syslog"; "/var/log/anaconda/anaconda.log";
     "/var/log/installer"; "/etc"]
  ∧ (readable_timestamps h candidate_paths = [] →
     get_os_install_datetime h = Ok None)
  ∧ (readable_timestamps h candidate_paths ≠ [] →
     ∃ t, get_os_install_datetime h = Ok (Some t)
          ∧ t ∈ readable_timestamps h candidate_paths
          ∧ Forall (fun u => t ≤ u) (readable_timestamps h candidate_paths)).
Proof.
  intros Hsys. split; [reflexivity |].
  assert (E : get_os_install_datetime h
              = Ok (py_min (readable_timestamps h candidate_paths))).
  { unfold get_os_install_datetime. rewrite Hsys. simpl.
    apply linux_install_datetime_spec. }
  rewrite E.
  pose proof (py_min_spec (readable_timestamps h candidate_paths)) as Hmin.
  split.
  - intros Hnil. now rewrite Hnil.
  - intros Hne. destruct (py_min _) as [m|]; [|contradiction].
    exists m. tauto.
Qed.

Lemma linux_install_datetime_earliest_witness :
  (platform_system install_host = "Linux"
   ∧ readable_timestamps install_host candidate_paths
     = [1600000000000000; 1700000000000000]
   ∧ get_os_install_datetime install_host = Ok (Some 1600000000000000))
  ∧ (platform_system (bare_host "Linux") = "Linux"
     ∧ readable_timestamps (bare_host "Linux") candidate_paths = []
     ∧ get_os_install_datetime (bare_host "Linux") = Ok None).
Proof.
  split.
  - split; [reflexivity |]. split; [vm_compute; reflexivity |].
    destruct (linux_install_datetime_earliest install_host eq_refl)
      as (_ & _ & Hsome).
    destruct Hsome as (t & Ht & Hin & Hle).
    { vm_compute. discriminate. }
    rewrite Ht. do 2 f_equal.
    assert (Hr : readable_timestamps install_host candidate_paths
                 = [1600000000000000; 1700000000000000])
      by (vm_compute; reflexivity).
    rewrite Hr in Hin, Hle.
    apply elem_of_cons in Hin. destruct Hin as [-> | Hin]; [reflexivity |].
    apply list_elem_of_singleton in Hin. subst t.
    apply Forall_cons in Hle. destruct Hle as [Hle _]. lia.
  - split; [reflexivity |]. split; [reflexivity |].
    exact (proj1 (proj2 (linux_install_datetime_earliest (bare_host "Linux")
                           eq_refl)) eq_refl).
Defined.
End OsIdentity.

(** ** GPU inspector *)

Section Gpu.

Lemma filter_all {B : Type} (P : B → Prop) `{!∀ x, Decision (P x)}
    (l : list B) :
  (∀ x, P x) → filter P l = l.
Proof.
  intros HP. induction l as [|x l IH]; [reflexivity |].
  rewrite filter_cons_True by apply HP. now rewrite IH.
Qed.

Lemma first_seen_filter (P : string → Prop) `{!∀ x, Decision (P x)}
    (l : list string) :
  filter P (first_seen l) = first_seen (filter P l).
Proof.
  induction l as [|x l IH]; simpl; [reflexivity |].
  rewrite !filter_cons. destruct (decide (P x)) as [Hx|Hx].
  - simpl. rewrite <- IH. f_equal.
    rewrite !list_filter_filter. apply list_filter_iff. tauto.
  - rewrite <- IH. rewrite list_filter_filter_l; [reflexivity |].
    intros y Hy ->. contradiction.
Qed.

Lemma elem_of_first_seen (l : list string) (y : string) :
  y ∈ first_seen l ↔ y ∈ l.
Proof.
  induction l as [|x l IH]; simpl; [reflexivity |].
  rewrite !elem_of_cons, list_elem_of_filter, IH.
  destruct (decide (y = x)); tauto.
Qed.

Lemma NoDup_first_seen (l : list string) : NoDup (first_seen l).
Proof.
  induction l as [|x l IH]; simpl; constructor.
  - rewrite list_elem_of_filter. tauto.
  - now apply NoDup_filter.
Qed.

(** The loop of [_unique_ordered]: what it appends to [result] are the
    first occurrences of the candidates that [seen] does not hold. *)
Lemma unique_loop_spec (items : list string) (seen : gset string)
    (acc : list string) :
  unique_loop items seen acc
  = acc ++ first_seen (filter (fun v => v ∉ seen) (candidates items)).
Proof.
  revert seen acc. induction items as [|item items IH]; intros seen acc.
  - simpl. now rewrite app_nil_r.
  - unfold candidates. rewrite fmap_cons, filter_cons.
    fold (candidates items). simpl unique_loop.
    destruct (decide (strip item ≠ EmptyString)) as [Hne|He].
    + rewrite (proj2 (nonempty_true _) Hne). simpl negb. cbv iota.
      rewrite filter_cons.
      destruct (decide (strip item ∉ seen)) as [Hseen|Hseen].
      * rewrite bool_decide_eq_false_2 by exact Hseen. simpl first_seen.
        rewrite IH, <- app_assoc. simpl. do 2 f_equal.
        rewrite first_seen_filter, list_filter_filter.
        f_equal. apply list_filter_iff. intros y.
        rewrite not_elem_of_union, not_elem_of_singleton. tauto.
      * rewrite bool_decide_eq_true_2 by (destruct (decide (strip item ∈ seen)); tauto).
        apply IH.
    + assert (E : strip item = EmptyString)
        by (destruct (decide (strip item = EmptyString)); tauto).
      rewrite E. simpl. apply IH.
Qed.

Lemma unique_ordered_spec (items : list string) :
  _unique_ordered items = first_seen (candidates items).
Proof.
  unfold _unique_ordered. rewrite unique_loop_spec. simpl. f_equal.
  apply filter_all. intros y. apply not_elem_of_empty.
Qed.

Lemma candidates_trimmed (items : list string) (x : string) :
  x ∈ candidates items → x ≠ EmptyString ∧ strip x = x.
Proof.
  unfold candidates. rewrite list_elem_of_filter, list_elem_of_fmap.
  intros [Hne (item & -> & _)]. split; [exact Hne | apply strip_idem].
Qed.

Lemma if_no_names_returns (names : list string)
    (step : list string → result (list string)) :
  ∃ v, if_no_names names step = Ok v.
Proof.
  destruct names as [|n names]; simpl; [|eauto].
  apply (try_any_returns _ (fun _ => [])).
Qed.

Lemma gpu_names_windows_returns (h : host) :
  ∃ items, _get_gpu_names_windows h = Ok (_unique_ordered items).
Proof.
  unfold _get_gpu_names_windows.
  destruct (try_any_returns
    (res ← run h gpu_powershell_cmd; scan_output res powershell_name_body [])
    (fun _ => [])) as [names1 ->]. simpl.
  destruct (if_no_names_returns names1 (fun names =>
    res ← run h gpu_wmic_cmd; scan_output res wmic_name_body names))
    as [names2 ->]. simpl. eauto.
Qed.

Lemma gpu_names_linux_returns (h : host) :
  ∃ items, _get_gpu_names_linux h = Ok (_unique_ordered items).
Proof.
  unfold _get_gpu_names_linux.
  destruct (try_any_returns
    (res ← run h lspci_cmd; scan_output res lspci_body [])
    (fun _ => [])) as [names1 ->]. simpl.
  destruct (if_no_names_returns names1 (fun names =>
    paths ← glob h "/proc/driver/nvidia/gpus/*/information";
    out ← for_each paths (nvidia_file_body h) names;
    Ok (names_of out))) as [names2 ->]. simpl.
  destruct (if_no_names_returns names2 (fun names =>
    paths ← glob h "/sys/class/drm/card[0-9]*";
    out ← for_each paths (drm_card_body h) names;
    Ok (names_of out))) as [names3 ->]. simpl. eauto.
Qed.

Lemma gpu_names_returns (h : host) :
  ∃ items, get_gpu_names h = Ok (_unique_ordered items).
Proof.
  unfold get_gpu_names.
  destruct (String.eqb _ "Windows"); [apply gpu_names_windows_returns |].
  destruct (String.eqb _ "Linux"); [apply gpu_names_linux_returns |].
  now exists [].
Qed.

(** C8.  Whatever candidate names the steps gathered, the result of
    [_unique_ordered] holds the stripped, non-empty candidates, each
    once, in the order of their first occurrence: every entry is
    non-empty and trimmed, no entry occurs twice.  [get_gpu_names] never
    raises, its result is such a de-duplicated list (the empty list
    included), and on a system that is neither Windows nor Linux it is
    the empty list. *)
Theorem gpu_names_unique_ordered :
  (∀ items,
     _unique_ordered items = first_seen (candidates items)
     ∧ NoDup (_unique_ordered items)
     ∧ Forall (fun x => x ≠ EmptyString ∧ strip x = x) (_unique_ordered items)
     ∧ (∀ x, x ∈ _unique_ordered items ↔ x ∈ candidates items))
  ∧ _unique_ordered [] = []
  ∧ (∀ h, ∃ items, get_gpu_names h = Ok (_unique_ordered items))
  ∧ (∀ h, String.eqb (platform_system h) "Windows" = false →
          String.eqb (platform_system h) "Linux" = false →
          get_gpu_names h = Ok []).
Proof.
  split; [|split; [reflexivity | split; [exact gpu_names_returns |]]].
  - intros items. rewrite unique_ordered_spec.
    split; [reflexivity |]. split; [apply NoDup_first_seen |].
    split; [|intros x; apply elem_of_first_seen].
    apply Forall_forall. intros x Hx.
    rewrite elem_of_first_seen in Hx. now apply (candidates_trimmed items).
  - intros h H1 H2. unfold get_gpu_names. now rewrite H1, H2.
Qed.

Lemma gpu_names_unique_ordered_witness :
  String.eqb (platform_system (bare_host "Darwin")) "Windows" = false
  ∧ String.eqb (platform_system (bare_host "Darwin")) "Linux" = false
  ∧ get_gpu_names (bare_host "Darwin") = Ok [].
Proof.
  split; [reflexivity |]. split; [reflexivity |].
  exact (proj2 (proj2 (proj2 gpu_names_unique_ordered))
           (bare_host "Darwin") eq_refl eq_refl).
Defined.
End Gpu.

(** ** Memory inspector *)

Section Memory.

Lemma other_os_total (h : host) :
  String.eqb (platform_system h) "Windows" = false →
  String.eqb (platform_system h) "Linux" = false →
  get_total_ram_bytes h
  = match sysconf_product h "SC_PHYS_PAGES" with
    | Ok v => Ok v
    | Raise _ => Raise NotImplementedError
    end.
Proof.
  intros H1 H2. unfold get_total_ram_bytes. rewrite H1, H2.
  destruct (sysconf_product h "SC_PHYS_PAGES"); reflexivity.
Qed.

Lemma other_os_free (h : host) :
  String.eqb (platform_system h) "Windows" = false →
  String.eqb (platform_system h) "Linux" = false →
  get_free_ram_bytes h
  = match sysconf_product h "SC_AVPHYS_PAGES" with
    | Ok v => Ok v
    | Raise _ => Raise NotImplementedError
    end.
Proof.
  intros H1 H2. unfold get_free_ram_bytes. rewrite H1, H2.
  destruct (sysconf_product h "SC_AVPHYS_PAGES"); reflexivity.
Qed.

(** C9.  On a system that is neither Windows nor Linux the two RAM
    queries try page size times page count from [os.sysconf]; when that
    query answers they return the product, and when it raises they raise
    [NotImplementedError], the unsupported-OS error, instead of
    returning a value.  The other inspectors do not raise on any host
    ([get_logical_cpu_count] is a total function; the physical count,
    the OS name, the install time and the GPU names are shown here),
    and there are hosts on which each RAM query raises. *)
Theorem ram_queries_alone_raise :
  (∀ h, String.eqb (platform_system h) "Windows" = false →
        String.eqb (platform_system h) "Linux" = false →
        get_total_ram_bytes h
        = match sysconf_product h "SC_PHYS_PAGES" with
          | Ok v => Ok v
          | Raise _ => Raise NotImplementedError
          end
        ∧ get_free_ram_bytes h
          = match sysconf_product h "SC_AVPHYS_PAGES" with
            | Ok v => Ok v
            | Raise _ => Raise NotImplementedError
            end)
  ∧ (∀ h page_size count,
       sysconf h "SC_PAGE_SIZE" = Ok page_size →
       sysconf h "SC_PHYS_PAGES" = Ok count →
       sysconf_product h "SC_PHYS_PAGES" = Ok (page_size * count))
  ∧ (∀ h, ¬ raises (get_physical_cpu_count h)
          ∧ ¬ raises (get_os_name h)
          ∧ ¬ raises (get_os_install_datetime h)
          ∧ ¬ raises (get_gpu_names h))
  ∧ (∃ h, raises (get_total_ram_bytes h))
  ∧ (∃ h, raises (get_free_ram_bytes h)).
Proof.
  split; [|split; [|split; [|split]]].
  - intros h H1 H2. split; [now apply other_os_total | now apply other_os_free].
  - intros h ps n Hps Hn. unfold sysconf_product. now rewrite Hps, Hn.
  - intros h.
    split; [destruct (physical_cpu_count_returns h) as (n & Hn & _);
            apply returns_not_raises; eauto |].
    split; [apply returns_not_raises, os_name_returns |].
    split; [apply returns_not_raises, install_datetime_returns |].
    destruct (gpu_names_returns h) as [items Hitems].
    apply returns_not_raises. eauto.
  - exists (bare_host "Darwin"). exact I.
  - exists (bare_host "Darwin"). exact I.
Qed.

Lemma ram_queries_alone_raise_witness :
  (String.eqb (platform_system (bare_host "Darwin")) "Windows" = false
   ∧ String.eqb (platform_system (bare_host "Darwin")) "Linux" = false
   ∧ get_total_ram_bytes (bare_host "Darwin") = Raise NotImplementedError
   ∧ get_free_ram_bytes (bare_host "Darwin") = Raise NotImplementedError)
  ∧ (sysconf (sysconf_host "Darwin") "SC_PAGE_SIZE" = Ok 4096
     ∧ sysconf (sysconf_host "Darwin") "SC_PHYS_PAGES" = Ok 1000
     ∧ sysconf_product (sysconf_host "Darwin") "SC_PHYS_PAGES" = Ok 4096000
     ∧ get_total_ram_bytes (sysconf_host "Darwin") = Ok 4096000).
Proof.
  split.
  - split; [reflexivity |]. split; [reflexivity |].
    exact (proj1 ram_queries_alone_raise (bare_host "Darwin") eq_refl eq_refl).
  - split; [reflexivity |]. split; [reflexivity |].
    split.
    + exact (proj1 (proj2 ram_queries_alone_raise)
               (sysconf_host "Darwin") 4096 1000 eq_refl eq_refl).
    + exact (proj1 (proj1 ram_queries_alone_raise (sysconf_host "Darwin")
                      eq_refl eq_refl)).
Defined.
End Memory.

(** ** The memory-info table *)

Section MemoryTable.

Lemma for_each_cons {B S R : Type} (x : B) (xs : list B)
    (body : B → S → result (flow S R)) (s : S) :
  for_each (x :: xs) body s
  = (out ← body x s;
     match out with
     | Next s' => for_each xs body s'
     | Break s' => Ok (Break s')
     | Return r => Ok (Return r)
     end).
Proof. reflexivity. Qed.

Lemma find_snoc {B : Type} (p : B → bool) (xs : list B) (x : B) :
  find p (xs ++ [x])
  = match find p xs with
    | Some y => Some y
    | None => if p x then Some x else None
    end.
Proof.
  induction xs as [|y xs IH]; simpl; [reflexivity |].
  destruct (p y); [reflexivity | exact IH].
Qed.

Lemma py_int_literal (s : string) (v : Z) :
  int_literal s = Some v → (digit_count s ≤ int_max_str_digits)%nat →
  py_int s = Ok v.
Proof.
  intros Hl Hd. unfold py_int. rewrite Hl.
  apply Nat.leb_le in Hd. now rewrite Hd.
Qed.

Lemma py_int_returns (s : string) (v : Z) :
  py_int s = Ok v →
  int_literal s = Some v ∧ (digit_count s ≤ int_max_str_digits)%nat.
Proof.
  unfold py_int.
  destruct (digit_count s <=? int_max_str_digits)%nat eqn:Hd;
    [|discriminate].
  destruct (int_literal s) as [x|]; [|discriminate].
  intros [= <-]. split; [reflexivity | now apply Nat.leb_le].
Qed.

Lemma rstrip_by_repeat_keep (p : ascii → bool) (c : ascii) (n : nat) :
  p c = false → rstrip_by p (repeat_char c n) = repeat_char c n.
Proof.
  intros Hc. induction n as [|n IH]; [reflexivity |].
  simpl. rewrite IH. destruct n; simpl; [now rewrite Hc | reflexivity].
Qed.

Lemma int_digits_ones (n : nat) (acc : Z) (after_digit : bool) :
  int_digits (repeat_char "1" (S n)) acc after_digit
  = Some (Nat.iter (S n) (fun a => a * 10 + 1) acc).
Proof.
  revert acc after_digit. induction n as [|n IH]; intros acc after_digit.
  - reflexivity.
  - change (int_digits (repeat_char "1" (S (S n))) acc after_digit)
      with (int_digits (repeat_char "1" (S n)) (acc * 10 + 1) true).
    rewrite IH. f_equal. symmetry.
    exact (Nat.iter_succ_r (S n) (fun a => a * 10 + 1) acc).
Qed.

(** A run of digits 1 is the literal of the integer written so. *)
Lemma int_literal_ones (n : nat) :
  int_literal (repeat_char "1" (S n)) = Some (ones (S n)).
Proof.
  unfold int_literal, strip_by.
  rewrite rstrip_by_repeat_keep by reflexivity.
  change (lstrip_by int_isspace (repeat_char "1" (S n)))
    with (repeat_char "1" (S n)).
  change (match repeat_char "1" (S n) with
          | String "+" r => int_digits r 0 false
          | String "-" r => option_map Z.opp (int_digits r 0 false)
          | t => int_digits t 0 false
          end)
    with (int_digits (repeat_char "1" (S n)) 0 false).
  apply int_digits_ones.
Qed.

Lemma entry_of_split (line : string) (v : Z) (u : string) :
  entry_of line = Some (v, u) →
  (value_digits line ≤ int_max_str_digits)%nat →
  ∃ p0 p1 rest, py_split line = p0 :: p1 :: u :: rest ∧ py_int p1 = Ok v.
Proof.
  unfold entry_of, value_digits.
  destruct (py_split line) as [|p0 [|p1 [|p2 rest]]]; try discriminate.
  destruct (int_literal p1) as [x|] eqn:E; [|discriminate].
  intros [= <- <-] Hd. exists p0, p1, rest.
  split; [reflexivity | now apply py_int_literal].
Qed.

Lemma mem_total_body_entry (line : string) (v : Z) (u : string) :
  is_total_line line = true → entry_of line = Some (v, u) →
  (value_digits line ≤ int_max_str_digits)%nat →
  mem_total_body line tt = Ok (Return (to_bytes v (py_lower u))).
Proof.
  intros Hl He Hd.
  destruct (entry_of_split _ _ _ He Hd) as (p0 & p1 & rest & Hs & Hi).
  unfold mem_total_body. unfold is_total_line in Hl. rewrite Hl, Hs, Hi.
  reflexivity.
Qed.

Lemma mem_total_body_other (line : string) :
  is_total_line line = false → mem_total_body line tt = Ok (Next tt).
Proof.
  intros Hl. unfold mem_total_body. unfold is_total_line in Hl.
  now rewrite Hl.
Qed.

(** The loop of [_get_total_ram_bytes_linux] returns at the first
    [MemTotal] line. *)
Lemma mem_total_loop (lines : list string) (line : string) (v : Z)
    (u : string) :
  find is_total_line lines = Some line → entry_of line = Some (v, u) →
  (value_digits line ≤ int_max_str_digits)%nat →
  for_each lines mem_total_body tt = Ok (Return (to_bytes v (py_lower u))).
Proof.
  intros Hfind He Hd. induction lines as [|l lines IH]; [discriminate |].
  rewrite for_each_cons. simpl in Hfind.
  destruct (is_total_line l) eqn:Hl.
  - injection Hfind as ->. now rewrite (mem_total_body_entry _ _ _ Hl He Hd).
  - rewrite (mem_total_body_other _ Hl). simpl. now apply IH.
Qed.

Lemma total_ram_from_table (h : host) (f : text_file) (line : string)
    (v : Z) (u : string) :
  open_file h "/proc/meminfo" = Ok f →
  find is_total_line (file_lines f) = Some line →
  entry_of line = Some (v, u) →
  (value_digits line ≤ int_max_str_digits)%nat →
  _get_total_ram_bytes_linux h = Ok (to_bytes v (py_lower u)).
Proof.
  intros Hopen Hfind He Hd. unfold _get_total_ram_bytes_linux.
  rewrite Hopen. simpl. unfold for_lines.
  now rewrite (mem_total_loop _ _ _ _ Hfind He Hd).
Qed.

(** C3, as amended.  When the first [MemTotal] line of the memory-info
    table has an integer value [v] of at most 4300 digits and a unit
    [u], [_get_total_ram_bytes_linux] returns [v * 1024] for the unit
    kB, [v * 1024^2] for MB, [v * 1024^3] for GB (the unit is compared
    without regard to letter case) and [v * 1024] for any other unit;
    the table that holds [MemTotal: 16777216 kB] gives 17179869184. *)
Theorem total_ram_honors_unit :
  (∀ h f line v u,
     open_file h "/proc/meminfo" = Ok f →
     find is_total_line (file_lines f) = Some line →
     entry_of line = Some (v, u) →
     (value_digits line ≤ int_max_str_digits)%nat →
     (py_lower u = "kb" → _get_total_ram_bytes_linux h = Ok (v * 1024))
     ∧ (py_lower u = "mb" → _get_total_ram_bytes_linux h = Ok (v * 1024 ^ 2))
     ∧ (py_lower u = "gb" → _get_total_ram_bytes_linux h = Ok (v * 1024 ^ 3))
     ∧ (py_lower u ≠ "kb" → py_lower u ≠ "mb" → py_lower u ≠ "gb" →
        _get_total_ram_bytes_linux h = Ok (v * 1024)))
  ∧ py_lower "kB" = "kb" ∧ py_lower "MB" = "mb" ∧ py_lower "GB" = "gb"
  ∧ _get_total_ram_bytes_linux meminfo_total_host = Ok 17179869184.
Proof.
  split; [|repeat split; vm_compute; reflexivity].
  intros h f line v u Hopen Hfind He Hd.
  rewrite (total_ram_from_table h f line v u Hopen Hfind He Hd).
  unfold to_bytes.
  split; [intros ->; reflexivity |].
  split; [intros ->; simpl; f_equal; lia |].
  split; [intros ->; simpl; f_equal; lia |].
  intros H1 H2 H3.
  destruct (String.eqb_spec (py_lower u) "kb"); [contradiction |].
  destruct (String.eqb_spec (py_lower u) "mb"); [contradiction |].
  destruct (String.eqb_spec (py_lower u) "gb"); [contradiction |].
  reflexivity.
Qed.

Lemma total_ram_honors_unit_witness :
  open_file meminfo_host "/proc/meminfo"
  = Ok {| file_lines := meminfo_lines; read_error := None |}
  ∧ find is_total_line meminfo_lines
    = Some ("MemTotal:       16777216 kB" +:+ nl)
  ∧ entry_of ("MemTotal:       16777216 kB" +:+ nl) = Some (16777216, "kB")
  ∧ value_digits ("MemTotal:       16777216 kB" +:+ nl) = 8%nat
  ∧ (value_digits ("MemTotal:       16777216 kB" +:+ nl)
     ≤ int_max_str_digits)%nat
  ∧ py_lower "kB" = "kb"
  ∧ _get_total_ram_bytes_linux meminfo_host = Ok (16777216 * 1024).
Proof.
  assert (Hd : (value_digits ("MemTotal:       16777216 kB" +:+ nl)
                ≤ int_max_str_digits)%nat)
    by (apply Nat.leb_le; vm_compute; reflexivity).
  split; [reflexivity |]. split; [reflexivity |].
  split; [vm_compute; reflexivity |]. split; [vm_compute; reflexivity |].
  split; [exact Hd |]. split; [reflexivity |].
  exact (proj1 (proj1 total_ram_honors_unit meminfo_host
                  {| file_lines := meminfo_lines; read_error := None |}
                  ("MemTotal:       16777216 kB" +:+ nl) 16777216 "kB"
                  eq_refl eq_refl eq_refl Hd) eq_refl).
Defined.

(** C3 as stated fails for a value of more digits than the interpreter
    converts: the [MemTotal] line has an integer value of 4301 digits
    and the unit kB, and the function does not return the value times
    1024: [int] raises [ValueError], which nothing catches. *)
Lemma total_ram_beyond_digit_limit :
  open_file huge_total_host "/proc/meminfo"
  = Ok {| file_lines := [huge_total_line]; read_error := None |}
  ∧ find is_total_line [huge_total_line] = Some huge_total_line
  ∧ entry_of huge_total_line = Some (ones 4301, "kB")
  ∧ value_digits huge_total_line = 4301%nat
  ∧ py_lower "kB" = "kb"
  ∧ _get_total_ram_bytes_linux huge_total_host = Raise ValueError
  ∧ _get_total_ram_bytes_linux huge_total_host ≠ Ok (ones 4301 * 1024).
Proof.
  assert (Hs : py_split huge_total_line
               = ["MemTotal:"; repeat_char "1" 4301; "kB"])
    by (vm_compute; reflexivity).
  split; [reflexivity |]. split; [reflexivity |].
  split; [unfold entry_of; rewrite Hs; now rewrite (int_literal_ones 4300) |].
  split; [vm_compute; reflexivity |]. split; [reflexivity |].
  assert (E : _get_total_ram_bytes_linux huge_total_host = Raise ValueError)
    by (vm_compute; reflexivity).
  split; [exact E | rewrite E; discriminate].
Qed.
End MemoryTable.

Section FreeRam.

Lemma mem_free_body_available (line : string) (st : free_state) (v : Z)
    (u : string) :
  is_available_line line = true → entry_of line = Some (v, u) →
  (value_digits line ≤ int_max_str_digits)%nat →
  mem_free_body line st
  = Ok (Break {| available_value := Some (to_bytes v (py_lower u));
                 free_value := free_value st |}).
Proof.
  intros Hl He Hd.
  destruct (entry_of_split _ _ _ He Hd) as (p0 & p1 & rest & Hs & Hi).
  unfold mem_free_body. unfold is_available_line in Hl. rewrite Hl, Hs, Hi.
  reflexivity.
Qed.

Lemma mem_free_body_free (line : string) (st : free_state) (v : Z)
    (u : string) :
  is_available_line line = false → is_free_line line = true →
  entry_of line = Some (v, u) →
  (value_digits line ≤ int_max_str_digits)%nat →
  mem_free_body line st
  = Ok (Next {| available_value := available_value st;
                free_value := Some (to_bytes v (py_lower u)) |}).
Proof.
  intros Ha Hl He Hd.
  destruct (entry_of_split _ _ _ He Hd) as (p0 & p1 & rest & Hs & Hi).
  unfold mem_free_body. unfold is_available_line in Ha.
  unfold is_free_line in Hl. rewrite Ha, Hl, Hs, Hi. reflexivity.
Qed.

Lemma mem_free_body_other (line : string) (st : free_state) :
  is_available_line line = false → is_free_line line = false →
  mem_free_body line st = Ok (Next st).
Proof.
  intros Ha Hl. unfold mem_free_body. unfold is_available_line in Ha.
  unfold is_free_line in Hl. now rewrite Ha, Hl.
Qed.

Lemma entry_bytes_of (line : string) (v : Z) (u : string) :
  entry_of line = Some (v, u) →
  entry_bytes line = Some (to_bytes v (py_lower u)).
Proof. intros He. unfold entry_bytes. now rewrite He. Qed.

(** The loop of [_get_free_ram_bytes_linux] stops at the first
    [MemAvailable] line, with its value. *)
Lemma mem_free_loop_available (lines : list string) (line : string)
    (st : free_state) :
  entries_have_values lines →
  find is_available_line lines = Some line →
  ∃ st', for_each lines mem_free_body st = Ok (Break st')
         ∧ is_Some (entry_bytes line)
         ∧ available_value st' = entry_bytes line.
Proof.
  intros Hwf. revert st. induction Hwf as [|l lines Hl Hwf IH];
    intros st Hfind; [discriminate |].
  simpl in Hfind. rewrite for_each_cons.
  destruct (is_available_line l) eqn:Ha.
  - injection Hfind as ->.
    destruct Hl as [[[v u] He] Hd]; [now left |].
    rewrite (mem_free_body_available _ st _ _ Ha He Hd). simpl.
    rewrite (entry_bytes_of _ _ _ He). eauto.
  - destruct (is_free_line l) eqn:Hf.
    + destruct Hl as [[[v u] He] Hd]; [now right |].
      rewrite (mem_free_body_free _ st _ _ Ha Hf He Hd). simpl. now apply IH.
    + rewrite (mem_free_body_other _ st Ha Hf). simpl. now apply IH.
Qed.

(** Without a [MemAvailable] line the loop runs to the end, and the last
    [MemFree] line gives [free_value]. *)
Lemma mem_free_loop_free (lines : list string) (st : free_state) :
  entries_have_values lines →
  find is_available_line lines = None →
  for_each lines mem_free_body st
  = Ok (Next {| available_value := available_value st;
                free_value :=
                  match find is_free_line (rev lines) with
                  | Some l => entry_bytes l
                  | None => free_value st
                  end |}).
Proof.
  intros Hwf. revert st. induction Hwf as [|l lines Hl Hwf IH];
    intros st Hfind.
  - simpl. now destruct st.
  - simpl in Hfind. rewrite for_each_cons.
    destruct (is_available_line l) eqn:Ha; [discriminate |].
    simpl rev. rewrite find_snoc.
    destruct (is_free_line l) eqn:Hf.
    + destruct Hl as [[[v u] He] Hd]; [now right |].
      rewrite (mem_free_body_free _ st _ _ Ha Hf He Hd). simpl.
      rewrite (IH _ Hfind). simpl.
      destruct (find is_free_line (rev lines)); [reflexivity |].
      now rewrite (entry_bytes_of _ _ _ He).
    + rewrite (mem_free_body_other _ st Ha Hf). simpl.
      rewrite (IH _ Hfind).
      destruct (find is_free_line (rev lines)); reflexivity.
Qed.

Lemma free_ram_of_table (h : host) (f : text_file) (v : Z) :
  open_file h "/proc/meminfo" = Ok f →
  free_from_table f = Ok (Some v) →
  _get_free_ram_bytes_linux h = Ok v.
Proof.
  intros Hopen Hf. unfold _get_free_ram_bytes_linux.
  rewrite Hopen. simpl. now rewrite Hf.
Qed.

(** C4, as amended.  For every memory-info table whose [MemAvailable]
    and [MemFree] lines all have an integer value of at most 4300
    digits and a unit:
    when a [MemAvailable] line is present, [_get_free_ram_bytes_linux]
    returns the bytes of the first one, whether or not there are
    [MemFree] lines; when only [MemFree] lines are present it returns
    the bytes of the last one.  When the table is absent it returns
    page size times the number of available pages from [os.sysconf]. *)
Theorem free_ram_prefers_available :
  (∀ h lines,
     open_file h "/proc/meminfo"
     = Ok {| file_lines := lines; read_error := None |} →
     entries_have_values lines →
     (∀ line, find is_available_line lines = Some line →
        ∃ v, entry_bytes line = Some v ∧ _get_free_ram_bytes_linux h = Ok v)
     ∧ (find is_available_line lines = None →
        ∀ line, find is_free_line (rev lines) = Some line →
          ∃ v, entry_bytes line = Some v ∧ _get_free_ram_bytes_linux h = Ok v))
  ∧ (∀ h page_size count,
       open_file h "/proc/meminfo" = Raise FileNotFoundError →
       sysconf h "SC_PAGE_SIZE" = Ok page_size →
       sysconf h "SC_AVPHYS_PAGES" = Ok count →
       _get_free_ram_bytes_linux h = Ok (page_size * count)).
Proof.
  split.
  - intros h lines Hopen Hwf. split.
    + intros line Hfind.
      destruct (mem_free_loop_available lines line
                  {| available_value := None; free_value := None |} Hwf Hfind)
        as (st' & Hloop & [v Hv] & Hav).
      exists v. split; [exact Hv |].
      apply (free_ram_of_table h _ v Hopen).
      unfold free_from_table, for_lines. simpl. rewrite Hloop. simpl.
      now rewrite Hav, Hv.
    + intros Hnone line Hfind.
      assert (Hin : is_free_line line = true ∧ In line lines).
      { apply find_some in Hfind. destruct Hfind as [Hin Hp].
        split; [exact Hp | now apply in_rev]. }
      destruct Hin as [Hfree Hin].
      assert (Ha : is_available_line line = false)
        by (now apply (find_none _ _ Hnone)).
      destruct (proj1 (List.Forall_forall _ _) Hwf line Hin)
        as [[[v u] He] _]; [now right |].
      exists (to_bytes v (py_lower u)).
      split; [now apply entry_bytes_of |].
      apply (free_ram_of_table h _ _ Hopen).
      unfold free_from_table, for_lines. simpl.
      rewrite (mem_free_loop_free lines _ Hwf Hnone). simpl.
      now rewrite Hfind, (entry_bytes_of _ _ _ He).
  - intros h ps n Hopen Hps Hn. unfold _get_free_ram_bytes_linux.
    rewrite Hopen. simpl. unfold sysconf_product. now rewrite Hps, Hn.
Qed.

Lemma free_ram_prefers_available_witness :
  (open_file meminfo_host "/proc/meminfo"
   = Ok {| file_lines := meminfo_lines; read_error := None |}
   ∧ entries_have_values meminfo_lines
   ∧ find is_available_line meminfo_lines
     = Some ("MemAvailable:    8000000 kB" +:+ nl)
   ∧ _get_free_ram_bytes_linux meminfo_host = Ok (8000000 * 1024))
  ∧ (open_file old_meminfo_host "/proc/meminfo"
     = Ok {| file_lines := old_meminfo_lines; read_error := None |}
     ∧ entries_have_values old_meminfo_lines
     ∧ find is_available_line old_meminfo_lines = None
     ∧ find is_free_line (rev old_meminfo_lines)
       = Some ("MemFree:         1000000 kB" +:+ nl)
     ∧ _get_free_ram_bytes_linux old_meminfo_host = Ok (1000000 * 1024))
  ∧ (open_file (sysconf_host "Linux") "/proc/meminfo" = Raise FileNotFoundError
     ∧ sysconf (sysconf_host "Linux") "SC_PAGE_SIZE" = Ok 4096
     ∧ sysconf (sysconf_host "Linux") "SC_AVPHYS_PAGES" = Ok 1000
     ∧ _get_free_ram_bytes_linux (sysconf_host "Linux") = Ok (4096 * 1000)).
Proof.
  assert (W1 : entries_have_values meminfo_lines).
  { unfold meminfo_lines.
    repeat (apply List.Forall_cons;
            [intros _; split;
               [vm_compute; eauto | apply Nat.leb_le; vm_compute; reflexivity]
            |]).
    apply List.Forall_nil. }
  assert (W2 : entries_have_values old_meminfo_lines).
  { unfold old_meminfo_lines.
    repeat (apply List.Forall_cons;
            [intros _; split;
               [vm_compute; eauto | apply Nat.leb_le; vm_compute; reflexivity]
            |]).
    apply List.Forall_nil. }
  split; [|split].
  - split; [reflexivity |]. split; [exact W1 |]. split; [reflexivity |].
    destruct (proj1 (proj1 free_ram_prefers_available meminfo_host
                       meminfo_lines eq_refl W1)
                _ eq_refl) as (v & Hv & Hr).
    vm_compute in Hv. injection Hv as <-. exact Hr.
  - split; [reflexivity |]. split; [exact W2 |]. split; [reflexivity |].
    split; [reflexivity |].
    destruct (proj2 (proj1 free_ram_prefers_available old_meminfo_host
                       old_meminfo_lines eq_refl W2)
                eq_refl _ eq_refl) as (v & Hv & Hr).
    vm_compute in Hv. injection Hv as <-. exact Hr.
  - split; [reflexivity |]. split; [reflexivity |]. split; [reflexivity |].
    exact (proj2 free_ram_prefers_available (sysconf_host "Linux") 4096 1000
             eq_refl eq_refl eq_refl).
Defined.

(** C4 as stated fails: a [MemAvailable] line is present, but it has no
    unit, no value is derived from it, and the function returns the
    value of the [MemFree] line. *)
Lemma free_ram_unitless_available :
  open_file unitless_host "/proc/meminfo"
  = Ok {| file_lines := unitless_lines; read_error := None |}
  ∧ (∃ line, line ∈ unitless_lines ∧ is_available_line line = true)
  ∧ (∀ line, line ∈ unitless_lines → is_available_line line = true →
       entry_bytes line = None)
  ∧ entry_bytes ("MemFree: 5 kB" +:+ nl) = Some 5120
  ∧ _get_free_ram_bytes_linux unitless_host = Ok 5120.
Proof.
  split; [reflexivity |]. split.
  { exists ("MemAvailable: 100" +:+ nl). split; [constructor | reflexivity]. }
  split; [|split; reflexivity].
  intros line Hin Ha. unfold unitless_lines in Hin.
  apply elem_of_cons in Hin. destruct Hin as [-> | Hin]; [reflexivity |].
  apply list_elem_of_singleton in Hin. subst line. discriminate Ha.
Qed.
End FreeRam.

(** ** The CPU-info table *)

Section CpuInfo.

Lemma physical_not_core (line : string) :
  startswith line "physical id" = true → startswith line "core id" = false.
Proof.
  unfold startswith. intros H.
  destruct line as [|a line]; [reflexivity |].
  unfold String.prefix in *. fold String.prefix in *.
  destruct (ascii_dec "p" a) as [<- | Hn]; [reflexivity | discriminate H].
Qed.

Lemma block_field_snoc (key : string) (cur : list string) (line : string) :
  block_field key (cur ++ [line])
  = if startswith line key then field_value line else block_field key cur.
Proof.
  unfold block_field. rewrite filter_app, filter_cons, filter_nil.
  destruct (decide (startswith line key = true)) as [E|E].
  - rewrite E, last_snoc. reflexivity.
  - apply not_true_is_false in E. rewrite E, app_nil_r. reflexivity.
Qed.

Lemma add_pair_spec (st : cpuinfo_state) :
  add_pair st
  = pairs st ∪ list_to_set (option_list (p ← physical_id st;
                                          c ← core_id st;
                                          Some (p, c))).
Proof.
  unfold add_pair.
  destruct (physical_id st) as [p|], (core_id st) as [c|]; simpl;
    rewrite ?union_empty_r_L; [apply union_comm_L | reflexivity ..].
Qed.

Lemma field_value_index1 (line v : string) :
  field_value line = Some v →
  ∃ raw, index1 (split1 ":" line) = Ok raw ∧ strip raw = v.
Proof.
  unfold field_value, index1.
  destruct (split1 ":" line) as [|a [|b rest]]; try discriminate.
  intros [= <-]. eauto.
Qed.

(** The loop over the lines of the table: the pairs it has added at the
    end are those of the blocks. *)
Lemma cpuinfo_loop (lines cur : list string) (st : cpuinfo_state) :
  id_lines_are_fields lines →
  physical_id st = block_field "physical id" cur →
  core_id st = block_field "core id" cur →
  ∃ st', for_each lines cpuinfo_body st = Ok (Next st')
         ∧ add_pair st'
           = pairs st ∪ list_to_set (omap block_pair (blocks_from lines cur)).
Proof.
  intros Hwf. revert cur st.
  induction Hwf as [|raw lines Hraw Hwf IH]; intros cur st Hp Hc.
  - exists st. split; [reflexivity |].
    rewrite add_pair_spec, Hp, Hc. simpl. unfold block_pair.
    destruct (block_field "physical id" cur) as [p|]; simpl;
      [|now rewrite !union_empty_r_L].
    destruct (block_field "core id" cur) as [c|]; reflexivity.
  - rewrite for_each_cons. simpl blocks_from. unfold cpuinfo_body.
    destruct (nonempty (strip raw)) eqn:Hne; simpl negb; cbv iota.
    + destruct (startswith (strip raw) "physical id") eqn:Hpid.
      * destruct Hraw as [v Hv]; [now left |].
        destruct (field_value_index1 _ _ Hv) as (r & -> & <-). simpl.
        apply (IH (cur ++ [strip raw])
                 {| pairs := pairs st; physical_id := Some (strip r);
                    core_id := core_id st |});
          simpl; rewrite block_field_snoc.
        -- now rewrite Hpid.
        -- now rewrite (physical_not_core _ Hpid).
      * destruct (startswith (strip raw) "core id") eqn:Hcid.
        -- destruct Hraw as [v Hv]; [now right |].
           destruct (field_value_index1 _ _ Hv) as (r & -> & <-). simpl.
           apply (IH (cur ++ [strip raw])
                    {| pairs := pairs st; physical_id := physical_id st;
                       core_id := Some (strip r) |});
             simpl; rewrite block_field_snoc.
           ++ now rewrite Hpid.
           ++ now rewrite Hcid.
        -- simpl. apply (IH (cur ++ [strip raw]) st);
             rewrite block_field_snoc.
           ++ now rewrite Hpid.
           ++ now rewrite Hcid.
    + simpl.
      destruct (IH [] {| pairs := add_pair st; physical_id := None;
                         core_id := None |} eq_refl eq_refl)
        as (st' & Hloop & Hadd).
      exists st'. split; [exact Hloop |].
      rewrite Hadd. simpl pairs. rewrite add_pair_spec, Hp, Hc.
      unfold block_pair at 2.
      destruct (block_field "physical id" cur) as [p|]; simpl;
        [|now rewrite union_empty_r_L].
      destruct (block_field "core id" cur) as [c|]; simpl;
        [|now rewrite union_empty_r_L].
      now rewrite union_empty_r_L, <- union_assoc_L.
Qed.

Lemma omap_block_pair_blocks (bs : list (list string)) :
  omap block_pair (filter (fun b => b ≠ []) bs) = omap block_pair bs.
Proof.
  induction bs as [|b bs IH]; [reflexivity |].
  rewrite filter_cons. destruct (decide (b ≠ [])) as [Hb|Hb].
  - simpl. destruct (block_pair b); [f_equal |]; exact IH.
  - assert (b = []) as -> by (destruct b; [reflexivity | exfalso; apply Hb; discriminate]).
    simpl. exact IH.
Qed.

Lemma cpuinfo_pairs_spec (lines : list string) :
  id_lines_are_fields lines →
  cpuinfo_pairs {| file_lines := lines; read_error := None |}
  = Ok (list_to_set (omap block_pair (processor_blocks lines))).
Proof.
  intros Hwf.
  destruct (cpuinfo_loop lines []
              {| pairs := ∅; physical_id := None; core_id := None |}
              Hwf eq_refl eq_refl) as (st' & Hloop & Hadd).
  unfold cpuinfo_pairs, for_lines. simpl. rewrite Hloop. simpl.
  rewrite Hadd. simpl. unfold processor_blocks.
  rewrite omap_block_pair_blocks. f_equal. apply union_empty_l_L.
Qed.

Lemma size_list_to_set_distinct (l : list (string * string)) :
  size (list_to_set l : gset (string * string)) = length (remove_dups l).
Proof.
  rewrite <- (size_list_to_set (C := gset (string * string)) (remove_dups l))
    by apply NoDup_remove_dups.
  f_equal. apply set_eq. intros x.
  rewrite !elem_of_list_to_set. symmetry. apply elem_of_remove_dups.
Qed.

(** The first block of [_get_physical_cpu_count_linux] on a table that
    can be read: the number of distinct pairs, unless there is none. *)
Lemma linux_cpuinfo_step_spec (h : host) (lines : list string) :
  open_file h "/proc/cpuinfo"
  = Ok {| file_lines := lines; read_error := None |} →
  id_lines_are_fields lines →
  linux_cpuinfo_step h
  = Ok (match length (remove_dups (omap block_pair (processor_blocks lines))) with
        | O => None
        | S n => Some (Z.of_nat (S n))
        end).
Proof.
  intros Hopen Hwf. unfold linux_cpuinfo_step.
  rewrite Hopen. simpl. rewrite (cpuinfo_pairs_spec lines Hwf). simpl.
  rewrite <- size_list_to_set_distinct.
  set (ps := list_to_set _ : gset (string * string)).
  destruct (decide (ps = ∅)) as [E|E].
  - rewrite bool_decide_eq_true_2 by exact E. rewrite E, size_empty.
    reflexivity.
  - rewrite bool_decide_eq_false_2 by exact E.
    destruct (size ps) eqn:Hs; [|reflexivity].
    apply size_empty_iff in Hs. now apply leibniz_equiv in Hs.
Qed.

(** C2, as amended.  For every CPU-info table whose [physical id] and
    [core id] lines are [key : value] fields, in which each processor
    block has both fields, and whose blocks yield [n] distinct
    [(physical id, core id)] pairs with [n] at least 1,
    [_get_physical_cpu_count_linux] returns exactly [n]. *)
Theorem linux_physical_cores_distinct_pairs (h : host) (lines : list string)
    (n : nat) :
  open_file h "/proc/cpuinfo"
  = Ok {| file_lines := lines; read_error := None |} →
  id_lines_are_fields lines →
  Forall (fun b => is_Some (block_pair b)) (processor_blocks lines) →
  length (remove_dups (omap block_pair (processor_blocks lines))) = n →
  (1 ≤ n)%nat →
  _get_physical_cpu_count_linux h = Ok (Some (Z.of_nat n)).
Proof.
  intros Hopen Hwf _ Hn Hpos. unfold _get_physical_cpu_count_linux.
  rewrite (linux_cpuinfo_step_spec h lines Hopen Hwf), Hn.
  destruct n as [|n]; [lia | reflexivity].
Qed.

Lemma linux_physical_cores_distinct_pairs_witness :
  open_file cpuinfo_host "/proc/cpuinfo"
  = Ok {| file_lines := cpuinfo_lines; read_error := None |}
  ∧ id_lines_are_fields cpuinfo_lines
  ∧ Forall (fun b => is_Some (block_pair b)) (processor_blocks cpuinfo_lines)
  ∧ omap block_pair (processor_blocks cpuinfo_lines)
    = [("0", "0"); ("0", "1"); ("0", "0"); ("0", "1")]
  ∧ length (remove_dups (omap block_pair (processor_blocks cpuinfo_lines)))
    = 2%nat
  ∧ (1 ≤ 2)%nat
  ∧ _get_physical_cpu_count_linux cpuinfo_host = Ok (Some 2).
Proof.
  assert (W1 : id_lines_are_fields cpuinfo_lines).
  { repeat constructor; intros H;
      first [ vm_compute; eauto; fail
            | destruct H as [H|H]; vm_compute in H; discriminate H ]. }
  assert (W2 : Forall (fun b => is_Some (block_pair b))
                 (processor_blocks cpuinfo_lines)).
  { vm_compute processor_blocks. repeat constructor; vm_compute; eauto. }
  assert (W3 : length (remove_dups
                 (omap block_pair (processor_blocks cpuinfo_lines))) = 2%nat)
    by (vm_compute; reflexivity).
  assert (W4 : (1 ≤ 2)%nat) by lia.
  split; [reflexivity |]. split; [exact W1 |]. split; [exact W2 |].
  split; [vm_compute; reflexivity |]. split; [exact W3 |].
  split; [exact W4 |].
  exact (linux_physical_cores_distinct_pairs cpuinfo_host cpuinfo_lines 2
           eq_refl W1 W2 W3 W4).
Defined.

(** C2 as stated fails for a table without processor blocks: every
    block (there is none) has both fields, the blocks yield 0 distinct
    pairs, and the function does not return 0: the first step gives no
    result, and so do the two steps after it on this host. *)
Lemma linux_physical_cores_empty_table :
  open_file empty_cpuinfo_host "/proc/cpuinfo"
  = Ok {| file_lines := []; read_error := None |}
  ∧ id_lines_are_fields []
  ∧ Forall (fun b => is_Some (block_pair b)) (processor_blocks [])
  ∧ length (remove_dups (omap block_pair (processor_blocks []))) = 0%nat
  ∧ _get_physical_cpu_count_linux empty_cpuinfo_host = Ok None
  ∧ _get_physical_cpu_count_linux empty_cpuinfo_host ≠ Ok (Some 0).
Proof.
  split; [reflexivity |]. split; [constructor |].
  split; [vm_compute; constructor |]. split; [reflexivity |].
  split; [vm_compute; reflexivity | vm_compute; discriminate].
Qed.
End CpuInfo.

(** ** The functions at work *)

Section Examples.

Example physical_cores_from_cpuinfo :
  get_physical_cpu_count cpuinfo_host = Ok 2.
Proof. vm_compute. reflexivity. Qed.

Example physical_cores_from_sysfs :
  linux_cpuinfo_step sysfs_host = Ok None
  ∧ linux_sysfs_step sysfs_host = Ok (Some 2)
  ∧ get_physical_cpu_count sysfs_host = Ok 2.
Proof. repeat split; vm_compute; reflexivity. Qed.

Example physical_cores_from_cpu_cores :
  linux_cpuinfo_step cpu_cores_host = Ok None
  ∧ linux_sysfs_step cpu_cores_host = Ok None
  ∧ get_physical_cpu_count cpu_cores_host = Ok 4.
Proof. repeat split; vm_compute; reflexivity. Qed.

(** A line that starts with [core id] and has no colon makes
    [parts[1]] raise; the first step is abandoned as a whole. *)
Example physical_cores_stray_line :
  linux_cpuinfo_step stray_line_host = Ok None
  ∧ get_physical_cpu_count stray_line_host = Ok 1.
Proof. split; vm_compute; reflexivity. Qed.

Example physical_cores_last_resort :
  get_physical_cpu_count (with_cpu_count (bare_host "Linux") (Some 8)) = Ok 8.
Proof. vm_compute. reflexivity. Qed.

Example quoted_fields_of_lspci_line :
  quoted_fields ("00:02.0 " +:+ quoted "VGA" +:+ " " +:+ quoted "Intel"
                 +:+ " " +:+ quoted "" +:+ quoted "UHD" +:+ " -r07")
  = ["VGA"; "Intel"; "UHD"].
Proof. reflexivity. Qed.

Example gpu_names_from_lspci :
  get_gpu_names lspci_host = Ok ["Intel Corporation UHD Graphics 620"].
Proof. vm_compute. reflexivity. Qed.

(** The class test looks for the class name followed at once by the
    closing quote; a line that carries the numeric class inside the
    quotes does not pass it. *)
Example gpu_names_from_numeric_lspci :
  get_gpu_names lspci_numeric_host = Ok [].
Proof. vm_compute. reflexivity. Qed.

Example gpu_names_from_drm :
  get_gpu_names drm_host = Ok ["Intel (i915)"].
Proof. vm_compute. reflexivity. Qed.

Example gpu_names_windows_deduplicated :
  get_gpu_names windows_gpu_host
  = Ok ["NVIDIA GeForce RTX 3060"; "Intel(R) UHD Graphics"].
Proof. vm_compute. reflexivity. Qed.

Example unique_ordered_example :
  _unique_ordered [" a "; "b"; "a"; ""; "  "; "c "; "b"] = ["a"; "b"; "c"].
Proof. vm_compute. reflexivity. Qed.

Example total_ram_units :
  to_bytes 2 (py_lower "kB") = 2048
  ∧ to_bytes 2 (py_lower "MB") = 2097152
  ∧ to_bytes 2 (py_lower "GB") = 2147483648
  ∧ to_bytes 2 (py_lower "TB") = 2048.
Proof. repeat split; reflexivity. Qed.

Example free_ram_examples :
  _get_free_ram_bytes_linux meminfo_host = Ok 8192000000
  ∧ _get_free_ram_bytes_linux old_meminfo_host = Ok 1024000000
  ∧ _get_free_ram_bytes_linux (sysconf_host "Linux") = Ok 4096000
  ∧ _get_free_ram_bytes_linux (bare_host "Linux") = Raise RuntimeError.
Proof. repeat split; vm_compute; reflexivity. Qed.

(** [int] raises [ValueError] on a value that is not an integer, and
    [except FileNotFoundError] lets it pass. *)
Example free_ram_bad_value :
  _get_free_ram_bytes_linux bad_value_host = Raise ValueError.
Proof. vm_compute. reflexivity. Qed.

Example table_without_rows_and_header :
  table_lines [] None = ["+--+--+"; "+--+--+"]
  ∧ table_lines [] default_header
    = ["+----------+-------+"; "| Property | Value |";
       "+-========-+-=====-+"; "+----------+-------+"].
Proof. split; reflexivity. Qed.

Example py_int_examples :
  py_int " 42 " = Ok 42 ∧ py_int "-1_000" = Ok (-1000)
  ∧ py_int "+007" = Ok 7 ∧ py_int "" = Raise ValueError
  ∧ py_int "1__0" = Raise ValueError ∧ py_int "12kB" = Raise ValueError.
Proof. repeat split; reflexivity. Qed.

Example splitlines_example :
  splitlines ("a" +:+ nl +:+ nl +:+ "b" +:+ nl) = ["a"; ""; "b"].
Proof. reflexivity. Qed.

Example dirname_example :
  dirname (core_id_path "cpu0") = "/sys/devices/system/cpu/cpu0/topology"
  ∧ path_join (dirname (core_id_path "cpu0")) "physical_package_id"
    = package_id_path "cpu0".
Proof. split; reflexivity. Qed.
End Examples.

(** * Further properties *)

(** ** Loops *)

Section Loops.
Context {B S R : Type}.

(** A loop whose body neither breaks nor returns raises as soon as one
    element raises whatever the state is. *)
Lemma for_each_raises (body : B → S → result (flow S R)) (xs : list B) :
  (∀ x s, match body x s with
          | Ok (Next _) | Raise _ => True
          | _ => False
          end) →
  Exists (fun x => ∀ s, raises (body x s)) xs →
  ∀ s, raises (for_each xs body s).
Proof.
  intros Hbody Hex. induction Hex as [x xs Hx | x xs Hex IH]; intros s.
  - rewrite for_each_cons. specialize (Hx s).
    destruct (body x s) as [out|e]; [contradiction | exact I].
  - rewrite for_each_cons. specialize (Hbody x s).
    destruct (body x s) as [[s'|s'|r]|e]; simpl; try contradiction;
      [apply IH | exact I].
Qed.

(** A loop whose body only steps is a fold. *)
Lemma for_each_steps (body : B → S → result (flow S R)) (step : S → B → S)
    (xs : list B) (s : S) :
  (∀ x s, body x s = Ok (Next (step s x))) →
  for_each xs body s = Ok (Next (fold_left step xs s)).
Proof.
  intros Hbody. revert s. induction xs as [|x xs IH]; intros s;
    [reflexivity |].
  rewrite for_each_cons, Hbody. simpl. apply IH.
Qed.
End Loops.

Lemma raises_try_any {A : Type} (c : result A) (d : A) :
  raises c → try_except c [AnyException] (fun _ => Ok d) = Ok d.
Proof. destruct c; simpl; [contradiction | reflexivity]. Qed.

Lemma raises_bind {A B : Type} (c : result A) (k : A → result B) :
  raises c → raises (c ≫= k).
Proof. destruct c; simpl; [contradiction | trivial]. Qed.

(** ** CPU inspector: the three Linux steps *)

Section CpuSteps.

Lemma distinct_none (l : list (string * string)) :
  length (remove_dups l) = 0%nat ↔ l = [].
Proof.
  split; [|now intros ->].
  intros Hl. apply length_zero_iff_nil in Hl.
  destruct l as [|x l]; [reflexivity |].
  assert (Hx : x ∈ remove_dups (x :: l))
    by (apply elem_of_remove_dups; constructor).
  rewrite Hl in Hx. inversion Hx.
Qed.

Lemma omap_all_none {A B : Type} (f : A → option B) (l : list A) :
  Forall (fun x => f x = None) l → omap f l = [].
Proof.
  induction 1 as [|x l Hx Hl IH]; [reflexivity |].
  simpl. rewrite Hx. exact IH.
Qed.

(** X1.  On a readable CPU-info table whose id lines are fields, the
    first step counts the distinct pairs of the blocks that have both
    ids; blocks that lack an id count for nothing, and the step gives no
    result exactly when no block has both ids. *)
Theorem cpuinfo_step_counts_complete_blocks (h : host) (lines : list string) :
  open_file h "/proc/cpuinfo"
  = Ok {| file_lines := lines; read_error := None |} →
  id_lines_are_fields lines →
  linux_cpuinfo_step h
  = Ok (match length (remove_dups
                        (omap block_pair (processor_blocks lines))) with
        | O => None
        | S k => Some (Z.of_nat (S k))
        end)
  ∧ (linux_cpuinfo_step h = Ok None
     ↔ Forall (fun b => block_pair b = None) (processor_blocks lines)).
Proof.
  intros Hopen Hwf. rewrite (linux_cpuinfo_step_spec h lines Hopen Hwf).
  split; [reflexivity |].
  destruct (length _) as [|k] eqn:Hlen.
  - split; [intros _ | reflexivity].
    apply distinct_none in Hlen.
    induction (processor_blocks lines) as [|b bs IH]; [constructor |].
    simpl in Hlen. destruct (block_pair b) eqn:Hb; [discriminate |].
    constructor; [exact Hb | now apply IH].
  - split; [discriminate |].
    intros Hall. exfalso.
    rewrite (omap_all_none _ _ Hall) in Hlen. discriminate.
Qed.

Lemma cpuinfo_step_counts_complete_blocks_witness :
  (open_file sysfs_host "/proc/cpuinfo"
   = Ok {| file_lines := arm_cpuinfo_lines; read_error := None |}
   ∧ id_lines_are_fields arm_cpuinfo_lines
   ∧ Forall (fun b => block_pair b = None) (processor_blocks arm_cpuinfo_lines)
   ∧ linux_cpuinfo_step sysfs_host = Ok None)
  ∧ (open_file cpuinfo_host "/proc/cpuinfo"
     = Ok {| file_lines := cpuinfo_lines; read_error := None |}
     ∧ id_lines_are_fields cpuinfo_lines
     ∧ omap block_pair (processor_blocks cpuinfo_lines)
       = [("0", "0"); ("0", "1"); ("0", "0"); ("0", "1")]
     ∧ linux_cpuinfo_step cpuinfo_host = Ok (Some 2)).
Proof.
  assert (W1 : id_lines_are_fields arm_cpuinfo_lines).
  { repeat constructor; intros H;
      first [ vm_compute; eauto; fail
            | destruct H as [H|H]; vm_compute in H; discriminate H ]. }
  assert (W2 : id_lines_are_fields cpuinfo_lines).
  { repeat constructor; intros H;
      first [ vm_compute; eauto; fail
            | destruct H as [H|H]; vm_compute in H; discriminate H ]. }
  assert (W3 : Forall (fun b => block_pair b = None)
                 (processor_blocks arm_cpuinfo_lines)).
  { vm_compute processor_blocks. repeat constructor. }
  split.
  - split; [reflexivity |]. split; [exact W1 |]. split; [exact W3 |].
    exact (proj2 (proj2 (cpuinfo_step_counts_complete_blocks sysfs_host
                           arm_cpuinfo_lines eq_refl W1)) W3).
  - split; [reflexivity |]. split; [exact W2 |].
    split; [vm_compute; reflexivity |].
    rewrite (proj1 (cpuinfo_step_counts_complete_blocks cpuinfo_host
                      cpuinfo_lines eq_refl W2)).
    vm_compute. reflexivity.
Defined.

Lemma cpuinfo_body_steps (raw : string) (st : cpuinfo_state) :
  match cpuinfo_body raw st with
  | Ok (Next _) | Raise _ => True
  | _ => False
  end.
Proof.
  unfold cpuinfo_body.
  destruct (nonempty (strip raw)); simpl; [|exact I].
  destruct (startswith (strip raw) "physical id");
    [destruct (index1 _); exact I |].
  destruct (startswith (strip raw) "core id");
    [destruct (index1 _); exact I | exact I].
Qed.

Lemma field_value_none_index1 (line : string) :
  field_value line = None → index1 (split1 ":" line) = Raise IndexError.
Proof.
  unfold field_value, index1.
  destruct (split1 ":" line) as [|a [|b rest]]; [reflexivity .. | discriminate].
Qed.

Lemma startswith_nonempty (line key : string) :
  key ≠ EmptyString → startswith line key = true → nonempty line = true.
Proof.
  unfold startswith. destruct line; [|reflexivity].
  destruct key; [congruence | discriminate].
Qed.

Lemma stray_line_raises (raw : string) (st : cpuinfo_state) :
  stray_id_line raw → raises (cpuinfo_body raw st).
Proof.
  intros [Hkey Hnone]. unfold cpuinfo_body.
  assert (Hne : nonempty (strip raw) = true).
  { destruct Hkey as [H|H];
      eapply startswith_nonempty; try exact H; discriminate. }
  rewrite Hne. simpl.
  rewrite (field_value_none_index1 _ Hnone).
  destruct (startswith (strip raw) "physical id") eqn:Hp; [exact I |].
  destruct Hkey as [H|H]; [congruence |].
  rewrite H. exact I.
Qed.

(** X2.  One line that starts with [physical id] or [core id] and has
    no colon, anywhere in the table, makes the first step give no
    result, whatever pairs the other lines hold. *)
Theorem cpuinfo_step_abandoned_by_stray_line (h : host) (f : text_file) :
  open_file h "/proc/cpuinfo" = Ok f →
  Exists stray_id_line (file_lines f) →
  linux_cpuinfo_step h = Ok None.
Proof.
  intros Hopen Hex. unfold linux_cpuinfo_step. rewrite Hopen.
  apply raises_try_any. simpl.
  apply raises_bind. unfold cpuinfo_pairs. apply raises_bind.
  unfold for_lines. apply raises_bind.
  apply for_each_raises; [intros x s; apply cpuinfo_body_steps |].
  eapply Exists_impl; [exact Hex |].
  intros raw Hraw s. now apply stray_line_raises.
Qed.

Lemma cpuinfo_step_abandoned_by_stray_line_witness :
  open_file stray_line_host "/proc/cpuinfo"
  = Ok {| file_lines := ["physical id" +:+ tab +:+ ": 0" +:+ nl;
                         "core id" +:+ tab +:+ tab +:+ ": 0" +:+ nl;
                         "core id" +:+ nl; nl];
          read_error := None |}
  ∧ stray_id_line ("core id" +:+ nl)
  ∧ linux_cpuinfo_step stray_line_host = Ok None.
Proof.
  assert (W : stray_id_line ("core id" +:+ nl))
    by (split; [right |]; reflexivity).
  split; [reflexivity |]. split; [exact W |].
  apply (cpuinfo_step_abandoned_by_stray_line stray_line_host _ eq_refl).
  do 2 apply Exists_cons_tl. apply Exists_cons_hd. exact W.
Defined.
End CpuSteps.

Section SysfsStep.

Lemma sysfs_body_spec (h : host) (core_path : string)
    (pairs_sys : gset (string * string)) :
  sysfs_body h core_path pairs_sys
  = (pr ← topology_pair h core_path; Ok (Next ({[ pr ]} ∪ pairs_sys))).
Proof.
  unfold sysfs_body, topology_pair, read_value.
  destruct (open_file h core_path) as [f|e]; simpl; [|reflexivity].
  destruct (read_all f) as [text|e]; simpl; [|reflexivity].
  destruct (path_exists h _); simpl; [|reflexivity].
  destruct (open_file h _) as [g|e]; simpl; [|reflexivity].
  destruct (read_all g) as [text'|e]; reflexivity.
Qed.

Lemma sysfs_loop (h : host) (paths : list string)
    (prs : list (string * string)) (s : gset (string * string)) :
  Forall2 (fun path pr => topology_pair h path = Ok pr) paths prs →
  for_each paths (sysfs_body h) s = Ok (Next (list_to_set prs ∪ s)).
Proof.
  intros Hall. revert s.
  induction Hall as [|path pr paths prs Hpr Hall IH]; intros s.
  - simpl. now rewrite union_empty_l_L.
  - rewrite for_each_cons, sysfs_body_spec, Hpr. simpl. rewrite IH.
    do 2 f_equal. rewrite union_assoc_L.
    now rewrite (union_comm_L (list_to_set prs) {[ pr ]}).
Qed.

(** X3.  When every processor directory the pattern matches can be
    read, the second step is the number of distinct (package, core)
    pairs, a directory without package file counting as package
    ["0"]; with no directory at all it gives no result. *)
Theorem sysfs_step_counts_pairs (h : host) (paths : list string)
    (prs : list (string * string)) :
  glob h "/sys/devices/system/cpu/cpu[0-9]*/topology/core_id" = Ok paths →
  Forall2 (fun path pr => topology_pair h path = Ok pr) paths prs →
  linux_sysfs_step h
  = Ok (match length (remove_dups prs) with
        | O => None
        | S k => Some (Z.of_nat (S k))
        end).
Proof.
  intros Hglob Hall. unfold linux_sysfs_step. rewrite Hglob. simpl.
  rewrite (sysfs_loop h paths prs ∅ Hall). simpl.
  rewrite union_empty_r_L, <- size_list_to_set_distinct.
  set (ps := list_to_set prs : gset (string * string)).
  destruct (decide (ps = ∅)) as [E|E].
  - rewrite bool_decide_eq_true_2 by exact E. now rewrite E, size_empty.
  - rewrite bool_decide_eq_false_2 by exact E.
    destruct (size ps) eqn:Hs; [|reflexivity].
    apply size_empty_iff in Hs. now apply leibniz_equiv in Hs.
Qed.

Lemma sysfs_step_counts_pairs_witness :
  glob sysfs_host "/sys/devices/system/cpu/cpu[0-9]*/topology/core_id"
  = Ok [core_id_path "cpu0"; core_id_path "cpu1"; core_id_path "cpu2";
        core_id_path "cpu3"]
  ∧ Forall2 (fun path pr => topology_pair sysfs_host path = Ok pr)
      [core_id_path "cpu0"; core_id_path "cpu1"; core_id_path "cpu2";
       core_id_path "cpu3"]
      [("0", "0"); ("0", "0"); ("0", "1"); ("0", "1")]
  ∧ linux_sysfs_step sysfs_host = Ok (Some 2).
Proof.
  assert (W : Forall2 (fun path pr => topology_pair sysfs_host path = Ok pr)
      [core_id_path "cpu0"; core_id_path "cpu1"; core_id_path "cpu2";
       core_id_path "cpu3"]
      [("0", "0"); ("0", "0"); ("0", "1"); ("0", "1")])
    by (repeat constructor; vm_compute; reflexivity).
  split; [reflexivity |]. split; [exact W |].
  exact (sysfs_step_counts_pairs sysfs_host _ _ eq_refl W).
Defined.

(** X4.  One processor directory whose file cannot be read makes the
    second step give no result, whatever the other directories hold:
    the pairs read before are not counted. *)
Theorem sysfs_step_abandoned_by_unreadable_file (h : host)
    (paths : list string) :
  glob h "/sys/devices/system/cpu/cpu[0-9]*/topology/core_id" = Ok paths →
  Exists (fun path => raises (topology_pair h path)) paths →
  linux_sysfs_step h = Ok None.
Proof.
  intros Hglob Hex. unfold linux_sysfs_step. rewrite Hglob.
  apply raises_try_any. simpl. apply raises_bind.
  apply for_each_raises.
  - intros x s. rewrite sysfs_body_spec.
    destruct (topology_pair h x); exact I.
  - eapply Exists_impl; [exact Hex |].
    intros path Hpath s. rewrite sysfs_body_spec. now apply raises_bind.
Qed.

Lemma sysfs_step_abandoned_by_unreadable_file_witness :
  glob broken_sysfs_host "/sys/devices/system/cpu/cpu[0-9]*/topology/core_id"
  = Ok [core_id_path "cpu0"; core_id_path "cpu1"]
  ∧ topology_pair broken_sysfs_host (core_id_path "cpu0") = Ok ("0", "0")
  ∧ raises (topology_pair broken_sysfs_host (core_id_path "cpu1"))
  ∧ linux_sysfs_step broken_sysfs_host = Ok None.
Proof.
  assert (W : raises (topology_pair broken_sysfs_host (core_id_path "cpu1")))
    by (vm_compute; exact I).
  split; [reflexivity |]. split; [vm_compute; reflexivity |].
  split; [exact W |].
  apply (sysfs_step_abandoned_by_unreadable_file broken_sysfs_host _ eq_refl).
  apply Exists_cons_tl, Exists_cons_hd. exact W.
Defined.
End SysfsStep.

Section CpuCoresStep.

Lemma cpu_cores_body_other (raw : string) :
  is_cpu_cores_line raw = false → cpu_cores_body raw tt = Ok (Next tt).
Proof.
  intros Hl. unfold cpu_cores_body. unfold is_cpu_cores_line in Hl.
  now rewrite Hl.
Qed.

(** At a [cpu cores] line the loop ends: it returns the value, or it
    breaks, or [int] raises. *)
Lemma cpu_cores_body_line (raw : string) :
  is_cpu_cores_line raw = true →
  match cpu_cores_value raw with
  | Some n => cpu_cores_body raw tt = Ok (Return n)
  | None => cpu_cores_body raw tt = Ok (Break tt)
            ∨ raises (cpu_cores_body raw tt)
  end.
Proof.
  intros Hl. unfold cpu_cores_body, cpu_cores_value, field_value.
  unfold is_cpu_cores_line in Hl. rewrite Hl. unfold split1.
  destruct (cut ":" (strip raw)) as [[a b]|]; simpl; [|now left].
  unfold py_int.
  destruct (digit_count (strip b) <=? int_max_str_digits)%nat; simpl;
    [|now right].
  destruct (int_literal (strip b)) as [n|]; simpl; [|now right].
  destruct (0 <? n); [reflexivity | now left].
Qed.

Lemma cpu_cores_loop (lines : list string) :
  match find is_cpu_cores_line lines ≫= cpu_cores_value with
  | Some n => for_each lines cpu_cores_body tt = Ok (Return n)
  | None => for_each lines cpu_cores_body tt = Ok (Break tt)
            ∨ for_each lines cpu_cores_body tt = Ok (Next tt)
            ∨ raises (for_each lines cpu_cores_body tt)
  end.
Proof.
  induction lines as [|raw lines IH]; simpl find; [simpl; tauto |].
  rewrite for_each_cons.
  destruct (is_cpu_cores_line raw) eqn:Hl.
  - pose proof (cpu_cores_body_line raw Hl) as Hb. simpl.
    destruct (cpu_cores_value raw) as [n|].
    + now rewrite Hb.
    + destruct Hb as [-> | Hb]; [now left |].
      right. right. now apply raises_bind.
  - rewrite (cpu_cores_body_other raw Hl). simpl. exact IH.
Qed.

(** X5.  On a CPU-info table that opens, the third step is decided by
    the first line that starts with [cpu cores] (in any letter case):
    it gives the integer after the colon when that is positive and has
    at most 4300 digits, and nothing otherwise; later [cpu cores] lines
    are never read. *)
Theorem cpu_cores_step_first_line_decides (h : host) (f : text_file) :
  open_file h "/proc/cpuinfo" = Ok f →
  linux_cpu_cores_step h
  = Ok (find is_cpu_cores_line (file_lines f) ≫= cpu_cores_value).
Proof.
  intros Hopen. unfold linux_cpu_cores_step. rewrite Hopen. simpl.
  unfold for_lines. pose proof (cpu_cores_loop (file_lines f)) as Hloop.
  destruct (find is_cpu_cores_line (file_lines f) ≫= cpu_cores_value)
    as [n|].
  - now rewrite Hloop.
  - destruct Hloop as [-> | [-> | Hr]]; simpl.
    + reflexivity.
    + destruct (read_error f); reflexivity.
    + destruct (for_each _ _ _); [contradiction | reflexivity].
Qed.

Lemma cpu_cores_step_first_line_decides_witness :
  (open_file zero_cores_host "/proc/cpuinfo"
   = Ok {| file_lines := zero_cores_lines; read_error := None |}
   ∧ find is_cpu_cores_line zero_cores_lines
     = Some ("cpu cores" +:+ tab +:+ ": 0" +:+ nl)
   ∧ linux_cpu_cores_step zero_cores_host = Ok None)
  ∧ linux_cpu_cores_step cpu_cores_host = Ok (Some 4)
  ∧ linux_cpu_cores_step huge_cores_host = Ok None.
Proof.
  split; [|split].
  - split; [reflexivity |]. split; [reflexivity |].
    exact (cpu_cores_step_first_line_decides zero_cores_host _ eq_refl).
  - exact (cpu_cores_step_first_line_decides cpu_cores_host _ eq_refl).
  - rewrite (cpu_cores_step_first_line_decides huge_cores_host _ eq_refl).
    vm_compute. reflexivity.
Defined.
End CpuCoresStep.

(** ** More on strings *)

Section MoreStrings.
Local Open Scope nat_scope.

Lemma prefix_app (p r : string) : String.prefix p (p +:+ r) = true.
Proof.
  induction p as [|c p IH]; [now destruct r |].
  rewrite string_app_cons. simpl.
  destruct (ascii_dec c c); [exact IH | congruence].
Qed.

Lemma prefix_split (p s : string) :
  String.prefix p s = true → ∃ r, s = p +:+ r.
Proof.
  revert s. induction p as [|c p IH]; intros s Hp; [now exists s |].
  destruct s as [|d s]; [discriminate |]. simpl in Hp.
  destruct (ascii_dec c d) as [<- | _]; [|discriminate].
  destruct (IH s Hp) as [r ->]. now exists r.
Qed.

Lemma substring_all (s : string) : substring 0 (String.length s) s = s.
Proof. induction s as [|c s IH]; simpl; [reflexivity | now rewrite IH]. Qed.

Lemma after_prefix (p r : string) : after (String.length p) (p +:+ r) = r.
Proof.
  unfold after. rewrite string_length_app.
  replace (String.length p + String.length r - String.length p)
    with (String.length r) by lia.
  rewrite <- (Nat.add_0_r (String.length p)) at 1.
  rewrite substring_app_skip. apply substring_all.
Qed.

Lemma cut_app_sep (sep : ascii) (a b : string) :
  cut sep a = None → cut sep (a +:+ String sep b) = Some (a, b).
Proof.
  induction a as [|x a IH]; simpl.
  - intros _. now rewrite Ascii.eqb_refl.
  - destruct (Ascii.eqb x sep); [discriminate |].
    destruct (cut sep a) as [[? ?]|]; [discriminate |].
    intros _. now rewrite IH.
Qed.

(** [parts[1]] of [line.split(sep, 1)] for a line that starts with a key
    that ends in the separator. *)
Lemma index1_after_key (sep : ascii) (key line : string) :
  cut sep key = None →
  startswith line (key +:+ String sep EmptyString) = true →
  index1 (split1 sep line) = Ok (after (S (String.length key)) line).
Proof.
  intros Hkey Hl. unfold startswith in Hl.
  destruct (prefix_split _ _ Hl) as [r ->].
  replace (S (String.length key))
    with (String.length (key +:+ String sep EmptyString))
    by (rewrite string_length_app; simpl; lia).
  rewrite after_prefix, string_app_assoc.
  change (String sep EmptyString +:+ r) with (String sep r).
  unfold split1. now rewrite (cut_app_sep sep key r Hkey).
Qed.

Lemma last_char_snoc (s : string) (c : ascii) :
  last_char (s +:+ String c EmptyString) = Some c.
Proof.
  induction s as [|d s IH]; [reflexivity |].
  rewrite string_app_cons. simpl.
  destruct (s +:+ String c EmptyString) eqn:E; [|exact IH].
  destruct s; discriminate.
Qed.

Lemma last_char_cons (d : ascii) (s : string) :
  s ≠ EmptyString → last_char (String d s) = last_char s.
Proof. destruct s; [congruence | reflexivity]. Qed.

Lemma rstrip_by_id (p : ascii → bool) (s : string) :
  (∀ c, last_char s = Some c → p c = false) → rstrip_by p s = s.
Proof.
  induction s as [|c s IH]; [reflexivity |].
  destruct s as [|c' s'].
  - intros H. simpl. now rewrite (H c eq_refl).
  - intros H. change (rstrip_by p (String c (String c' s')))
      with (match rstrip_by p (String c' s') with
            | EmptyString => if p c then EmptyString else String c EmptyString
            | r' => String c r'
            end).
    now rewrite (IH H).
Qed.

Lemma nonempty_app_r (a : string) (c : ascii) (r : string) :
  nonempty (a +:+ String c r) = true.
Proof. destruct a; reflexivity. Qed.

(** A name in double quotes, with the line end after it, comes back
    from [strip] and [strip_quotes]. *)
Lemma unquote_quoted (name : string) :
  name ≠ EmptyString →
  first_char name ≠ Some dquote → last_char name ≠ Some dquote →
  strip_quotes (strip (quoted name +:+ nl)) = name.
Proof.
  intros Hne Hfirst Hlast.
  assert (E1 : strip (quoted name +:+ nl) = quoted name).
  { unfold strip, strip_by.
    rewrite rstrip_by_nil_app by reflexivity.
    rewrite rstrip_by_id; [reflexivity |].
    unfold quoted. rewrite string_app_cons.
    intros c Hc.
    rewrite last_char_cons in Hc by (destruct name; discriminate).
    rewrite last_char_snoc in Hc. now injection Hc as <-. }
  rewrite E1. unfold strip_quotes, strip_by, quoted.
  rewrite rstrip_by_nil_app by reflexivity.
  rewrite rstrip_by_id.
  - simpl. destruct name as [|c name]; [congruence |].
    simpl. destruct (Ascii.eqb c dquote) eqn:E; [|reflexivity].
    apply Ascii.eqb_eq in E. subst c. now contradiction Hfirst.
  - intros c Hc. rewrite last_char_cons in Hc by exact Hne.
    destruct (Ascii.eqb c dquote) eqn:E; [|reflexivity].
    apply Ascii.eqb_eq in E. subst c. contradiction.
Qed.
End MoreStrings.

(** ** OS identity inspector: the name *)

Section OsName.

Lemma os_release_body_other (line : string) (st : option string) :
  is_pretty_line line = false → os_release_body line st = Ok (Next st).
Proof.
  intros Hl. unfold os_release_body. unfold is_pretty_line in Hl.
  now rewrite Hl.
Qed.

Lemma os_release_body_line (line : string) (st : option string) :
  is_pretty_line line = true →
  os_release_body line st = Ok (Break (Some (pretty_value line))).
Proof.
  intros Hl. unfold os_release_body. unfold is_pretty_line in Hl.
  rewrite Hl.
  now rewrite (index1_after_key "=" "PRETTY_NAME" line eq_refl Hl).
Qed.

Lemma os_release_loop (lines : list string) (st : option string) :
  for_each lines os_release_body st
  = Ok (match find is_pretty_line lines with
        | Some line => Break (Some (pretty_value line))
        | None => Next st
        end).
Proof.
  induction lines as [|line lines IH]; [reflexivity |].
  rewrite for_each_cons. simpl find.
  destruct (is_pretty_line line) eqn:Hl.
  - now rewrite (os_release_body_line line st Hl).
  - now rewrite (os_release_body_other line st Hl).
Qed.

Lemma os_release_name_spec (h : host) :
  platform_system h = "Linux" →
  (∀ f, open_file h "/etc/os-release" = Ok f →
     get_os_name h
     = Ok (match find is_pretty_line (file_lines f) with
           | Some line =>
               if nonempty (pretty_value line) then pretty_value line
               else platform_platform h
           | None => platform_platform h
           end))
  ∧ (∀ e, open_file h "/etc/os-release" = Raise e →
       get_os_name h = Ok (platform_platform h)).
Proof.
  intros Hsys. unfold get_os_name. rewrite Hsys. simpl. split.
  - intros f Hopen. rewrite Hopen. simpl. unfold for_lines.
    rewrite os_release_loop.
    destruct (find is_pretty_line (file_lines f)) as [line|]; simpl.
    + destruct (nonempty (pretty_value line)); reflexivity.
    + destruct (read_error f); reflexivity.
  - intros e Hopen. now rewrite Hopen.
Qed.

(** X6.  On Linux the name comes from the first line of
    [/etc/os-release] that starts with [PRETTY_NAME=]: its value without
    the white space and the double quotes around it, when that is not
    empty.  When the value is empty, when no line starts so, or when the
    file does not open, the name is [platform.platform()]; later
    [PRETTY_NAME=] lines are never read. *)
Theorem linux_os_name_first_pretty_line (h : host) :
  platform_system h = "Linux" →
  (∀ f, open_file h "/etc/os-release" = Ok f →
     get_os_name h
     = Ok (match find is_pretty_line (file_lines f) with
           | Some line =>
               if nonempty (pretty_value line) then pretty_value line
               else platform_platform h
           | None => platform_platform h
           end))
  ∧ (∀ e, open_file h "/etc/os-release" = Raise e →
       get_os_name h = Ok (platform_platform h)).
Proof. exact (os_release_name_spec h). Qed.

Lemma linux_os_name_first_pretty_line_witness :
  platform_system os_release_host = "Linux"
  ∧ open_file os_release_host "/etc/os-release"
    = Ok {| file_lines := os_release_lines; read_error := None |}
  ∧ get_os_name os_release_host = Ok "Ubuntu 22.04.3 LTS"
  ∧ open_file (bare_host "Linux") "/etc/os-release" = Raise FileNotFoundError
  ∧ get_os_name (bare_host "Linux") = Ok "Linux".
Proof.
  split; [reflexivity |]. split; [reflexivity |].
  split.
  - exact (proj1 (linux_os_name_first_pretty_line os_release_host eq_refl)
             _ eq_refl).
  - split; [reflexivity |].
    exact (proj2 (linux_os_name_first_pretty_line (bare_host "Linux") eq_refl)
             _ eq_refl).
Defined.

Lemma find_app_skip {B : Type} (p : B → bool) (pre : list B) (x : B)
    (post : list B) :
  Forall (fun y => p y = false) pre → p x = true →
  find p (pre ++ x :: post) = Some x.
Proof.
  intros Hpre Hx. induction Hpre as [|y pre Hy Hpre IH]; simpl.
  - now rewrite Hx.
  - now rewrite Hy.
Qed.

(** X7.  Writing [PRETTY_NAME=] and a name in double quotes as the first
    such line of [/etc/os-release] and asking for the OS name gives the
    name back exactly, for every name that is not empty and neither
    starts nor ends with a double quote. *)
Theorem os_release_name_round_trip (h : host) (f : text_file)
    (pre post : list string) (name : string) :
  platform_system h = "Linux" →
  open_file h "/etc/os-release" = Ok f →
  file_lines f = pre ++ ("PRETTY_NAME=" +:+ quoted name +:+ nl) :: post →
  Forall (fun line => is_pretty_line line = false) pre →
  name ≠ EmptyString →
  first_char name ≠ Some dquote → last_char name ≠ Some dquote →
  get_os_name h = Ok name.
Proof.
  intros Hsys Hopen Hlines Hpre Hne Hfirst Hlast.
  rewrite (proj1 (os_release_name_spec h Hsys) f Hopen).
  rewrite Hlines, (find_app_skip _ pre _ post Hpre)
    by apply (prefix_app "PRETTY_NAME=").
  assert (E : pretty_value ("PRETTY_NAME=" +:+ quoted name +:+ nl) = name).
  { unfold pretty_value.
    change 12%nat with (String.length "PRETTY_NAME=").
    rewrite after_prefix. now apply unquote_quoted. }
  rewrite E. destruct name; [congruence | reflexivity].
Qed.

Lemma os_release_name_round_trip_witness :
  platform_system os_release_host = "Linux"
  ∧ open_file os_release_host "/etc/os-release"
    = Ok {| file_lines := os_release_lines; read_error := None |}
  ∧ os_release_lines
    = ["NAME=" +:+ quoted "Ubuntu" +:+ nl]
      ++ ("PRETTY_NAME=" +:+ quoted "Ubuntu 22.04.3 LTS" +:+ nl)
         :: ["PRETTY_NAME=" +:+ quoted "Other" +:+ nl]
  ∧ get_os_name os_release_host = Ok "Ubuntu 22.04.3 LTS".
Proof.
  split; [reflexivity |]. split; [reflexivity |]. split; [reflexivity |].
  apply (os_release_name_round_trip os_release_host _
           ["NAME=" +:+ quoted "Ubuntu" +:+ nl]
           ["PRETTY_NAME=" +:+ quoted "Other" +:+ nl]
           "Ubuntu 22.04.3 LTS" eq_refl eq_refl eq_refl).
  - repeat constructor.
  - discriminate.
  - vm_compute. discriminate.
  - vm_compute. discriminate.
Defined.
End OsName.

Section WindowsName.

Lemma windows_name_of (h : host) (build : option string) :
  platform_system h = "Windows" →
  _get_windows_build_number h = Ok build →
  get_os_name h
  = Ok (windows_name h (if truthy build then default "" build
                        else platform_version h)).
Proof.
  intros Hsys Hbuild. unfold get_os_name. rewrite Hsys. simpl.
  unfold windows_name, edition_suffix.
  destruct (win32_edition h) as [[e|]|x]; simpl; rewrite Hbuild; reflexivity.
Qed.

(** X8.  On Windows, with the registry key open and the value
    [CurrentBuild] read: when [UBR] is read too the name shows
    [CurrentBuild.UBR]; when [UBR] is missing ([FileNotFoundError]) it
    shows [CurrentBuild] alone; when reading [UBR] fails in any other
    way the build that was read is dropped and the name shows
    [platform.version()]. *)
Theorem windows_name_build (h : host) (b : reg_value) :
  platform_system h = "Windows" →
  reg_open h = Ok tt →
  reg_query h "CurrentBuild" = Ok b →
  (∀ u, reg_query h "UBR" = Ok u →
     get_os_name h = Ok (windows_name h (reg_str b +:+ "." +:+ reg_str u)))
  ∧ (reg_query h "UBR" = Raise FileNotFoundError →
     reg_str b ≠ EmptyString →
     get_os_name h = Ok (windows_name h (reg_str b)))
  ∧ (∀ e, reg_query h "UBR" = Raise e → e ≠ FileNotFoundError →
       get_os_name h = Ok (windows_name h (platform_version h))).
Proof.
  intros Hsys Hopen Hb. split; [|split].
  - intros u Hu.
    rewrite (windows_name_of h (Some (reg_str b +:+ "." +:+ reg_str u)) Hsys).
    + unfold truthy.
      change ("." +:+ reg_str u) with (String "." (reg_str u)).
      now rewrite nonempty_app_r.
    + unfold _get_windows_build_number. now rewrite Hopen, Hb, Hu.
  - intros Hu Hne.
    rewrite (windows_name_of h (Some (reg_str b)) Hsys).
    + simpl. now rewrite (proj2 (nonempty_true _) Hne).
    + unfold _get_windows_build_number. now rewrite Hopen, Hb, Hu.
  - intros e Hu He.
    rewrite (windows_name_of h None Hsys); [reflexivity |].
    unfold _get_windows_build_number. rewrite Hopen, Hb, Hu.
    destruct e; try reflexivity. congruence.
Qed.

Lemma windows_name_build_witness :
  (platform_system windows_host = "Windows"
   ∧ reg_open windows_host = Ok tt
   ∧ reg_query windows_host "CurrentBuild" = Ok (RegStr "19045")
   ∧ reg_query windows_host "UBR" = Ok (RegInt 3803)
   ∧ get_os_name windows_host
     = Ok "Windows 10 Professional (build 19045.3803)")
  ∧ (reg_query windows_no_ubr_host "UBR" = Raise FileNotFoundError
     ∧ get_os_name windows_no_ubr_host
       = Ok "Windows 10 Professional (build 19045)")
  ∧ (reg_query windows_denied_ubr_host "UBR" = Raise PermissionError
     ∧ get_os_name windows_denied_ubr_host
       = Ok "Windows 10 Professional (build 10.0.19045)").
Proof.
  split; [|split].
  - do 4 (split; [reflexivity |]).
    exact (proj1 (windows_name_build windows_host (RegStr "19045")
                    eq_refl eq_refl eq_refl) (RegInt 3803) eq_refl).
  - split; [reflexivity |].
    apply (proj1 (proj2 (windows_name_build windows_no_ubr_host
                           (RegStr "19045") eq_refl eq_refl eq_refl)));
      [reflexivity | discriminate].
  - split; [reflexivity |].
    apply (proj2 (proj2 (windows_name_build windows_denied_ubr_host
                           (RegStr "19045") eq_refl eq_refl eq_refl))
             PermissionError); [reflexivity | discriminate].
Defined.
End WindowsName.

(** ** Memory inspector: errors and fallbacks *)

Section MemoryFallbacks.

Lemma sysconf_try_spec (h : host) (pages : string) :
  try_except (sysconf_product h pages) sysconf_classes
    (fun _ => Raise RuntimeError)
  = linux_sysconf_fallback h pages.
Proof.
  unfold linux_sysconf_fallback.
  destruct (sysconf_product h pages) as [v|e]; [reflexivity |].
  destruct e; reflexivity.
Qed.



Lemma mem_total_body_short (line : string) :
  is_total_line line = true → (length (py_split line) < 3)%nat →
  mem_total_body line tt = Ok (Break tt).
Proof.
  intros Hl Hshort. unfold mem_total_body. unfold is_total_line in Hl.
  rewrite Hl.
  destruct (py_split line) as [|p0 [|p1 [|p2 rest]]]; try reflexivity.
  simpl in Hshort. lia.
Qed.

Lemma mem_total_loop_without_entry (lines : list string) :
  match find is_total_line lines with
  | None => for_each lines mem_total_body tt = Ok (Next tt)
  | Some line =>
      (length (py_split line) < 3)%nat →
      for_each lines mem_total_body tt = Ok (Break tt)
  end.
Proof.
  induction lines as [|l lines IH]; [reflexivity |].
  simpl find. rewrite for_each_cons.
  destruct (is_total_line l) eqn:Hl.
  - intros Hshort. now rewrite (mem_total_body_short l Hl Hshort).
  - rewrite (mem_total_body_other l Hl). exact IH.
Qed.

(** X10.  [_get_total_ram_bytes_linux] answers from [os.sysconf] (page
    size times physical pages; [RuntimeError] when [os.sysconf] raises
    [ValueError], [OSError] or [AttributeError]) when the file is
    missing, when the table has no [MemTotal] line, and when the first
    [MemTotal] line has fewer than three fields, whatever follows
    it. *)
Theorem total_ram_falls_back (h : host) :
  (open_file h "/proc/meminfo" = Raise FileNotFoundError →
   _get_total_ram_bytes_linux h = linux_sysconf_fallback h "SC_PHYS_PAGES")
  ∧ (∀ lines,
       open_file h "/proc/meminfo"
       = Ok {| file_lines := lines; read_error := None |} →
       find is_total_line lines = None →
       _get_total_ram_bytes_linux h = linux_sysconf_fallback h "SC_PHYS_PAGES")
  ∧ (∀ f line,
       open_file h "/proc/meminfo" = Ok f →
       find is_total_line (file_lines f) = Some line →
       (length (py_split line) < 3)%nat →
       _get_total_ram_bytes_linux h = linux_sysconf_fallback h "SC_PHYS_PAGES").
Proof.
  split; [|split].
  - intros Hopen. unfold _get_total_ram_bytes_linux. rewrite Hopen. simpl.
    apply sysconf_try_spec.
  - intros lines Hopen Hfind. unfold _get_total_ram_bytes_linux.
    rewrite Hopen. simpl. unfold for_lines. simpl.
    pose proof (mem_total_loop_without_entry lines) as Hloop.
    rewrite Hfind in Hloop. rewrite Hloop. simpl. apply sysconf_try_spec.
  - intros f line Hopen Hfind Hshort. unfold _get_total_ram_bytes_linux.
    rewrite Hopen. simpl. unfold for_lines.
    pose proof (mem_total_loop_without_entry (file_lines f)) as Hloop.
    rewrite Hfind in Hloop. rewrite (Hloop Hshort). simpl.
    apply sysconf_try_spec.
Qed.

Lemma total_ram_falls_back_witness :
  (open_file (sysconf_host "Linux") "/proc/meminfo" = Raise FileNotFoundError
   ∧ _get_total_ram_bytes_linux (sysconf_host "Linux") = Ok 4096000)
  ∧ (open_file sparse_meminfo_host "/proc/meminfo"
     = Ok {| file_lines := sparse_meminfo_lines; read_error := None |}
     ∧ find is_total_line sparse_meminfo_lines = Some ("MemTotal:" +:+ nl)
     ∧ (length (py_split ("MemTotal:" +:+ nl)) < 3)%nat
     ∧ _get_total_ram_bytes_linux sparse_meminfo_host = Ok 4096000)
  ∧ (open_file no_total_host "/proc/meminfo"
     = Ok {| file_lines := ["Buffers:          200000 kB" +:+ nl];
             read_error := None |}
     ∧ find is_total_line ["Buffers:          200000 kB" +:+ nl] = None
     ∧ _get_total_ram_bytes_linux no_total_host = Ok 4096000).
Proof.
  split; [|split].
  - split; [reflexivity |].
    exact (proj1 (total_ram_falls_back (sysconf_host "Linux")) eq_refl).
  - split; [reflexivity |]. split; [reflexivity |].
    assert (W : (length (py_split ("MemTotal:" +:+ nl)) < 3)%nat)
      by (vm_compute; lia).
    split; [exact W |].
    exact (proj2 (proj2 (total_ram_falls_back sparse_meminfo_host))
             _ _ eq_refl eq_refl W).
  - split; [reflexivity |]. split; [reflexivity |].
    exact (proj1 (proj2 (total_ram_falls_back no_total_host))
             _ eq_refl eq_refl).
Defined.

Lemma mem_free_body_short (line : string) (st : free_state) :
  (length (py_split line) < 3)%nat → mem_free_body line st = Ok (Next st).
Proof.
  intros Hshort. unfold mem_free_body.
  destruct (py_split line) as [|p0 [|p1 [|p2 rest]]];
    try (simpl in Hshort; lia);
    destruct (startswith line "MemAvailable:");
    try reflexivity; destruct (startswith line "MemFree:"); reflexivity.
Qed.

Lemma mem_free_loop_without_entry (lines : list string) (st : free_state) :
  Forall (fun l =>
    is_available_line l = true ∨ is_free_line l = true →
    (length (py_split l) < 3)%nat) lines →
  for_each lines mem_free_body st = Ok (Next st).
Proof.
  induction 1 as [|l lines Hl Hall IH]; [reflexivity |].
  rewrite for_each_cons.
  destruct (is_available_line l) eqn:Ha.
  - rewrite (mem_free_body_short l st (Hl (or_introl eq_refl))). exact IH.
  - destruct (is_free_line l) eqn:Hf.
    + rewrite (mem_free_body_short l st (Hl (or_intror eq_refl))). exact IH.
    + rewrite (mem_free_body_other l st Ha Hf). exact IH.
Qed.

(** X11.  On a readable table in which no [MemAvailable] and no
    [MemFree] line has three fields (in particular a table without such
    lines), [_get_free_ram_bytes_linux] answers from [os.sysconf]: page
    size times available pages, [RuntimeError] when [os.sysconf] raises
    [ValueError], [OSError] or [AttributeError]. *)
Theorem free_ram_falls_back (h : host) (lines : list string) :
  open_file h "/proc/meminfo"
  = Ok {| file_lines := lines; read_error := None |} →
  Forall (fun l =>
    is_available_line l = true ∨ is_free_line l = true →
    (length (py_split l) < 3)%nat) lines →
  _get_free_ram_bytes_linux h = linux_sysconf_fallback h "SC_AVPHYS_PAGES".
Proof.
  intros Hopen Hall. unfold _get_free_ram_bytes_linux.
  rewrite Hopen. simpl. unfold free_from_table, for_lines. simpl.
  rewrite (mem_free_loop_without_entry lines _ Hall). simpl.
  apply sysconf_try_spec.
Qed.

Lemma free_ram_falls_back_witness :
  open_file sparse_meminfo_host "/proc/meminfo"
  = Ok {| file_lines := sparse_meminfo_lines; read_error := None |}
  ∧ Forall (fun l =>
      is_available_line l = true ∨ is_free_line l = true →
      (length (py_split l) < 3)%nat) sparse_meminfo_lines
  ∧ _get_free_ram_bytes_linux sparse_meminfo_host = Ok 4096000.
Proof.
  assert (W : Forall (fun l =>
      is_available_line l = true ∨ is_free_line l = true →
      (length (py_split l) < 3)%nat) sparse_meminfo_lines).
  { unfold sparse_meminfo_lines.
    repeat (apply List.Forall_cons;
              [intros H;
               first [ vm_compute; lia
                     | destruct H as [H|H]; vm_compute in H; discriminate H ]
              |]).
    apply List.Forall_nil. }
  split; [reflexivity |]. split; [exact W |].
  exact (free_ram_falls_back sparse_meminfo_host sparse_meminfo_lines
           eq_refl W).
Defined.

Lemma to_bytes_scale (v : Z) (u : string) :
  to_bytes v u = v * 1024 ∨ to_bytes v u = v * 1024 ^ 2
  ∨ to_bytes v u = v * 1024 ^ 3.
Proof.
  unfold to_bytes.
  destruct (String.eqb u "kb"); [now left |].
  destruct (String.eqb u "mb"); [right; left; lia |].
  destruct (String.eqb u "gb"); [right; right; lia | now left].
Qed.

(** X12.  An answer taken from the [MemTotal] entry, its value of at
    most 4300 digits, is a whole number of kibibytes, and for a value
    that is not negative it is not negative and at least the value
    times 1024. *)
Theorem total_ram_from_entry_whole_kib (h : host) (f : text_file)
    (line : string) (v : Z) (u : string) :
  open_file h "/proc/meminfo" = Ok f →
  find is_total_line (file_lines f) = Some line →
  entry_of line = Some (v, u) →
  (value_digits line ≤ int_max_str_digits)%nat →
  ∃ bytes, _get_total_ram_bytes_linux h = Ok bytes
           ∧ (1024 | bytes)
           ∧ (0 ≤ v → v * 1024 ≤ bytes).
Proof.
  intros Hopen Hfind He Hd.
  exists (to_bytes v (py_lower u)).
  split; [now apply (total_ram_from_table h f line) |].
  destruct (to_bytes_scale v (py_lower u)) as [-> | [-> | ->]].
  - split; [exists v; lia | lia].
  - split; [exists (v * 1024); lia | nia].
  - split; [exists (v * 1024 ^ 2); lia | nia].
Qed.

Lemma total_ram_from_entry_whole_kib_witness :
  open_file meminfo_host "/proc/meminfo"
  = Ok {| file_lines := meminfo_lines; read_error := None |}
  ∧ find is_total_line meminfo_lines
    = Some ("MemTotal:       16777216 kB" +:+ nl)
  ∧ entry_of ("MemTotal:       16777216 kB" +:+ nl) = Some (16777216, "kB")
  ∧ (value_digits ("MemTotal:       16777216 kB" +:+ nl)
     ≤ int_max_str_digits)%nat
  ∧ ∃ bytes, _get_total_ram_bytes_linux meminfo_host = Ok bytes
             ∧ (1024 | bytes) ∧ (0 ≤ 16777216 → 16777216 * 1024 ≤ bytes).
Proof.
  assert (Hd : (value_digits ("MemTotal:       16777216 kB" +:+ nl)
                ≤ int_max_str_digits)%nat)
    by (apply Nat.leb_le; vm_compute; reflexivity).
  do 2 (split; [reflexivity |]). split; [vm_compute; reflexivity |].
  split; [exact Hd |].
  exact (total_ram_from_entry_whole_kib meminfo_host _ _ 16777216 "kB"
           eq_refl eq_refl eq_refl Hd).
Defined.
End MemoryFallbacks.

(** ** GPU inspector: merging and sources *)

Section GpuMerging.

Lemma filter_Forall_id {B : Type} (P : B → Prop) `{!∀ x, Decision (P x)}
    (l : list B) :
  Forall P l → filter P l = l.
Proof.
  induction 1 as [|x l Hx Hl IH]; [reflexivity |].
  rewrite filter_cons_True by exact Hx. now rewrite IH.
Qed.

Lemma first_seen_NoDup (l : list string) : NoDup l → first_seen l = l.
Proof.
  induction 1 as [|x l Hx Hl IH]; [reflexivity |].
  simpl. rewrite IH. f_equal. apply filter_Forall_id.
  apply Forall_forall. intros y Hy ->. contradiction.
Qed.

Lemma first_seen_app (l1 l2 : list string) :
  first_seen (l1 ++ l2)
  = first_seen l1 ++ filter (fun y => y ∉ l1) (first_seen l2).
Proof.
  induction l1 as [|x l1 IH]; simpl.
  - symmetry. apply filter_all. intros y Hy. inversion Hy.
  - f_equal. rewrite IH, filter_app. f_equal.
    rewrite list_filter_filter. apply list_filter_iff.
    intros y. rewrite not_elem_of_cons. tauto.
Qed.

Lemma candidates_app (l1 l2 : list string) :
  candidates (l1 ++ l2) = candidates l1 ++ candidates l2.
Proof. unfold candidates. now rewrite fmap_app, filter_app. Qed.

Lemma candidates_id (l : list string) :
  Forall (fun x => x ≠ EmptyString ∧ strip x = x) l → candidates l = l.
Proof.
  intros Hl. unfold candidates.
  assert (E : strip <$> l = l).
  { rewrite <- (list_fmap_id l) at 2. apply Forall_fmap_ext_1.
    eapply Forall_impl; [exact Hl |]. now intros x [_ Hx]. }
  rewrite E. apply filter_Forall_id.
  eapply Forall_impl; [exact Hl |]. now intros x [Hx _].
Qed.

Lemma candidates_idem (l : list string) :
  candidates (candidates l) = candidates l.
Proof.
  apply candidates_id, Forall_forall. intros x Hx.
  now apply (candidates_trimmed l).
Qed.

Lemma unique_ordered_of_candidates (l : list string) :
  _unique_ordered (candidates l) = first_seen (candidates l).
Proof. now rewrite unique_ordered_spec, candidates_idem. Qed.

Lemma length_filter_le {B : Type} (P : B → Prop) `{!∀ x, Decision (P x)}
    (l : list B) :
  (length (filter P l) ≤ length l)%nat.
Proof.
  induction l as [|x l IH]; [reflexivity |].
  rewrite filter_cons. destruct (decide (P x)); simpl; lia.
Qed.

Lemma length_first_seen (l : list string) :
  (length (first_seen l) ≤ length l)%nat.
Proof.
  induction l as [|x l IH]; [reflexivity |]. simpl.
  pose proof (length_filter_le (fun y => y ≠ x) (first_seen l)). lia.
Qed.

(** X13.  [_unique_ordered] is idempotent; on two lists appended it
    keeps the result of the first and adds from the result of the
    second the names the first does not have, in their order; and it
    never makes a list longer. *)
Theorem unique_ordered_merges :
  (∀ items, _unique_ordered (_unique_ordered items) = _unique_ordered items)
  ∧ (∀ items more,
       _unique_ordered (items ++ more)
       = _unique_ordered items
         ++ filter (fun y => y ∉ _unique_ordered items)
                   (_unique_ordered more))
  ∧ (∀ items, (length (_unique_ordered items) ≤ length items)%nat).
Proof.
  split; [|split].
  - intros items. rewrite !unique_ordered_spec.
    rewrite candidates_id.
    + apply first_seen_NoDup, NoDup_first_seen.
    + apply Forall_forall. intros x Hx. rewrite elem_of_first_seen in Hx.
      now apply (candidates_trimmed items).
  - intros items more.
    rewrite !unique_ordered_spec, candidates_app, first_seen_app.
    f_equal. apply list_filter_iff. intros y.
    now rewrite elem_of_first_seen.
  - intros items. rewrite unique_ordered_spec.
    etransitivity; [apply length_first_seen |].
    unfold candidates. etransitivity; [apply length_filter_le |].
    now rewrite length_fmap.
Qed.
End GpuMerging.

Section QuotedFields.

Lemma string_app_nil_r (s : string) : s +:+ EmptyString = s.
Proof.
  induction s as [|c s IH]; [reflexivity |].
  now rewrite string_app_cons, IH.
Qed.

Lemma quote_free_cons (c : ascii) (s : string) :
  quote_free (String c s) → Ascii.eqb c dquote = false ∧ quote_free s.
Proof.
  unfold quote_free. simpl.
  destruct (Ascii.eqb c dquote); [discriminate |].
  destruct (cut dquote s) as [[? ?]|]; [discriminate | tauto].
Qed.

(** Outside the quotes, text without a quote is passed over. *)
Lemma quoted_fields_gap (gap s : string) :
  quote_free gap →
  quoted_fields_from (gap +:+ s) None = quoted_fields_from s None.
Proof.
  induction gap as [|c gap IH]; intros Hg; [reflexivity |].
  destruct (quote_free_cons c gap Hg) as [Hc Hgap].
  rewrite string_app_cons. simpl. rewrite Hc. now apply IH.
Qed.

(** After an opening quote, text without a quote up to the next quote
    is a field. *)
Lemma quoted_fields_inside (field s t : string) :
  quote_free field → nonempty (t +:+ field) = true →
  quoted_fields_from (field +:+ String dquote s) (Some t)
  = (t +:+ field) :: quoted_fields_from s None.
Proof.
  revert t. induction field as [|c field IH]; intros t Hf Hne.
  - rewrite string_app_nil_r in *. simpl. now rewrite Hne.
  - destruct (quote_free_cons c field Hf) as [Hc Hfield].
    rewrite string_app_cons. simpl. rewrite Hc.
    rewrite (IH (t +:+ String c EmptyString) Hfield).
    + now rewrite string_app_assoc.
    + rewrite string_app_assoc. exact Hne.
Qed.

Lemma quoted_fields_quoted (field s : string) :
  quote_free field → field ≠ EmptyString →
  quoted_fields_from (quoted field +:+ s) None
  = field :: quoted_fields_from s None.
Proof.
  intros Hf Hne. unfold quoted.
  rewrite string_app_assoc.
  change (String dquote EmptyString +:+ s) with (String dquote s).
  rewrite string_app_cons.
  simpl. rewrite (quoted_fields_inside field s EmptyString Hf).
  - reflexivity.
  - now apply nonempty_true.
Qed.

(** X14.  The quoted fields of a line come back from the scan of
    [_get_gpu_names_linux]: for fields that are not empty and hold no
    double quote, written in double quotes with any quote-free text
    between them and after them, the scan returns exactly the fields,
    in order. *)
Theorem quoted_fields_round_trip (items : list (string * string))
    (tail : string) :
  Forall (fun item => quote_free (fst item) ∧ quote_free (snd item)
                      ∧ snd item ≠ EmptyString) items →
  quote_free tail →
  quoted_fields (quoted_line items tail) = snd <$> items.
Proof.
  intros Hitems Htail. unfold quoted_fields.
  induction Hitems as [|[gap field] items (Hg & Hf & Hne) Hitems IH]; simpl.
  - rewrite <- (string_app_nil_r tail).
    now rewrite (quoted_fields_gap tail EmptyString Htail).
  - rewrite (quoted_fields_gap gap _ Hg).
    rewrite (quoted_fields_quoted field _ Hf Hne). now rewrite IH.
Qed.

Lemma quoted_fields_round_trip_witness :
  Forall (fun item => quote_free (fst item) ∧ quote_free (snd item)
                      ∧ snd item ≠ EmptyString)
    [("00:02.0 ", "VGA compatible controller"); (" ", "Intel Corporation");
     (" ", "UHD Graphics 620")]
  ∧ quote_free " -r07"
  ∧ quoted_fields
      (quoted_line
         [("00:02.0 ", "VGA compatible controller");
          (" ", "Intel Corporation"); (" ", "UHD Graphics 620")] " -r07")
    = ["VGA compatible controller"; "Intel Corporation"; "UHD Graphics 620"].
Proof.
  assert (W : Forall (fun item => quote_free (fst item)
                                  ∧ quote_free (snd item)
                                  ∧ snd item ≠ EmptyString)
    [("00:02.0 ", "VGA compatible controller"); (" ", "Intel Corporation");
     (" ", "UHD Graphics 620")]).
  { repeat (apply List.Forall_cons;
              [split; [reflexivity | split; [reflexivity | discriminate]] |]).
    apply List.Forall_nil. }
  split; [exact W |]. split; [reflexivity |].
  exact (quoted_fields_round_trip _ " -r07" W eq_refl).
Defined.
End QuotedFields.

Section GpuSources.

Lemma powershell_body_spec (line : string) (names : list string) :
  powershell_name_body line names = Ok (Next (names ++ candidates [line])).
Proof.
  unfold powershell_name_body, candidates.
  change (strip <$> [line]) with [strip line].
  rewrite filter_cons, filter_nil.
  destruct (decide (strip line ≠ EmptyString)) as [Hne|He].
  - now rewrite (proj2 (nonempty_true _) Hne).
  - assert (E : strip line = EmptyString)
      by (destruct (decide (strip line = EmptyString)); tauto).
    rewrite E. simpl. now rewrite app_nil_r.
Qed.

Lemma powershell_loop (lines names : list string) :
  for_each lines powershell_name_body names
  = Ok (Next (names ++ candidates lines)).
Proof.
  revert names. induction lines as [|line lines IH]; intros names.
  - simpl. now rewrite app_nil_r.
  - rewrite for_each_cons, powershell_body_spec. simpl. rewrite IH.
    now rewrite <- app_assoc, <- candidates_app.
Qed.

Lemma wmic_body_spec (line : string) (names : list string) :
  wmic_name_body line names
  = Ok (Next (names ++ candidates (option_list (wmic_value line)))).
Proof.
  unfold wmic_name_body, wmic_value.
  destruct (startswith line "Name=") eqn:Hl; simpl;
    [|now rewrite app_nil_r].
  rewrite (index1_after_key "=" "Name" line eq_refl Hl). simpl.
  unfold candidates, after. simpl. rewrite filter_cons, filter_nil.
  destruct (decide (strip _ ≠ EmptyString)) as [Hne|He].
  - now rewrite (proj2 (nonempty_true _) Hne).
  - assert (E : strip (substring 5 (String.length line - 5) line)
                = EmptyString)
      by (destruct (decide (strip (substring 5 (String.length line - 5) line)
                            = EmptyString)); tauto).
    rewrite E. simpl. now rewrite app_nil_r.
Qed.

Lemma wmic_loop (lines names : list string) :
  for_each lines wmic_name_body names
  = Ok (Next (names ++ candidates (omap wmic_value lines))).
Proof.
  revert names. induction lines as [|line lines IH]; intros names.
  - simpl. now rewrite app_nil_r.
  - rewrite for_each_cons, wmic_body_spec. simpl. rewrite IH.
    rewrite <- app_assoc, <- candidates_app. do 3 f_equal.
    destruct (wmic_value line); reflexivity.
Qed.

Lemma splitlines_empty (s : string) :
  nonempty s = false → splitlines s = [].
Proof. destruct s; [reflexivity | discriminate]. Qed.

(** What [scan_output] passes to the loop. *)
Lemma scan_output_lines (res : completed)
    (body : string → list string → result (flow (list string) (list string)))
    (collect : list string → list string) (names : list string) :
  collect [] = [] →
  (∀ lines names, for_each lines body names
                  = Ok (Next (names ++ collect lines))) →
  scan_output res body names
  = Ok (names ++ collect (if returncode res =? 0
                          then splitlines (stdout res) else [])).
Proof.
  intros Hnil Hloop. unfold scan_output.
  destruct (returncode res =? 0); simpl;
    [|now rewrite Hnil, app_nil_r].
  destruct (nonempty (stdout res)) eqn:Hout.
  - now rewrite Hloop.
  - now rewrite (splitlines_empty _ Hout), Hnil, app_nil_r.
Qed.

Lemma powershell_block (h : host) :
  try_except
    (res ← run h gpu_powershell_cmd;
     scan_output res powershell_name_body [])
    [AnyException] (fun _ => Ok [])
  = Ok (powershell_names h).
Proof.
  unfold powershell_names, output_lines.
  destruct (run h gpu_powershell_cmd) as [res|e]; simpl; [|reflexivity].
  now rewrite (scan_output_lines res _ candidates [] eq_refl powershell_loop).
Qed.

Lemma wmic_block (h : host) :
  try_except
    (res ← run h gpu_wmic_cmd; scan_output res wmic_name_body [])
    [AnyException] (fun _ => Ok [])
  = Ok (wmic_names h).
Proof.
  unfold wmic_names, output_lines.
  destruct (run h gpu_wmic_cmd) as [res|e]; simpl; [|reflexivity].
  assert (Hnil : candidates (omap wmic_value []) = []) by reflexivity.
  rewrite (scan_output_lines res _
             (fun lines => candidates (omap wmic_value lines)) []
             Hnil wmic_loop).
  simpl. now destruct (returncode res =? 0).
Qed.

(** X15.  On Windows the names are those PowerShell printed (its
    non-blank lines, stripped), and the legacy [wmic] query is asked
    only when PowerShell gave no name (it is missing, fails, or prints
    nothing but blank lines); then the names are the non-empty values of
    the [Name=] lines of [wmic].  Either way each name is kept once, at
    its first place. *)
Theorem windows_gpu_names_sources (h : host) :
  _get_gpu_names_windows h
  = Ok (first_seen (match powershell_names h with
                    | [] => wmic_names h
                    | names => names
                    end)).
Proof.
  unfold _get_gpu_names_windows. rewrite powershell_block. simpl.
  destruct (powershell_names h) as [|name names] eqn:E.
  - unfold if_no_names. rewrite wmic_block. simpl.
    unfold wmic_names. now rewrite unique_ordered_of_candidates.
  - change (Ok (_unique_ordered (name :: names))
            = Ok (first_seen (name :: names))).
    rewrite <- E. unfold powershell_names.
    now rewrite unique_ordered_of_candidates.
Qed.

Lemma lspci_body_spec (raw_line : string) (names : list string) :
  lspci_body raw_line names
  = Ok (Next (names ++ option_list (lspci_name raw_line))).
Proof.
  unfold lspci_body, lspci_name, is_display_line.
  destruct (nonempty (strip raw_line)); simpl; [|now rewrite app_nil_r].
  destruct (contains _ _ || contains _ _ || contains _ _); simpl;
    [|now rewrite app_nil_r].
  destruct (quoted_fields (strip raw_line)) as [|c [|v [|d rest]]]; simpl;
    now rewrite ?app_nil_r.
Qed.

Lemma lspci_loop (lines names : list string) :
  for_each lines lspci_body names
  = Ok (Next (names ++ omap lspci_name lines)).
Proof.
  revert names. induction lines as [|line lines IH]; intros names.
  - simpl. now rewrite app_nil_r.
  - rewrite for_each_cons, lspci_body_spec. simpl. rewrite IH.
    rewrite <- app_assoc. do 3 f_equal.
    destruct (lspci_name line); reflexivity.
Qed.

Lemma lspci_block (h : host) :
  try_except
    (res ← run h lspci_cmd; scan_output res lspci_body [])
    [AnyException] (fun _ => Ok [])
  = Ok (lspci_names h).
Proof.
  unfold lspci_names, output_lines.
  destruct (run h lspci_cmd) as [res|e]; simpl; [|reflexivity].
  now rewrite (scan_output_lines res _ (omap lspci_name) [] eq_refl lspci_loop).
Qed.

(** On Linux, when [lspci] names at least one display controller,
    the result is made of those names alone (vendor, a space, device,
    each kept once): the NVIDIA driver files and the DRM cards are not
    looked at. *)
Theorem linux_gpu_names_lspci_first (h : host) :
  lspci_names h ≠ [] →
  _get_gpu_names_linux h = Ok (_unique_ordered (lspci_names h)).
Proof.
  intros Hne. unfold _get_gpu_names_linux. rewrite lspci_block. simpl.
  destruct (lspci_names h) as [|name names]; [congruence | reflexivity].
Qed.

Lemma linux_gpu_names_lspci_first_witness :
  lspci_names lspci_and_drm_host = ["Intel Corporation UHD Graphics 620"]
  ∧ lspci_names lspci_and_drm_host ≠ []
  ∧ get_gpu_names drm_host = Ok ["Intel (i915)"]
  ∧ _get_gpu_names_linux lspci_and_drm_host
    = Ok ["Intel Corporation UHD Graphics 620"].
Proof.
  assert (E : lspci_names lspci_and_drm_host
              = ["Intel Corporation UHD Graphics 620"])
    by (vm_compute; reflexivity).
  assert (W : lspci_names lspci_and_drm_host ≠ [])
    by (rewrite E; discriminate).
  split; [exact E |]. split; [exact W |].
  split; [vm_compute; reflexivity |].
  rewrite (linux_gpu_names_lspci_first lspci_and_drm_host W), E.
  vm_compute. reflexivity.
Defined.
End GpuSources.

(** ** Orchestrator *)

Section MainProperties.
Local Open Scope nat_scope.

Variable format_datetime_local : datetime → result string.
Variable format_bytes_as_gb : Z → result string.
Variable format_bytes_as_mb : Z → result string.
Variable print : list string → string → result unit.

Local Abbreviation run_main :=
  (main format_datetime_local format_bytes_as_gb format_bytes_as_mb print).

Local Arguments table_lines : simpl never.
Local Arguments print_all : simpl never.

Lemma table_line_lengths (rows : list (string * string))
    (header : option (string * string)) :
  Forall (fun line =>
            String.length line
            = col1_width rows header + col2_width rows header + 7)
         (table_lines rows header).
Proof.
  unfold table_lines. repeat apply Forall_app_2.
  - apply Forall_singleton, length_sep.
  - destruct header as [hd|]; [|constructor].
    repeat constructor; [|apply length_sep].
    apply length_row_line; apply py_max_init.
  - apply Forall_fmap, Forall_forall. intros kv Hin. simpl.
    destruct (row_fits rows header kv Hin). now apply length_row_line.
  - apply Forall_singleton, length_sep.
Qed.

Lemma print_all_cons (written : list string) (line : string)
    (rest : list string) :
  print_all print written (line :: rest)
  = match print written line with
    | Ok _ => print_all print (written ++ [line]) rest
    | Raise e => (written, Raise e)
    end.
Proof. reflexivity. Qed.

(** A loop of [print] that returns has written every line. *)
Lemma print_all_returns (lines written out : list string) :
  print_all print written lines = (out, Ok tt) → out = written ++ lines.
Proof.
  revert written. induction lines as [|line rest IH]; intros written.
  - intros [= <-]. now rewrite app_nil_r.
  - rewrite print_all_cons. destruct (print written line) as [u|e].
    + intros H. rewrite (IH _ H), <- app_assoc. reflexivity.
    + discriminate.
Qed.

(** A loop of [print] raises only what a call of [print] raises. *)
Lemma print_all_raises (lines written out : list string) (e : exn) :
  print_all print written lines = (out, Raise e) →
  ∃ before line, print before line = Raise e.
Proof.
  revert written. induction lines as [|line rest IH]; intros written.
  - discriminate.
  - rewrite print_all_cons. destruct (print written line) as [u|e'] eqn:Hp.
    + apply IH.
    + intros [= _ <-]. eauto.
Qed.

(** The rows of a run that returns. *)
Lemma main_rows (h : host) (lines : list string) :
  run_main h = (lines, Ok tt) →
  ∃ (os_name : string) (install_dt : option datetime)
    (gpu_names : list string)
    (install_display physical logical total free : string),
    get_os_install_datetime h = Ok install_dt
    ∧ get_gpu_names h = Ok gpu_names
    ∧ (install_dt = None → install_display = "Unknown")
    ∧ lines
      = table_lines
          [("Operating system", os_name);
           ("OS install date", install_display);
           ("Physical cores", physical);
           ("Logical cores", logical);
           ("GPU(s)",
            match gpu_names with
            | [] => "Unknown"
            | _ => String.concat ", " gpu_names
            end);
           ("Total RAM", total);
           ("Free RAM", free)]
          default_header.
Proof.
  unfold main.
  destruct (get_os_name h) as [os_name|e]; simpl; [|discriminate].
  destruct (get_os_install_datetime h) as [dt|e]; simpl; [|discriminate].
  destruct (get_physical_cpu_count h) as [physical|e]; simpl; [|discriminate].
  destruct (get_total_ram_bytes h) as [total|e]; simpl; [|discriminate].
  destruct (get_free_ram_bytes h) as [free|e]; simpl; [|discriminate].
  destruct (get_gpu_names h) as [names|e]; simpl; [|discriminate].
  set (install := match dt with
                  | Some dt => format_datetime_local dt
                  | None => Ok "Unknown"
                  end).
  assert (Hinst : ∀ shown, install = Ok shown → dt = None → shown = "Unknown").
  { intros shown Hs ->. unfold install in Hs. now injection Hs as <-. }
  destruct install as [shown|e]; simpl; [|discriminate].
  destruct (py_str physical) as [pd|e]; simpl; [|discriminate].
  destruct (py_str (get_logical_cpu_count h)) as [ld|e]; simpl;
    [|discriminate].
  destruct (format_bytes_as_gb total) as [td|e]; simpl; [|discriminate].
  destruct (format_bytes_as_mb free) as [fd|e]; simpl; [|discriminate].
  intros Hprint. apply print_all_returns in Hprint. simpl in Hprint.
  exists os_name, dt, names, shown, pd, ld, td, fd.
  split; [reflexivity |]. split; [reflexivity |].
  split; [now apply Hinst | exact Hprint].
Qed.

(** The RAM queries end [main] before anything is written. *)
Lemma main_raises_as_ram_queries (h : host) :
  (∀ e, get_total_ram_bytes h = Raise e → run_main h = ([], Raise e))
  ∧ (∀ total e, get_total_ram_bytes h = Ok total →
       get_free_ram_bytes h = Raise e → run_main h = ([], Raise e)).
Proof.
  unfold main.
  destruct (os_name_returns h) as [os_name ->].
  destruct (install_datetime_returns h) as [dt ->].
  destruct (physical_cpu_count_returns h) as (physical & -> & _).
  simpl. split.
  - intros e ->. reflexivity.
  - intros total e -> ->. reflexivity.
Qed.

(** X16.  [main] ends with an exception only through the two RAM
    queries, the formatters, [str] and [print]: what
    [get_total_ram_bytes] raises, or else what [get_free_ram_bytes]
    raises, ends it before anything is written, and every exception
    that ends it is raised by one of the RAM queries, by a formatter on
    a value an inspector returned, by [str] on a core count, or by a
    call of [print].  The four other inspectors never end it. *)
Theorem main_exception_sources (h : host) :
  (∀ e, get_total_ram_bytes h = Raise e → run_main h = ([], Raise e))
  ∧ (∀ total e, get_total_ram_bytes h = Ok total →
       get_free_ram_bytes h = Raise e → run_main h = ([], Raise e))
  ∧ (∀ out e, run_main h = (out, Raise e) →
       get_total_ram_bytes h = Raise e
       ∨ get_free_ram_bytes h = Raise e
       ∨ (∃ dt, get_os_install_datetime h = Ok (Some dt)
                ∧ format_datetime_local dt = Raise e)
       ∨ (∃ n, (get_physical_cpu_count h = Ok n
                ∨ get_logical_cpu_count h = n)
               ∧ py_str n = Raise e)
       ∨ (∃ total, get_total_ram_bytes h = Ok total
                   ∧ format_bytes_as_gb total = Raise e)
       ∨ (∃ free, get_free_ram_bytes h = Ok free
                  ∧ format_bytes_as_mb free = Raise e)
       ∨ (∃ before line, print before line = Raise e)).
Proof.
  split; [exact (proj1 (main_raises_as_ram_queries h)) |].
  split; [exact (proj2 (main_raises_as_ram_queries h)) |].
  intros out e. unfold main.
  destruct (os_name_returns h) as [os_name ->].
  destruct (install_datetime_returns h) as [dt ->].
  destruct (physical_cpu_count_returns h) as (physical & -> & _).
  destruct (gpu_names_returns h) as [names ->]. simpl.
  destruct (get_total_ram_bytes h) as [total|e1]; simpl;
    [|intros [= _ ->]; now left].
  destruct (get_free_ram_bytes h) as [free|e2]; simpl;
    [|intros [= _ ->]; right; now left].
  destruct dt as [dt|]; simpl.
  - destruct (format_datetime_local dt) as [shown|e3] eqn:Hfmt; simpl;
      [|intros [= _ ->]; do 2 right; left; eauto].
    destruct (py_str physical) as [pd|e4] eqn:Hp; simpl;
      [|intros [= _ ->]; do 3 right; left; eauto].
    destruct (py_str (get_logical_cpu_count h)) as [ld|e5] eqn:Hl; simpl;
      [|intros [= _ ->]; do 3 right; left; eauto].
    destruct (format_bytes_as_gb total) as [td|e6] eqn:Hgb; simpl;
      [|intros [= _ ->]; do 4 right; left; eauto].
    destruct (format_bytes_as_mb free) as [fd|e7] eqn:Hmb; simpl;
      [|intros [= _ ->]; do 5 right; left; eauto].
    intros Hprint. do 6 right. exact (print_all_raises _ _ _ _ Hprint).
  - destruct (py_str physical) as [pd|e4] eqn:Hp; simpl;
      [|intros [= _ ->]; do 3 right; left; eauto].
    destruct (py_str (get_logical_cpu_count h)) as [ld|e5] eqn:Hl; simpl;
      [|intros [= _ ->]; do 3 right; left; eauto].
    destruct (format_bytes_as_gb total) as [td|e6] eqn:Hgb; simpl;
      [|intros [= _ ->]; do 4 right; left; eauto].
    destruct (format_bytes_as_mb free) as [fd|e7] eqn:Hmb; simpl;
      [|intros [= _ ->]; do 5 right; left; eauto].
    intros Hprint. do 6 right. exact (print_all_raises _ _ _ _ Hprint).
Qed.

(** X17.  When [main] returns, it has written eleven lines of one
    length, and the first column is always 16 wide, the length of the
    longest label, whatever the values are; the second column is at
    least as wide as its header. *)
Theorem main_table_shape (h : host) (lines : list string) :
  run_main h = (lines, Ok tt) →
  length lines = 11
  ∧ ∃ w2, 5 ≤ w2
          ∧ Forall (fun line => String.length line = 16 + w2 + 7) lines
          ∧ lines !! 0 = Some (sep 16 w2 "-")
          ∧ lines !! 1 = Some (row_line 16 w2 ("Property", "Value"))
          ∧ lines !! 2 = Some (sep 16 w2 "=")
          ∧ lines !! 10 = Some (sep 16 w2 "-").
Proof.
  intros Hrun.
  destruct (main_rows h lines Hrun)
    as (os_name & dt & names & shown & pd & ld & td & fd & _ & _ & _ & ->).
  split; [reflexivity |].
  set (rows := [("Operating system", os_name); _; _; _; _; _; _]).
  exists (col2_width rows default_header).
  split; [apply (py_max_init 5) |].
  split; [exact (table_line_lengths rows default_header) |].
  repeat split; reflexivity.
Qed.

(** X18.  When [main] returns and no GPU name was found, the GPU row
    shows [Unknown]; when no install time was found, the install row
    shows [Unknown]. *)
Theorem main_shows_unknown (h : host) (lines : list string) :
  run_main h = (lines, Ok tt) →
  ∃ w2,
    (get_gpu_names h = Ok [] →
     lines !! 7 = Some (row_line 16 w2 ("GPU(s)", "Unknown")))
    ∧ (get_os_install_datetime h = Ok None →
       lines !! 4 = Some (row_line 16 w2 ("OS install date", "Unknown"))).
Proof.
  intros Hrun.
  destruct (main_rows h lines Hrun)
    as (os_name & dt & names & shown & pd & ld & td & fd
        & Hdt & Hnames & Hshown & ->).
  set (rows := [("Operating system", os_name); _; _; _; _; _; _]).
  exists (col2_width rows default_header). split.
  - intros Hgpu. rewrite Hgpu in Hnames. injection Hnames as <-.
    reflexivity.
  - intros Hinst. rewrite Hinst in Hdt. injection Hdt as <-.
    unfold rows. rewrite (Hshown eq_refl). reflexivity.
Qed.
End MainProperties.

Section MainWitnesses.

(** Formatters and a standard output that never fail. *)
Local Abbreviation plain_main :=
  (main (fun _ => Ok "then") (fun _ => Ok "16.00 GB")
     (fun _ => Ok "8192.00 MB") (fun _ _ => Ok tt)).

(** The same with a division that overflows. *)
Local Abbreviation overflowing_main :=
  (main (fun _ => Ok "then") (fun _ => Raise OverflowError)
     (fun _ => Ok "8192.00 MB") (fun _ _ => Ok tt)).

Lemma main_exception_sources_witness :
  (get_total_ram_bytes (bare_host "Darwin") = Raise NotImplementedError
   ∧ plain_main (bare_host "Darwin") = ([], Raise NotImplementedError))
  ∧ (overflowing_main (sysconf_host "Darwin") = ([], Raise OverflowError)
     ∧ get_total_ram_bytes (sysconf_host "Darwin") = Ok 4096000
     ∧ get_free_ram_bytes (sysconf_host "Darwin") = Ok 4096000
     ∧ ∃ total, get_total_ram_bytes (sysconf_host "Darwin") = Ok total
                ∧ (fun _ : Z => @Raise string OverflowError) total
                  = Raise OverflowError).
Proof.
  split.
  - split; [reflexivity |].
    exact (proj1 (main_exception_sources _ _ _ _ (bare_host "Darwin"))
             _ eq_refl).
  - assert (E : overflowing_main (sysconf_host "Darwin")
                = ([], Raise OverflowError)) by (vm_compute; reflexivity).
    split; [exact E |]. split; [reflexivity |]. split; [reflexivity |].
    destruct (proj2 (proj2 (main_exception_sources _ _ _ _
                              (sysconf_host "Darwin"))) _ _ E)
      as [H | [H | [(dt & H & _) | [(n & _ & H) | [H | [(free & _ & H) | H]]]]]].
    + vm_compute in H. discriminate H.
    + vm_compute in H. discriminate H.
    + vm_compute in H. discriminate H.
    + unfold py_str in H.
      destruct (digit_count (pretty n) <=? int_max_str_digits)%nat;
        discriminate H.
    + exact H.
    + discriminate H.
    + destruct H as (before & line & H). discriminate H.
Defined.

Lemma main_table_shape_witness :
  plain_main (sysconf_host "Darwin")
  = (["+------------------+------------+";
      "| Property         | Value      |";
      "+-================-+-==========-+";
      "| Operating system | Darwin     |";
      "| OS install date  | Unknown    |";
      "| Physical cores   | 1          |";
      "| Logical cores    | 1          |";
      "| GPU(s)           | Unknown    |";
      "| Total RAM        | 16.00 GB   |";
      "| Free RAM         | 8192.00 MB |";
      "+------------------+------------+"], Ok tt)
  ∧ length ["+------------------+------------+";
            "| Property         | Value      |";
            "+-================-+-==========-+";
            "| Operating system | Darwin     |";
            "| OS install date  | Unknown    |";
            "| Physical cores   | 1          |";
            "| Logical cores    | 1          |";
            "| GPU(s)           | Unknown    |";
            "| Total RAM        | 16.00 GB   |";
            "| Free RAM         | 8192.00 MB |";
            "+------------------+------------+"] = 11%nat.
Proof.
  assert (E : plain_main (sysconf_host "Darwin")
              = (["+------------------+------------+";
                  "| Property         | Value      |";
                  "+-================-+-==========-+";
                  "| Operating system | Darwin     |";
                  "| OS install date  | Unknown    |";
                  "| Physical cores   | 1          |";
                  "| Logical cores    | 1          |";
                  "| GPU(s)           | Unknown    |";
                  "| Total RAM        | 16.00 GB   |";
                  "| Free RAM         | 8192.00 MB |";
                  "+------------------+------------+"], Ok tt))
    by (vm_compute; reflexivity).
  split; [exact E |].
  exact (proj1 (main_table_shape _ _ _ _ (sysconf_host "Darwin") _ E)).
Defined.

Lemma main_shows_unknown_witness :
  get_gpu_names (sysconf_host "Darwin") = Ok []
  ∧ get_os_install_datetime (sysconf_host "Darwin") = Ok None
  ∧ ∃ lines w2,
      plain_main (sysconf_host "Darwin") = (lines, Ok tt)
      ∧ lines !! 7%nat = Some (row_line 16%nat w2 ("GPU(s)", "Unknown"))
      ∧ lines !! 4%nat = Some (row_line 16%nat w2 ("OS install date", "Unknown")).
Proof.
  split; [reflexivity |]. split; [reflexivity |].
  assert (E : plain_main (sysconf_host "Darwin")
              = (fst (plain_main (sysconf_host "Darwin")), Ok tt))
    by (vm_compute; reflexivity).
  destruct (main_shows_unknown _ _ _ _ (sysconf_host "Darwin") _ E)
    as (w2 & Hgpu & Hinst).
  exists (fst (plain_main (sysconf_host "Darwin"))), w2.
  split; [exact E |].
  split; [exact (Hgpu eq_refl) | exact (Hinst eq_refl)].
Defined.
End MainWitnesses.

(** ** GPU inspector: the Linux sources *)

Section LinuxGpuSources.

Lemma nvidia_model_body_other (rline : string) (names : list string) :
  is_model_line rline = false →
  nvidia_model_body rline names = Ok (Next names).
Proof.
  intros Hl. unfold nvidia_model_body. unfold is_model_line in Hl.
  now rewrite Hl.
Qed.

Lemma nvidia_model_body_line (rline : string) (names : list string) :
  is_model_line rline = true →
  nvidia_model_body rline names
  = Ok (Break (names ++ (if nonempty (strip (after 6 rline))
                         then ["NVIDIA " +:+ strip (after 6 rline)] else []))).
Proof.
  intros Hl. unfold nvidia_model_body. unfold is_model_line in Hl.
  rewrite Hl, (index1_after_key ":" "Model" rline eq_refl Hl). simpl.
  destruct (nonempty _); [reflexivity | now rewrite app_nil_r].
Qed.

Lemma nvidia_model_loop (lines names : list string) :
  for_each lines nvidia_model_body names
  = Ok (match find is_model_line lines with
        | Some line =>
            Break (names ++ (if nonempty (strip (after 6 line))
                             then ["NVIDIA " +:+ strip (after 6 line)]
                             else []))
        | None => Next names
        end).
Proof.
  induction lines as [|line lines IH]; [reflexivity |].
  rewrite for_each_cons. simpl find.
  destruct (is_model_line line) eqn:Hl.
  - now rewrite (nvidia_model_body_line line names Hl).
  - now rewrite (nvidia_model_body_other line names Hl).
Qed.

Lemma nvidia_file_body_spec (h : host) (info_path : string)
    (names : list string) :
  nvidia_file_body h info_path names
  = Ok (Next (names ++ option_list (nvidia_name h info_path))).
Proof.
  unfold nvidia_file_body, nvidia_name.
  destruct (open_file h info_path) as [f|e]; simpl;
    [|now rewrite app_nil_r].
  unfold for_lines. rewrite nvidia_model_loop.
  destruct (find is_model_line (file_lines f)) as [line|]; simpl.
  - destruct (nonempty _); reflexivity.
  - destruct (read_error f); simpl; now rewrite app_nil_r.
Qed.

Lemma appending_loop {B : Type}
    (body : B → list string → result (flow (list string) (list string)))
    (name : B → option string) (xs : list B) (names : list string) :
  (∀ x names, body x names = Ok (Next (names ++ option_list (name x)))) →
  for_each xs body names = Ok (Next (names ++ omap name xs)).
Proof.
  intros Hbody. revert names.
  induction xs as [|x xs IH]; intros names.
  - simpl. now rewrite app_nil_r.
  - rewrite for_each_cons, Hbody. simpl. rewrite IH, <- app_assoc.
    do 3 f_equal. destruct (name x); reflexivity.
Qed.

Lemma driver_not_pci_id (line : string) :
  is_driver_line line = true → is_pci_id_line line = false.
Proof.
  unfold is_driver_line, is_pci_id_line, startswith. intros H.
  destruct line as [|a line]; [reflexivity |].
  unfold String.prefix in *. fold String.prefix in *.
  destruct (ascii_dec "D" a) as [<- | Hn]; [reflexivity | discriminate H].
Qed.

Lemma last_value_snoc (is_key : string → bool) (lines : list string)
    (line : string) :
  last_value is_key (lines ++ [line])
  = if is_key line then Some (strip (after 7 line))
    else last_value is_key lines.
Proof.
  unfold last_value. rewrite rev_unit. simpl.
  destruct (is_key line); reflexivity.
Qed.

Lemma uevent_body_spec (rline : string) (st : uevent_state) :
  uevent_body rline st
  = Ok (Next {| driver := if is_driver_line rline
                          then Some (strip (after 7 rline)) else driver st;
                pci_id := if is_pci_id_line rline
                          then Some (strip (after 7 rline)) else pci_id st |}).
Proof.
  unfold uevent_body.
  destruct (startswith rline "DRIVER=") eqn:Hd.
  - rewrite (index1_after_key "=" "DRIVER" rline eq_refl Hd). simpl.
    unfold is_driver_line. rewrite Hd.
    now rewrite (driver_not_pci_id rline Hd).
  - unfold is_driver_line. rewrite Hd.
    destruct (startswith rline "PCI_ID=") eqn:Hp.
    + rewrite (index1_after_key "=" "PCI_ID" rline eq_refl Hp). simpl.
      unfold is_pci_id_line. now rewrite Hp.
    + unfold is_pci_id_line. rewrite Hp. now destruct st.
Qed.

(** The loop over a [uevent] file keeps the last driver and the last PCI
    id. *)
Lemma uevent_loop (lines seen : list string) :
  for_each lines uevent_body
    {| driver := last_value is_driver_line seen;
       pci_id := last_value is_pci_id_line seen |}
  = Ok (Next {| driver := last_value is_driver_line (seen ++ lines);
                pci_id := last_value is_pci_id_line (seen ++ lines) |}).
Proof.
  revert seen. induction lines as [|line lines IH]; intros seen.
  - simpl. now rewrite app_nil_r.
  - rewrite for_each_cons, uevent_body_spec. simpl.
    rewrite <- !last_value_snoc, IH, <- app_assoc. reflexivity.
Qed.

Lemma vendor_nonempty (key vendor : string) :
  vendor_map !! key = Some vendor → nonempty vendor = true.
Proof.
  intros H. apply elem_of_list_to_map_2 in H.
  unfold nonempty.
  repeat (apply elem_of_cons in H; destruct H as [H | H];
          [injection H as _ ->; reflexivity |]).
  now apply elem_of_nil in H.
Qed.

Lemma drm_card_body_spec (h : host) (card_path : string)
    (names : list string) :
  drm_card_body h card_path names
  = Ok (Next (names ++ option_list (drm_name h card_path))).
Proof.
  unfold drm_card_body, drm_name.
  destruct (path_exists h _); simpl; [|now rewrite app_nil_r].
  destruct (open_file h _) as [f|e]; simpl; [|now rewrite app_nil_r].
  unfold for_lines.
  assert (Hl : for_each (file_lines f) uevent_body
                 {| driver := None; pci_id := None |}
               = Ok (Next {| driver := last_value is_driver_line (file_lines f);
                             pci_id := last_value is_pci_id_line (file_lines f) |}))
    by exact (uevent_loop (file_lines f) []).
  rewrite Hl. simpl.
  destruct (read_error f); simpl; [now rewrite app_nil_r |].
  destruct (last_value is_pci_id_line (file_lines f)) as [id|]; simpl;
    [|now rewrite app_nil_r].
  destruct (nonempty id); simpl; [|now rewrite app_nil_r].
  destruct (vendor_map !! _) as [vendor|] eqn:Hv; simpl;
    [|now rewrite app_nil_r].
  rewrite (vendor_nonempty _ _ Hv).
  destruct (last_value is_driver_line (file_lines f)) as [[|c d]|];
    reflexivity.
Qed.

Lemma bind_ok {A B : Type} (a : A) (k : A → result B) : (Ok a ≫= k) = k a.
Proof. reflexivity. Qed.

Lemma nvidia_step (h : host) :
  if_no_names [] (fun names =>
    paths ← glob h "/proc/driver/nvidia/gpus/*/information";
    out ← for_each paths (nvidia_file_body h) names;
    Ok (names_of out))
  = Ok (nvidia_names h).
Proof.
  unfold if_no_names, nvidia_names.
  destruct (glob h _) as [paths|e]; simpl; [|reflexivity].
  now rewrite (appending_loop _ (nvidia_name h) paths []
                 (nvidia_file_body_spec h)).
Qed.

Lemma drm_step (h : host) :
  if_no_names [] (fun names =>
    paths ← glob h "/sys/class/drm/card[0-9]*";
    out ← for_each paths (drm_card_body h) names;
    Ok (names_of out))
  = Ok (drm_names h).
Proof.
  unfold if_no_names, drm_names.
  destruct (glob h _) as [paths|e]; simpl; [|reflexivity].
  now rewrite (appending_loop _ (drm_name h) paths []
                 (drm_card_body_spec h)).
Qed.

(** X19.  On Linux the three sources are asked in turn and the first one
    that gives a name decides: [lspci], then the information files of
    the NVIDIA driver, then the DRM cards.  A file that cannot be read
    only skips its own device; the names of the deciding source are
    kept once each, in order. *)
Theorem linux_gpu_names_sources (h : host) :
  _get_gpu_names_linux h
  = Ok (_unique_ordered
          (match lspci_names h, nvidia_names h with
           | [], [] => drm_names h
           | [], names => names
           | names, _ => names
           end)).
Proof.
  unfold _get_gpu_names_linux. rewrite lspci_block, bind_ok.
  destruct (lspci_names h) as [|n1 l1]; [|reflexivity].
  rewrite nvidia_step, bind_ok.
  destruct (nvidia_names h) as [|n2 l2]; [|reflexivity].
  now rewrite drm_step.
Qed.
End LinuxGpuSources.

(** ** The GPU sources at work *)

Section GpuExamples.

Example gpu_names_from_wmic :
  powershell_names wmic_host = []
  ∧ _get_gpu_names_windows wmic_host
    = Ok ["NVIDIA GeForce RTX 3060"; "Intel(R) UHD Graphics"].
Proof. split; vm_compute; reflexivity. Qed.

Example gpu_names_powershell_before_wmic :
  wmic_names both_tools_host = ["Some other adapter"]
  ∧ _get_gpu_names_windows both_tools_host
    = Ok ["NVIDIA GeForce RTX 3060"; "Intel(R) UHD Graphics"].
Proof. split; vm_compute; reflexivity. Qed.

Example gpu_names_from_nvidia_driver :
  lspci_names nvidia_host = []
  ∧ nvidia_names nvidia_host = ["NVIDIA GeForce RTX 3060"]
  ∧ drm_names nvidia_host = ["Intel (i915)"]
  ∧ _get_gpu_names_linux nvidia_host = Ok ["NVIDIA GeForce RTX 3060"].
Proof. repeat split; vm_compute; reflexivity. Qed.
End GpuExamples.

(** ** Conversions between integers and text at work *)

Section ConversionExamples.

(** [int] reads the no-break space as a space and does not skip the
    separators 28 to 31; it converts 4300 digits and not 4301, leading
    zeros counted. *)
Example py_int_limits :
  py_int (String (ascii_of_N 160) "5") = Ok 5
  ∧ py_int (String (ascii_of_N 28) "5") = Raise ValueError
  ∧ strip (String (ascii_of_N 28) "5") = "5"
  ∧ py_int (repeat_char "0" 4300) = Ok 0
  ∧ py_int (repeat_char "0" 4301) = Raise ValueError
  ∧ py_int (repeat_char "1" 4301) = Raise ValueError
  ∧ int_literal (repeat_char "1" 4301) = Some (ones 4301).
Proof.
  do 6 (split; [vm_compute; reflexivity |]).
  exact (int_literal_ones 4300).
Qed.

Example py_str_examples :
  py_str (-12) = Ok "-12" ∧ py_str 0 = Ok "0" ∧ py_str 4096 = Ok "4096".
Proof. repeat split; vm_compute; reflexivity. Qed.
End ConversionExamples.
